(** * Smart Queue / Accurate History

    A shallow embedding of [mt5-service/smart_queue_service.py]: the
    history fetcher ([AccurateHistoryFetcher]), the per-user snapshot
    store, the risk-metric calculator and the read-through position
    cache ([SmartQueueManager]), followed by the properties the
    specification states about them.

    Conventions of the embedding.
    - A Python [float] is an IEEE binary64 value: Rocq's primitive
      [float], with the same correctly rounded [+ - * /].
    - A [datetime] is an integer number of microseconds; a [timedelta]
      likewise.  [datetime.fromtimestamp] and [total_seconds] are written
      out below.
    - What Python leaves to the host is a parameter, [Host]: the range of
      timestamps [datetime.fromtimestamp] accepts, and the order in which
      a set of tickets is iterated.
    - The terminal SDK ([MetaTrader5]) and the wall clock are an abstract
      world [W] with the interface [Terminal].  A driver call that
      returns a value may raise instead; [mt5.shutdown()], which only
      closes the connection, is taken to return.  What runs while the
      worker awaits a callback is a parameter too, [EventLoop].  Every
      property is proved for every host, world and event loop.
    - Methods are computations in a state-and-exception monad [M] over
      the world, the manager object and a log of observable events. *)

From Stdlib Require Import ZArith List Bool Lia Floats Uint63 Sorted.
From stdpp Require Import base option list gmap strings pretty.

Local Open Scope Z_scope.

(* Decimal literals such as 0.1 denote the nearest binary64 value, as in
   Python. *)
Set Warnings "-inexact-float".

(** ** Python numerics *)

Module Py.

(** [bool(x)] for a float: false exactly for [0.0] and [-0.0]. *)
Definition truthy (x : float) : bool := negb (PrimFloat.eqb x 0%float).

(** [x > 0] and [x < y] on floats (false on NaN). *)
Definition gt0 (x : float) : bool := PrimFloat.ltb 0%float x.
Definition lt (x y : float) : bool := PrimFloat.ltb x y.

(** [float(z)] for an integer of magnitude below 2^63 (exact below
    2^53, which covers every duration and timestamp used here). *)
Definition of_int (z : Z) : float :=
  match z with
  | Z0 => 0%float
  | Zpos _ => PrimFloat.of_uint63 (Uint63.of_Z z)
  | Zneg p => PrimFloat.opp (PrimFloat.of_uint63 (Uint63.of_Z (Zpos p)))
  end.

(** [x / y]: Python raises [ZeroDivisionError] when [y == 0]. *)
Definition truediv (x y : float) : option float :=
  if PrimFloat.eqb y 0%float then None else Some (PrimFloat.div x y).

(** [bool(o)] for a value that is a float or [None]. *)
Definition truthy_opt (o : option float) : bool :=
  match o with Some x => truthy x | None => false end.

(** [o == 0] for a value that is a float or [None]. *)
Definition eq0_opt (o : option float) : bool :=
  match o with Some x => PrimFloat.eqb x 0%float | None => false end.

(** [sub in s] on strings. *)
Definition str_in (sub s : string) : bool :=
  match String.index 0 sub s with Some _ => true | None => false end.

(** [x if x > 0 else None]. *)
Definition positive_or_None (x : float) : option float :=
  if gt0 x then Some x else None.

End Py.

(** ** Time *)

Definition datetime := Z.   (* microseconds *)
Definition timedelta := Z.  (* microseconds *)

Definition td_seconds (n : Z) : timedelta := n * 1000000.
Definition td_minutes (n : Z) : timedelta := n * 60 * 1000000.
Definition td_hours (n : Z) : timedelta := n * 3600 * 1000000.
Definition td_days (n : Z) : timedelta := n * 86400 * 1000000.

(** [timedelta.total_seconds()]: the microsecond count divided by 10^6,
    as a float. *)
Definition total_seconds (td : timedelta) : float :=
  PrimFloat.div (Py.of_int td) (Py.of_int 1000000).

(** The instant [t] seconds after the epoch. *)
Definition from_epoch (t : Z) : datetime := t * 1000000.

(** ** The host

    [timestamp_ok]: the timestamps the host's [localtime] accepts;
    [datetime.fromtimestamp] raises on the others (OverflowError, OSError
    or ValueError, depending on the platform).

    [set_difference a b]: the tickets of [set(a) - set(b)] in the order
    in which a [for] loop visits them.  Python fixes the elements of the
    set, each once, and leaves the order to the implementation. *)
Class Host := {
  timestamp_ok : Z -> bool;
  set_difference : list Z -> list Z -> list Z;
  set_difference_NoDup : forall a b, List.NoDup (set_difference a b);
  set_difference_In :
    forall a b k, In k (set_difference a b) <-> In k a /\ ~ In k b
}.

(** [datetime.fromtimestamp(t)] for an integer number of seconds: [None]
    stands for the exception. *)
Definition fromtimestamp `{Host} (t : Z) : option datetime :=
  if timestamp_ok t then Some (from_epoch t) else None.

(** The string [dt.isoformat()], kept as the instant it renders. *)
Record IsoString := isoformat { iso_instant : datetime }.

(** ** The driver's records (the fields the service reads) *)

Inductive PositionType := POSITION_TYPE_BUY | POSITION_TYPE_SELL.
Inductive DealType := DEAL_TYPE_BUY | DEAL_TYPE_SELL | DEAL_TYPE_BALANCE | DEAL_TYPE_OTHER.
Inductive DealEntry := DEAL_ENTRY_IN | DEAL_ENTRY_OUT | DEAL_ENTRY_INOUT | DEAL_ENTRY_OUT_BY.

Record Position := {
  pos_ticket : Z;
  pos_symbol : string;
  pos_type : PositionType;
  pos_volume : float;
  pos_price_open : float;
  pos_price_current : float;
  pos_sl : float;
  pos_tp : float;
  pos_profit : float;
  pos_swap : float;
  pos_time : Z
}.

Record Deal := {
  deal_position_id : Z;
  deal_symbol : string;
  deal_type : DealType;
  deal_entry : DealEntry;
  deal_volume : float;
  deal_price : float;
  deal_time : Z;
  deal_profit : float;
  deal_commission : float;
  deal_swap : float
}.

Record Order := {
  order_position_id : Z;
  order_sl : float;
  order_tp : float;
  order_price_current : float;
  order_time_done : Z
}.

(** ** The service's records *)

(** [class PositionSnapshot]. *)
Record PositionSnapshot := {
  snap_ticket : Z;
  snap_symbol : string;
  snap_type : string;
  snap_volume : float;
  snap_price_open : float;
  snap_price_current : float;
  snap_sl : float;
  snap_tp : float;
  snap_profit : float;
  snap_swap : float;
  snap_commission : float;
  snap_time : datetime;
  snap_last_seen : datetime
}.

(** The dict a history source returns.  Keys that every source sets are
    plain fields; a key only some paths set is an [option] ([None]: the
    key is absent).  ['sl'] and ['tp'] hold a float or Python's [None],
    hence the nested option: [Some None] is "key present, value None". *)
Record TradeData := {
  td_source : string;
  td_accuracy : string;
  td_ticket : Z;
  td_symbol : option string;
  td_volume : option float;
  td_exit_price : float;
  td_exit_time : datetime;
  td_profit : float;
  td_swap : float;
  td_commission : float;
  td_entry_price : option float;
  td_entry_time : option datetime;
  td_side : option string;
  td_sl : option (option float);
  td_tp : option (option float)
}.

(** [d.get(key, default)] for an optional key. *)
Definition dict_get {A} (field : option A) (default : A) : A :=
  match field with Some v => v | None => default end.

(** The [trade_data] dict handed to the callback.  [stop_loss] and
    [take_profit] are always present and hold a float or [None]; the
    three risk keys are present only when the calculator sets them. *)
Record TradeRecord := {
  user_id : string;
  account_id : option string;
  external_trade_id : string;
  symbol : string;
  side : string;
  volume : float;
  entry_price : float;
  entry_time : IsoString;
  exit_price : float;
  exit_time : IsoString;
  gross_pnl : float;
  commission : float;
  swap : float;
  net_pnl : float;
  stop_loss : option float;
  take_profit : option float;
  status : string;
  source : string;
  accuracy : string;
  risk_amount : option float;
  r_multiple : option float;
  risk_reward : option float
}.

(** One element of the cached positions list. *)
Record FormattedPosition := {
  fp_ticket : Z;
  fp_symbol : string;
  fp_type : string;
  fp_volume : float;
  fp_price_open : float;
  fp_price_current : float;
  fp_sl : option float;
  fp_tp : option float;
  fp_profit : float;
  fp_swap : float;
  fp_time : IsoString
}.

(** [self.cache[user_id]]. *)
Record CacheEntry := {
  ce_positions : list FormattedPosition;
  ce_timestamp : datetime
}.

(** ** Observable events

    Driver calls, sleeps, callback deliveries and the log lines of
    [get_closed_position_data], in the order they happen. *)

Inductive LogLine :=
| LogAttempt (ticket attempt max_retries : Z)
| LogFoundDeals
| LogFoundOrders
| LogWaiting (wait_time : Z)
| LogNotFound (ticket max_retries : Z).

Inductive Event :=
| EvLog (l : LogLine)
| EvSleep (seconds : float)
| EvInitialize
| EvLogin (login : Z) (server : string)
| EvLastError
| EvShutdown
| EvPositionsGet
| EvDealsGet (date_from date_to : datetime)
| EvOrdersGet (date_from date_to : datetime)
| EvCallback (trade : TradeRecord).

(** ** The world: terminal and clock *)

(** A driver call returns normally or raises. *)
Inductive Resp (A : Type) := Raises | Returns (a : A).
Arguments Raises {A}.
Arguments Returns {A} a.

(** The clock and the calls of the [MetaTrader5] module that the service
    makes.  A call that returns a value may raise instead.
    [mt5.shutdown()] only closes the connection to the terminal and
    returns nothing; it is taken to return, and what is proved below of
    the way a request or a turn of the worker ends is for terminals on
    which it does. *)
Class Terminal (W : Type) := {
  now : W -> datetime;
  sleep : float -> W -> W;
  mt5_initialize : W -> Resp bool * W;
  mt5_login : Z -> string -> string -> W -> Resp bool * W;
  mt5_last_error : W -> Resp (Z * string) * W;
  mt5_shutdown : W -> W;
  mt5_positions_get : W -> Resp (option (list Position)) * W;
  mt5_history_deals_get : datetime -> datetime -> W -> Resp (option (list Deal)) * W;
  mt5_history_orders_get : datetime -> datetime -> W -> Resp (option (list Order)) * W
}.

(** ** The manager object *)

(** An [on_trade_closed] callback, by the way it comes back: how it
    leaves the world, and whether it raises.  What happens to the manager
    object while it is awaited is [during_callback] below. *)
Definition Callback (W : Type) : Type := TradeRecord -> W -> Resp unit * W.

(** The request dict built by [get_positions]. *)
Record Request (W : Type) := {
  req_user_id : string;
  req_login : Z;
  req_password : string;
  req_server : string;
  req_account_id : option string;
  req_on_trade_closed : option (Callback W)
}.
Arguments req_user_id {W} _.
Arguments req_login {W} _.
Arguments req_password {W} _.
Arguments req_server {W} _.
Arguments req_account_id {W} _.
Arguments req_on_trade_closed {W} _.

(** [class AccurateHistoryFetcher]: its two attributes. *)
Record AccurateHistoryFetcher := {
  last_warmup : option datetime;
  warmup_interval : Z
}.

(** A per-user snapshot dict [{ticket: snapshot}], in insertion order. *)
Definition SnapshotDict := list (Z * PositionSnapshot).

(** [class SmartQueueManager]: its attributes.  [request_queue] is the
    content of the [asyncio.Queue], oldest first; its capacity is
    [queue_maxsize]. *)
Record SmartQueueManager (W : Type) := {
  request_queue : list (Request W);
  cache : gmap string CacheEntry;
  position_snapshots : gmap string SnapshotDict;
  cache_duration : float;
  history_fetcher : AccurateHistoryFetcher;
  worker_running : bool
}.
Arguments request_queue {W} _.
Arguments cache {W} _.
Arguments position_snapshots {W} _.
Arguments cache_duration {W} _.
Arguments history_fetcher {W} _.
Arguments worker_running {W} _.

Definition queue_maxsize : nat := 100.

(** [SmartQueueManager.__init__] with [AccurateHistoryFetcher.__init__]. *)
Definition SmartQueueManager_init (W : Type) : SmartQueueManager W := {|
  request_queue := [];
  cache := ∅;
  position_snapshots := ∅;
  cache_duration := 2%float;
  history_fetcher := {| last_warmup := None; warmup_interval := 30 |};
  worker_running := false
|}.

(** ** The event loop

    [await on_trade_closed(trade_data)] suspends the worker.  Until the
    callback completes, the callback itself (which has the manager object
    in reach) and the other tasks of the loop (callers of [get_positions]
    putting their requests, a call of [stop_worker]) run:
    [during_callback trade_data] is what they make of the manager object
    and the world in that time. *)
Class EventLoop (W : Type) := {
  during_callback :
    TradeRecord -> SmartQueueManager W -> W -> SmartQueueManager W * W
}.

(** The whole state a method runs in. *)
Record State (W : Type) := {
  st_world : W;
  st_log : list Event;
  st_self : SmartQueueManager W
}.
Arguments st_world {W} _.
Arguments st_log {W} _.
Arguments st_self {W} _.

(** ** The method monad: state and exceptions *)

Inductive Res (A : Type) := Exc | Val (a : A).
Arguments Exc {A}.
Arguments Val {A} a.

(** How a call of the coroutine [get_positions] ends, as far as it is
    followed here: it returns a list, or it is suspended inside
    [request_queue.put] because the queue is full.  [OutOfFuel] is the
    model's own: the wait loop is run with a bound on its iterations (see
    [wait_fuel]). *)
Inductive Outcome (A : Type) := Returned (a : A) | BlockedOnPut | OutOfFuel.
Arguments Returned {A} a.
Arguments BlockedOnPut {A}.
Arguments OutOfFuel {A}.

Section Service.

Context {host : Host} {W : Type} {terminal : Terminal W} {loop : EventLoop W}.

Definition M (A : Type) : Type := State W -> Res A * State W.

Definition ret {A} (a : A) : M A := fun s => (Val a, s).

Definition bind {A B} (m : M A) (k : A -> M B) : M B :=
  fun s => match m s with
           | (Val a, s') => k a s'
           | (Exc, s') => (Exc, s')
           end.

Notation "x <- m ;; k" := (bind m (fun x => k))
  (at level 100, m at next level, right associativity).
Notation "m ;; k" := (bind m (fun _ => k))
  (at level 100, right associativity).

(** [try: body / except Exception: handler].  What the body did before
    it raised stays done. *)
Definition try_except {A} (body handler : M A) : M A :=
  fun s => match body s with
           | (Val a, s') => (Val a, s')
           | (Exc, s') => handler s'
           end.

(** [for x in l: body x]. *)
Fixpoint for_each {A} (l : list A) (body : A -> M unit) : M unit :=
  match l with
  | [] => ret tt
  | x :: rest => body x ;; for_each rest body
  end.

Definition set_world (w : W) (s : State W) : State W :=
  {| st_world := w; st_log := st_log s; st_self := st_self s |}.

Definition set_self (m : SmartQueueManager W) (s : State W) : State W :=
  {| st_world := st_world s; st_log := st_log s; st_self := m |}.

Definition emit (e : Event) : M unit :=
  fun s => (Val tt, {| st_world := st_world s; st_log := st_log s ++ [e]; st_self := st_self s |}).

(** A driver call: the world moves on, a raise becomes an exception. *)
Definition call {A} (op : W -> Resp A * W) : M A :=
  fun s => match op (st_world s) with
           | (Returns a, w) => (Val a, set_world w s)
           | (Raises, w) => (Exc, set_world w s)
           end.

(** [datetime.now()]. *)
Definition datetime_now : M datetime :=
  fun s => (Val (now (st_world s)), s).

(** [time.sleep(seconds)] and [await asyncio.sleep(seconds)] as seen by
    the task that sleeps. *)
Definition time_sleep (seconds : float) : M unit :=
  emit (EvSleep seconds) ;;
  (fun s => (Val tt, set_world (sleep seconds (st_world s)) s)).

Definition initialize : M bool := emit EvInitialize ;; call mt5_initialize.
Definition login (l : Z) (password server : string) : M bool :=
  emit (EvLogin l server) ;; call (mt5_login l password server).
Definition last_error : M (Z * string) := emit EvLastError ;; call mt5_last_error.
Definition shutdown : M unit :=
  emit EvShutdown ;; (fun s => (Val tt, set_world (mt5_shutdown (st_world s)) s)).
Definition positions_get : M (option (list Position)) :=
  emit EvPositionsGet ;; call mt5_positions_get.
Definition history_deals_get (date_from date_to : datetime) : M (option (list Deal)) :=
  emit (EvDealsGet date_from date_to) ;; call (mt5_history_deals_get date_from date_to).
Definition history_orders_get (date_from date_to : datetime) : M (option (list Order)) :=
  emit (EvOrdersGet date_from date_to) ;; call (mt5_history_orders_get date_from date_to).

(** Reading and writing the manager's attributes. *)
Definition get_self : M (SmartQueueManager W) := fun s => (Val (st_self s), s).

Definition set_last_warmup (t : option datetime) : M unit :=
  fun s =>
    let m := st_self s in
    (Val tt, set_self {| request_queue := request_queue m;
                         cache := cache m;
                         position_snapshots := position_snapshots m;
                         cache_duration := cache_duration m;
                         history_fetcher := {| last_warmup := t;
                                               warmup_interval := warmup_interval (history_fetcher m) |};
                         worker_running := worker_running m |} s).

Definition set_position_snapshots (u : string) (d : SnapshotDict) : M unit :=
  fun s =>
    let m := st_self s in
    (Val tt, set_self {| request_queue := request_queue m;
                         cache := cache m;
                         position_snapshots := <[u := d]> (position_snapshots m);
                         cache_duration := cache_duration m;
                         history_fetcher := history_fetcher m;
                         worker_running := worker_running m |} s).

Definition set_cache (u : string) (e : CacheEntry) : M unit :=
  fun s =>
    let m := st_self s in
    (Val tt, set_self {| request_queue := request_queue m;
                         cache := <[u := e]> (cache m);
                         position_snapshots := position_snapshots m;
                         cache_duration := cache_duration m;
                         history_fetcher := history_fetcher m;
                         worker_running := worker_running m |} s).

Definition set_request_queue (q : list (Request W)) : M unit :=
  fun s =>
    let m := st_self s in
    (Val tt, set_self {| request_queue := q;
                         cache := cache m;
                         position_snapshots := position_snapshots m;
                         cache_duration := cache_duration m;
                         history_fetcher := history_fetcher m;
                         worker_running := worker_running m |} s).

(** [raise]: used where Python raises. *)
Definition raise {A} : M A := fun s => (Exc, s).

(** [datetime.fromtimestamp(t)] as a step of a method. *)
Definition datetime_fromtimestamp (t : Z) : M datetime :=
  match fromtimestamp t with
  | Some d => ret d
  | None => raise
  end.

(** ** AccurateHistoryFetcher *)

(** [warm_history_cache]. *)
Definition warm_history_cache : M unit :=
  now_ <- datetime_now ;;
  self <- get_self ;;
  let fetcher := history_fetcher self in
  if match last_warmup fetcher with
     | Some lw => Py.lt (total_seconds (now_ - lw)) (Py.of_int (warmup_interval fetcher))
     | None => false
     end
  then ret tt
  else
    try_except
      (let old_date := now_ - td_days 90 in
       _ <- history_deals_get old_date now_ ;;
       set_last_warmup (Some now_) ;;
       time_sleep 0.3%float)
      (ret tt).

(** [_get_sl_tp_from_orders]. *)
Definition _get_sl_tp_from_orders (ticket : Z) : M (option float * option float) :=
  try_except
    (now1 <- datetime_now ;;
     let from_date := now1 - td_hours 1 in
     now2 <- datetime_now ;;
     orders <- history_orders_get from_date now2 ;;
     match orders with
     | Some orders =>
         match find (fun order => order_position_id order =? ticket) orders with
         | Some order =>
             ret (Py.positive_or_None (order_sl order), Py.positive_or_None (order_tp order))
         | None => ret (None, None)
         end
     | None => ret (None, None)
     end)
    (ret (None, None)).

(** The loop of [_fetch_from_deals] that picks the entry and exit deals:
    each matching deal overwrites the one kept so far. *)
Definition pick_deals (ticket : Z) (deals : list Deal) : option Deal * option Deal :=
  fold_left
    (fun '(entry_deal, exit_deal) deal =>
       if deal_position_id deal =? ticket then
         match deal_entry deal with
         | DEAL_ENTRY_IN => (Some deal, exit_deal)
         | DEAL_ENTRY_OUT => (entry_deal, Some deal)
         | _ => (entry_deal, exit_deal)
         end
       else (entry_deal, exit_deal))
    deals (None, None).

Definition is_entry_of (ticket : Z) (deal : Deal) : bool :=
  (deal_position_id deal =? ticket) &&
  match deal_entry deal with DEAL_ENTRY_IN => true | _ => false end.

Definition is_exit_of (ticket : Z) (deal : Deal) : bool :=
  (deal_position_id deal =? ticket) &&
  match deal_entry deal with DEAL_ENTRY_OUT => true | _ => false end.

Definition side_of_deal (deal : Deal) : string :=
  match deal_type deal with DEAL_TYPE_BUY => "buy" | _ => "sell" end.

(** The dict literal of [_fetch_from_deals] followed by its updates.
    [exit_time] is the converted time of the exit deal; [entry] is the
    entry deal, when one was found, with its converted time. *)
Definition deals_data (ticket : Z) (exit_deal : Deal) (exit_time : datetime)
    (entry : option (Deal * datetime)) (sl tp : option float) : TradeData :=
  {| td_source := "history_deals";
     td_accuracy := "100%";
     td_ticket := ticket;
     td_symbol := Some (deal_symbol exit_deal);
     td_volume := Some (deal_volume exit_deal);
     td_exit_price := deal_price exit_deal;
     td_exit_time := exit_time;
     td_profit := deal_profit exit_deal;
     td_swap := deal_swap exit_deal;
     td_commission :=
       match entry with
       | Some (e, _) => PrimFloat.add (deal_commission exit_deal) (deal_commission e)
       | None => deal_commission exit_deal
       end;
     td_entry_price := option_map (fun e => deal_price (fst e)) entry;
     td_entry_time := option_map snd entry;
     td_side := option_map (fun e => side_of_deal (fst e)) entry;
     td_sl := Some sl;
     td_tp := Some tp |}.

(** [_fetch_from_deals]. *)
Definition _fetch_from_deals (ticket : Z) : M (option TradeData) :=
  try_except
    (now1 <- datetime_now ;;
     let from_date := now1 - td_minutes 30 in
     now2 <- datetime_now ;;
     deals <- history_deals_get from_date now2 ;;
     match deals with
     | None | Some [] => ret None
     | Some deals =>
         let '(entry_deal, exit_deal) := pick_deals ticket deals in
         match exit_deal with
         | None => ret None
         | Some exit_deal =>
             entry_deal <-
               match entry_deal with
               | Some e => ret (Some e)
               | None =>
                   now3 <- datetime_now ;;
                   let older_from := now3 - td_days 7 in
                   older_deals <- history_deals_get older_from from_date ;;
                   match older_deals with
                   | Some older_deals => ret (find (is_entry_of ticket) older_deals)
                   | None => ret None
                   end
               end ;;
             exit_time <- datetime_fromtimestamp (deal_time exit_deal) ;;
             entry <-
               match entry_deal with
               | Some e =>
                   entry_time <- datetime_fromtimestamp (deal_time e) ;;
                   ret (Some (e, entry_time))
               | None => ret None
               end ;;
             sl_tp <- _get_sl_tp_from_orders ticket ;;
             let '(sl, tp) := sl_tp in
             ret (Some (deals_data ticket exit_deal exit_time entry sl tp))
         end
     end)
    (ret None).

(** The accumulation loop of [_fetch_from_orders]: profit, commission and
    swap of the ticket's deals, added in list order from [0.0]. *)
Definition sum_deals (ticket : Z) (deals : list Deal) : float * float * float :=
  fold_left
    (fun '(profit, commission, swap) deal =>
       if deal_position_id deal =? ticket
       then (PrimFloat.add profit (deal_profit deal),
             PrimFloat.add commission (deal_commission deal),
             PrimFloat.add swap (deal_swap deal))
       else (profit, commission, swap))
    deals (0%float, 0%float, 0%float).

Definition orders_data (ticket : Z) (order : Order) (exit_time : datetime)
    (profit commission swap : float) : TradeData :=
  {| td_source := "history_orders";
     td_accuracy := "95-100%";
     td_ticket := ticket;
     td_symbol := None;
     td_volume := None;
     td_exit_price := order_price_current order;
     td_exit_time := exit_time;
     td_profit := profit;
     td_swap := swap;
     td_commission := commission;
     td_entry_price := None;
     td_entry_time := None;
     td_side := None;
     td_sl := Some (Py.positive_or_None (order_sl order));
     td_tp := Some (Py.positive_or_None (order_tp order)) |}.

(** [_fetch_from_orders]. *)
Definition _fetch_from_orders (ticket : Z) : M (option TradeData) :=
  try_except
    (now1 <- datetime_now ;;
     let from_date := now1 - td_minutes 30 in
     now2 <- datetime_now ;;
     orders <- history_orders_get from_date now2 ;;
     match orders with
     | None => ret None
     | Some orders =>
         match find (fun order => order_position_id order =? ticket) orders with
         | None => ret None
         | Some order =>
             now3 <- datetime_now ;;
             deals <- history_deals_get from_date now3 ;;
             let '(profit, commission, swap) :=
               sum_deals ticket (dict_get deals []) in
             exit_time <- datetime_fromtimestamp (order_time_done order) ;;
             ret (Some (orders_data ticket order exit_time profit commission swap))
         end
     end)
    (ret None).

(** [range(a, b)]. *)
Definition range (a b : Z) : list Z := seqZ a (b - a).

(** The body of the [for attempt in range(1, max_retries + 1)] loop of
    [get_closed_position_data], over the attempts still to run, followed
    by the code after the loop. *)
Fixpoint attempts (ticket max_retries : Z) (todo : list Z) : M (option TradeData) :=
  match todo with
  | [] =>
      emit (EvLog (LogNotFound ticket max_retries)) ;;
      ret None
  | attempt :: todo =>
      emit (EvLog (LogAttempt ticket attempt max_retries)) ;;
      warm_history_cache ;;
      data <- _fetch_from_deals ticket ;;
      match data with
      | Some data => emit (EvLog LogFoundDeals) ;; ret (Some data)
      | None =>
          data <- _fetch_from_orders ticket ;;
          match data with
          | Some data => emit (EvLog LogFoundOrders) ;; ret (Some data)
          | None =>
              (if attempt <? max_retries then
                 let wait_time := 3 * attempt in
                 emit (EvLog (LogWaiting wait_time)) ;;
                 time_sleep (Py.of_int wait_time)
               else ret tt) ;;
              attempts ticket max_retries todo
          end
      end
  end.

(** [get_closed_position_data]. *)
Definition get_closed_position_data (ticket max_retries : Z) : M (option TradeData) :=
  attempts ticket max_retries (range 1 (max_retries + 1)).

(** ** SmartQueueManager: the worker side *)

(** [PositionSnapshot.__init__]. *)
Definition PositionSnapshot_init (position : Position) : M PositionSnapshot :=
  time <- datetime_fromtimestamp (pos_time position) ;;
  last_seen <- datetime_now ;;
  ret {| snap_ticket := pos_ticket position;
         snap_symbol := pos_symbol position;
         snap_type := match pos_type position with
                      | POSITION_TYPE_BUY => "buy"
                      | POSITION_TYPE_SELL => "sell"
                      end;
         snap_volume := pos_volume position;
         snap_price_open := pos_price_open position;
         snap_price_current := pos_price_current position;
         snap_sl := pos_sl position;
         snap_tp := pos_tp position;
         snap_profit := pos_profit position;
         snap_swap := pos_swap position;
         snap_commission := 0%float;
         snap_time := time;
         snap_last_seen := last_seen |}.

(** [d[k] = v] on an insertion-ordered dict: an existing key keeps its
    place, a new key goes last. *)
Fixpoint od_set {V} (k : Z) (v : V) (d : list (Z * V)) : list (Z * V) :=
  match d with
  | [] => [(k, v)]
  | (k', v') :: rest =>
      if k' =? k then (k, v) :: rest else (k', v') :: od_set k v rest
  end.

(** [d[k]]. *)
Fixpoint od_get {V} (k : Z) (d : list (Z * V)) : option V :=
  match d with
  | [] => None
  | (k', v') :: rest => if k' =? k then Some v' else od_get k rest
  end.

Definition od_keys {V} (d : list (Z * V)) : list Z := map fst d.
Definition od_values {V} (d : list (Z * V)) : list V := map snd d.

(** [k in l] for a list of tickets. *)
Definition ticket_in (k : Z) (s : list Z) : bool := existsb (Z.eqb k) s.

(** The values the calculator writes. *)
Record RiskMetrics := {
  rm_risk_amount : option float;
  rm_r_multiple : option float;
  rm_risk_reward : option float
}.

Definition no_metrics : RiskMetrics :=
  {| rm_risk_amount := None; rm_r_multiple := None; rm_risk_reward := None |}.

(** The computation of [_calculate_risk_metrics] on the values it reads
    with [trade_data.get]: [None] is a missing key or a [None] value.
    The result says which keys it sets, and to what.  A division by zero
    is caught by the method's [except], which keeps what was set before
    it. *)
Definition risk_metrics (entry_price sl tp volume profit : option float)
    (symbol : string) : RiskMetrics :=
  if negb (forallb Py.truthy_opt [entry_price; sl; volume]) || Py.eq0_opt sl
  then no_metrics
  else
    match entry_price, sl, volume with
    | Some entry_price, Some sl, Some volume =>
        let pip_value := if Py.str_in "JPY" symbol then 0.01%float else 0.0001%float in
        match Py.truediv (PrimFloat.abs (PrimFloat.sub entry_price sl)) pip_value with
        | None => no_metrics
        | Some pips_risked =>
            let risk_amount :=
              PrimFloat.mul (PrimFloat.mul pips_risked volume) 10%float in
            let r_multiple :=
              if Py.gt0 risk_amount then
                match profit with
                | Some profit => Py.truediv profit risk_amount
                | None => None
                end
              else None in
            let risk_reward :=
              match tp with
              | Some tp =>
                  if Py.truthy tp && Py.gt0 tp then
                    match Py.truediv (PrimFloat.abs (PrimFloat.sub tp entry_price)) pip_value with
                    | Some pips_to_tp => Py.truediv pips_to_tp pips_risked
                    | None => None
                    end
                  else None
              | None => None
              end in
            {| rm_risk_amount := Some risk_amount;
               rm_r_multiple := r_multiple;
               rm_risk_reward := risk_reward |}
        end
    | _, _, _ => no_metrics
    end.

(** [d[key] = v] when the calculator sets the key, else unchanged. *)
Definition set_if {A} (new old : option A) : option A :=
  match new with Some v => Some v | None => old end.

(** [_calculate_risk_metrics]: the update of [trade_data] in place. *)
Definition _calculate_risk_metrics (trade_data : TradeRecord) : TradeRecord :=
  let m := risk_metrics (Some (entry_price trade_data)) (stop_loss trade_data)
             (take_profit trade_data) (Some (volume trade_data))
             (Some (gross_pnl trade_data)) (symbol trade_data) in
  {| user_id := user_id trade_data;
     account_id := account_id trade_data;
     external_trade_id := external_trade_id trade_data;
     symbol := symbol trade_data;
     side := side trade_data;
     volume := volume trade_data;
     entry_price := entry_price trade_data;
     entry_time := entry_time trade_data;
     exit_price := exit_price trade_data;
     exit_time := exit_time trade_data;
     gross_pnl := gross_pnl trade_data;
     commission := commission trade_data;
     swap := swap trade_data;
     net_pnl := net_pnl trade_data;
     stop_loss := stop_loss trade_data;
     take_profit := take_profit trade_data;
     status := status trade_data;
     source := source trade_data;
     accuracy := accuracy trade_data;
     risk_amount := set_if (rm_risk_amount m) (risk_amount trade_data);
     r_multiple := set_if (rm_r_multiple m) (r_multiple trade_data);
     risk_reward := set_if (rm_risk_reward m) (risk_reward trade_data) |}.

(** The [trade_data] dict literal of [_handle_closed_position]. *)
Definition make_trade_data (user : string) (account : option string) (ticket : Z)
    (data : TradeData) (snapshot : PositionSnapshot) : TradeRecord :=
  {| user_id := user;
     account_id := account;
     external_trade_id := "mt5_" +:+ pretty ticket;
     symbol := dict_get (td_symbol data) (snap_symbol snapshot);
     side := dict_get (td_side data) (snap_type snapshot);
     volume := dict_get (td_volume data) (snap_volume snapshot);
     entry_price := dict_get (td_entry_price data) (snap_price_open snapshot);
     entry_time := isoformat (dict_get (td_entry_time data) (snap_time snapshot));
     exit_price := td_exit_price data;
     exit_time := isoformat (td_exit_time data);
     gross_pnl := td_profit data;
     commission := td_commission data;
     swap := td_swap data;
     net_pnl := PrimFloat.add (PrimFloat.add (td_profit data) (td_commission data))
                  (td_swap data);
     stop_loss := dict_get (td_sl data) (Py.positive_or_None (snap_sl snapshot));
     take_profit := dict_get (td_tp data) (Py.positive_or_None (snap_tp snapshot));
     status := "closed";
     source := td_source data;
     accuracy := td_accuracy data;
     risk_amount := None;
     r_multiple := None;
     risk_reward := None |}.

(** The worker suspended in [await on_trade_closed(trade_data)]. *)
Definition suspended (trade_data : TradeRecord) : M unit :=
  fun s =>
    let r := during_callback trade_data (st_self s) (st_world s) in
    (Val tt, {| st_world := snd r; st_log := st_log s; st_self := fst r |}).

(** [await on_trade_closed(trade_data)]: the callback is entered, the
    loop runs what else there is to run, and the callback comes back. *)
Definition await_callback (callback : Callback W) (trade_data : TradeRecord) : M unit :=
  emit (EvCallback trade_data) ;;
  suspended trade_data ;;
  call (callback trade_data).

(** [_handle_closed_position]. *)
Definition _handle_closed_position (user : string) (account : option string)
    (ticket : Z) (snapshot : PositionSnapshot)
    (on_trade_closed : option (Callback W)) : M unit :=
  data <- get_closed_position_data ticket 3 ;;
  match data with
  | None => ret tt
  | Some data =>
      let trade_data :=
        _calculate_risk_metrics (make_trade_data user account ticket data snapshot) in
      match on_trade_closed with
      | Some callback =>
          try_except (await_callback callback trade_data) (ret tt)
      | None => ret tt
      end
  end.

(** The loop of [_process_request] that snapshots the open positions. *)
Fixpoint snapshot_positions (raw : list Position) (current_positions : SnapshotDict)
    : M SnapshotDict :=
  match raw with
  | [] => ret current_positions
  | pos :: rest =>
      snapshot <- PositionSnapshot_init pos ;;
      snapshot_positions rest (od_set (pos_ticket pos) snapshot current_positions)
  end.

(** One element of [formatted_positions]. *)
Definition format_position (pos_snapshot : PositionSnapshot) : FormattedPosition :=
  {| fp_ticket := snap_ticket pos_snapshot;
     fp_symbol := snap_symbol pos_snapshot;
     fp_type := snap_type pos_snapshot;
     fp_volume := snap_volume pos_snapshot;
     fp_price_open := snap_price_open pos_snapshot;
     fp_price_current := snap_price_current pos_snapshot;
     fp_sl := Py.positive_or_None (snap_sl pos_snapshot);
     fp_tp := Py.positive_or_None (snap_tp pos_snapshot);
     fp_profit := snap_profit pos_snapshot;
     fp_swap := snap_swap pos_snapshot;
     fp_time := isoformat (snap_time pos_snapshot) |}.

(** [previous_tickets - current_tickets], in the order the [for] loop
    of [_process_request] visits it. *)
Definition closed_tickets_of (previous_snapshots : SnapshotDict) (current_tickets : list Z)
    : list Z :=
  set_difference (od_keys previous_snapshots) current_tickets.

(** [_process_request]. *)
Definition _process_request (request : Request W) : M unit :=
  let user := req_user_id request in
  let account := req_account_id request in
  let on_trade_closed := req_on_trade_closed request in
  try_except
    (ok <- initialize ;;
     if negb ok then ret tt else
     ok <- login (req_login request) (req_password request) (req_server request) ;;
     if negb ok then (_ <- last_error ;; ret tt) else
     current_positions_raw <- positions_get ;;
     let raw := dict_get current_positions_raw [] in
     let current_tickets := map pos_ticket raw in
     current_positions <- snapshot_positions raw [] ;;
     self <- get_self ;;
     let previous_snapshots := dict_get (position_snapshots self !! user) [] in
     let closed_tickets := closed_tickets_of previous_snapshots current_tickets in
     for_each closed_tickets
       (fun ticket =>
          match od_get ticket previous_snapshots with
          | Some snapshot =>
              _handle_closed_position user account ticket snapshot on_trade_closed
          | None => raise
          end) ;;
     set_position_snapshots user current_positions ;;
     let formatted_positions := map format_position (od_values current_positions) in
     timestamp <- datetime_now ;;
     set_cache user {| ce_positions := formatted_positions; ce_timestamp := timestamp |} ;;
     shutdown)
    shutdown.

(** ** SmartQueueManager: the caller side *)

(** [asyncio.Queue.full()] for a queue with a positive [maxsize]. *)
Definition queue_full (q : list (Request W)) : bool :=
  (queue_maxsize <=? length q)%nat.

(** The cache check of [get_positions]: the cached list when an entry
    for the user exists and [age < self.cache_duration]. *)
Definition cache_lookup_fresh (self : SmartQueueManager W) (user : string)
    (now_ : datetime) : option (list FormattedPosition) :=
  match cache self !! user with
  | Some cached =>
      let age := total_seconds (now_ - ce_timestamp cached) in
      if Py.lt age (cache_duration self) then Some (ce_positions cached) else None
  | None => None
  end.

Section Caller.

(** What the other tasks (the worker, other callers) do to the shared
    state while this coroutine is suspended in [await asyncio.sleep]. *)
Variable others : State W -> State W.

Definition yield_to_others : M unit := fun s => (Val tt, others s).

(** [await asyncio.sleep(seconds)]. *)
Definition asyncio_sleep (seconds : float) : M unit :=
  time_sleep seconds ;; yield_to_others.

(** The [while waited < max_wait] loop of [get_positions] and the
    timeout after it. *)
Fixpoint wait_for_cache (fuel : nat) (user : string)
    (max_wait wait_interval waited : float) : M (Outcome (list FormattedPosition)) :=
  match fuel with
  | O => ret OutOfFuel
  | S fuel =>
      if Py.lt waited max_wait then
        asyncio_sleep wait_interval ;;
        let waited := PrimFloat.add waited wait_interval in
        self <- get_self ;;
        now_ <- datetime_now ;;
        match cache_lookup_fresh self user now_ with
        | Some positions => ret (Returned positions)
        | None => wait_for_cache fuel user max_wait wait_interval waited
        end
      else ret (Returned [])
  end.

(** More iterations than the loop ever runs (see [wait_for_cache_polls]). *)
Definition wait_fuel : nat := 200.

(** [get_positions] from [await self.request_queue.put(request)] on:
    [put] suspends the caller while the queue is full, otherwise it
    appends at once. *)
Definition put_and_wait (request : Request W) : M (Outcome (list FormattedPosition)) :=
  self <- get_self ;;
  if queue_full (request_queue self) then ret BlockedOnPut
  else
    set_request_queue (request_queue self ++ [request]) ;;
    wait_for_cache wait_fuel (req_user_id request) 10%float 0.1%float 0%float.

(** [get_positions]. *)
Definition get_positions (user : string) (login_ : Z) (password server : string)
    (account : option string) (on_trade_closed : option (Callback W))
    : M (Outcome (list FormattedPosition)) :=
  self <- get_self ;;
  now_ <- datetime_now ;;
  match cache_lookup_fresh self user now_ with
  | Some positions => ret (Returned positions)
  | None =>
      put_and_wait {| req_user_id := user;
                      req_login := login_;
                      req_password := password;
                      req_server := server;
                      req_account_id := account;
                      req_on_trade_closed := on_trade_closed |}
  end.

(** [self.worker_running = b]. *)
Definition set_worker_running (b : bool) : M unit :=
  fun s =>
    let m := st_self s in
    (Val tt, set_self {| request_queue := request_queue m;
                         cache := cache m;
                         position_snapshots := position_snapshots m;
                         cache_duration := cache_duration m;
                         history_fetcher := history_fetcher m;
                         worker_running := b |} s).

(** [stop_worker]. *)
Definition stop_worker : M unit := set_worker_running false.

(** The body of the [while self.worker_running] loop of [start_worker].
    [request_queue.get()] on a non-empty queue takes the oldest request
    without suspending; [task_done()] only maintains the counter behind
    [Queue.join()], which the service never calls, and is left out. *)
Definition worker_iteration : M unit :=
  try_except
    (self <- get_self ;;
     (match request_queue self with
      | [] => ret tt
      | request :: rest =>
          set_request_queue rest ;;
          _process_request request
      end) ;;
     asyncio_sleep 0.05%float)
    (asyncio_sleep 1%float).

(** The loop of [start_worker], run for at most [fuel] iterations. *)
Fixpoint worker_loop (fuel : nat) : M (Outcome unit) :=
  match fuel with
  | O => ret OutOfFuel
  | S fuel =>
      self <- get_self ;;
      if worker_running self then worker_iteration ;; worker_loop fuel
      else ret (Returned tt)
  end.

(** [start_worker]. *)
Definition start_worker (fuel : nat) : M (Outcome unit) :=
  set_worker_running true ;; worker_loop fuel.

(** A wait of [n] rounds: sleep 100 ms, then return the cached list if it
    is fresh; the empty list when the rounds are used up. *)
Fixpoint poll_rounds (n : nat) (user : string) : M (list FormattedPosition) :=
  match n with
  | O => ret []
  | S n =>
      asyncio_sleep 0.1%float ;;
      self <- get_self ;;
      now_ <- datetime_now ;;
      match cache_lookup_fresh self user now_ with
      | Some positions => ret positions
      | None => poll_rounds n user
      end
  end.

End Caller.

End Service.

(** ** A host

    A concrete host for running the service: [datetime.fromtimestamp]
    accepts the years 1970 to 3000, and a set of tickets is iterated in
    increasing order (as CPython does for small integers). *)

Fixpoint sorted_insert (k : Z) (l : list Z) : list Z :=
  match l with
  | [] => [k]
  | x :: rest =>
      if k <? x then k :: l
      else if k =? x then l
      else x :: sorted_insert k rest
  end.

Definition sorted_set (l : list Z) : list Z := fold_right sorted_insert [] l.

Definition sorted_difference (a b : list Z) : list Z :=
  sorted_set (List.filter (fun k => negb (existsb (Z.eqb k) b)) a).

Lemma sorted_insert_In k x l : In x (sorted_insert k l) <-> x = k \/ In x l.
Proof.
  induction l as [|y l IH]; cbn [sorted_insert].
  - cbn. intuition.
  - destruct (k <? y); [cbn; intuition|].
    destruct (k =? y) eqn:E.
    + apply Z.eqb_eq in E. subst y. cbn. intuition.
    + cbn [In]. rewrite IH. intuition.
Qed.

Lemma sorted_insert_sorted k l :
  StronglySorted Z.lt l -> StronglySorted Z.lt (sorted_insert k l).
Proof.
  induction 1 as [|y l Hl IH Hy]; cbn [sorted_insert].
  - repeat constructor.
  - destruct (k <? y) eqn:Elt.
    + apply Z.ltb_lt in Elt. constructor; [constructor; assumption|].
      constructor; [exact Elt|].
      eapply List.Forall_impl; [|exact Hy]. intros z Hz. cbn in Hz. lia.
    + destruct (k =? y) eqn:Eeq; [constructor; assumption|].
      apply Z.ltb_ge in Elt. apply Z.eqb_neq in Eeq.
      constructor; [exact IH|].
      apply List.Forall_forall. intros z Hz. apply sorted_insert_In in Hz.
      destruct Hz as [->|Hz]; [lia|].
      rewrite List.Forall_forall in Hy. exact (Hy z Hz).
Qed.

Lemma sorted_NoDup l : StronglySorted Z.lt l -> List.NoDup l.
Proof.
  induction 1 as [|y l Hl IH Hy]; constructor; [|exact IH].
  intros Hin. rewrite List.Forall_forall in Hy. specialize (Hy y Hin). lia.
Qed.

Lemma sorted_set_sorted l : StronglySorted Z.lt (sorted_set l).
Proof.
  induction l as [|x l IH]; cbn [sorted_set fold_right];
    [constructor | apply sorted_insert_sorted, IH].
Qed.

Lemma sorted_set_In l x : In x (sorted_set l) <-> In x l.
Proof.
  induction l as [|y l IH]; cbn [sorted_set fold_right]; [tauto|].
  fold (sorted_set l). rewrite sorted_insert_In, IH. cbn. intuition.
Qed.

Lemma sorted_difference_NoDup a b : List.NoDup (sorted_difference a b).
Proof. apply sorted_NoDup, sorted_set_sorted. Qed.

Lemma sorted_difference_In a b k :
  In k (sorted_difference a b) <-> In k a /\ ~ In k b.
Proof.
  unfold sorted_difference. rewrite sorted_set_In, filter_In, negb_true_iff.
  split; intros [Ha Hb]; (split; [exact Ha|]).
  - intros Hin.
    assert (Hex : existsb (Z.eqb k) b = true)
      by (apply existsb_exists; exists k; split; [exact Hin | apply Z.eqb_refl]).
    congruence.
  - destruct (existsb (Z.eqb k) b) eqn:E; [|reflexivity].
    apply existsb_exists in E. destruct E as (x & Hin & Heq).
    apply Z.eqb_eq in Heq. subst x. contradiction.
Qed.

#[global] Instance sim_host : Host := {|
  timestamp_ok t := (0 <=? t) && (t <? 32535216000);
  set_difference := sorted_difference;
  set_difference_NoDup := sorted_difference_NoDup;
  set_difference_In := sorted_difference_In
|}.

(** ** A simulated terminal

    A concrete world for running the service: a clock, the open
    positions, and a history in which each deal and order becomes visible
    to queries only from a given instant on (the terminal's sync delay). *)

Record SimTerminal := {
  sim_clock : datetime;
  sim_initialize_ok : bool;
  sim_login_ok : bool;
  sim_positions : list Position;
  sim_deals : list (datetime * Deal);
  sim_orders : list (datetime * Order)
}.

(** Microseconds in a non-negative float number of seconds, rounded down. *)
Definition micros_of_seconds (seconds : float) : Z :=
  match Prim2SF (PrimFloat.mul seconds 1000000%float) with
  | S754_finite false m e => Z.shiftl (Zpos m) e
  | _ => 0
  end.

Definition sim_visible {A} (clock date_from date_to : datetime) (time_of : A -> Z)
    (history : list (datetime * A)) : list A :=
  map snd
    (List.filter (fun '(visible_from, x) =>
               (visible_from <=? clock) &&
               (date_from <=? from_epoch (time_of x)) &&
               (from_epoch (time_of x) <=? date_to))
       history).

#[global] Instance sim_terminal : Terminal SimTerminal := {|
  now w := sim_clock w;
  sleep seconds w :=
    {| sim_clock := sim_clock w + micros_of_seconds seconds;
       sim_initialize_ok := sim_initialize_ok w;
       sim_login_ok := sim_login_ok w;
       sim_positions := sim_positions w;
       sim_deals := sim_deals w;
       sim_orders := sim_orders w |};
  mt5_initialize w := (Returns (sim_initialize_ok w), w);
  mt5_login _ _ _ w := (Returns (sim_login_ok w), w);
  mt5_last_error w := (Returns (1, "error"), w);
  mt5_shutdown w := w;
  mt5_positions_get w := (Returns (Some (sim_positions w)), w);
  mt5_history_deals_get date_from date_to w :=
    (Returns (Some (sim_visible (sim_clock w) date_from date_to deal_time (sim_deals w))), w);
  mt5_history_orders_get date_from date_to w :=
    (Returns (Some (sim_visible (sim_clock w) date_from date_to order_time_done (sim_orders w))), w)
|}.

(** No other task runs while a callback is awaited, and the callbacks
    leave the manager object alone. *)
#[global] Instance sim_loop : EventLoop SimTerminal := {|
  during_callback _ m w := (m, w)
|}.

Definition sim_state (w : SimTerminal) (self : SmartQueueManager SimTerminal)
    : State SimTerminal :=
  {| st_world := w; st_log := []; st_self := self |}.

(** ** Concrete inputs

    The records and terminal histories on which the properties below
    are exercised. *)

(** A buy of 0.1 lot EURUSD at 1.1000, closed at 1.1020 ten minutes
    later (end-to-end scenario 3 of the specification). *)
Definition T0 : Z := 1700000000.

Definition eurusd_entry_deal : Deal :=
  {| deal_position_id := 1; deal_symbol := "EURUSD"; deal_type := DEAL_TYPE_BUY;
     deal_entry := DEAL_ENTRY_IN; deal_volume := 0.1; deal_price := 1.1000;
     deal_time := T0; deal_profit := 0; deal_commission := -0.5; deal_swap := 0 |}.

Definition eurusd_exit_deal : Deal :=
  {| deal_position_id := 1; deal_symbol := "EURUSD"; deal_type := DEAL_TYPE_SELL;
     deal_entry := DEAL_ENTRY_OUT; deal_volume := 0.1; deal_price := 1.1020;
     deal_time := T0 + 600; deal_profit := 20; deal_commission := -0.5;
     deal_swap := -0.1 |}.

Definition eurusd_order : Order :=
  {| order_position_id := 1; order_sl := 1.0980; order_tp := 1.1050;
     order_price_current := 1.1020; order_time_done := T0 + 600 |}.

(** The same exit deal and order with a time before the epoch, which the
    host does not convert. *)
Definition misdated_exit_deal : Deal :=
  {| deal_position_id := 1; deal_symbol := "EURUSD"; deal_type := DEAL_TYPE_SELL;
     deal_entry := DEAL_ENTRY_OUT; deal_volume := 0.1; deal_price := 1.1020;
     deal_time := -1; deal_profit := 20; deal_commission := -0.5;
     deal_swap := -0.1 |}.

Definition misdated_order : Order :=
  {| order_position_id := 1; order_sl := 1.0980; order_tp := 1.1050;
     order_price_current := 1.1020; order_time_done := -1 |}.

Definition eurusd_snapshot : PositionSnapshot :=
  {| snap_ticket := 1; snap_symbol := "EURUSD"; snap_type := "buy";
     snap_volume := 0.1; snap_price_open := 1.1000; snap_price_current := 1.1000;
     snap_sl := 1.0980; snap_tp := 1.1050; snap_profit := 0; snap_swap := 0;
     snap_commission := 0; snap_time := from_epoch T0;
     snap_last_seen := from_epoch T0 |}.

(** A terminal at [T0 + 700 s] with the given history and no open
    position. *)
Definition sim_at_close (init_ok login_ok : bool) (deals : list (datetime * Deal))
    (orders : list (datetime * Order)) : SimTerminal :=
  {| sim_clock := from_epoch (T0 + 700);
     sim_initialize_ok := init_ok;
     sim_login_ok := login_ok;
     sim_positions := [];
     sim_deals := deals;
     sim_orders := orders |}.

(** The manager after a first poll of user ["u1"] saw ticket 1 open. *)
Definition mgr_tracking_ticket_1 : SmartQueueManager SimTerminal :=
  {| request_queue := [];
     cache := ∅;
     position_snapshots := {[ "u1" := [(1, eurusd_snapshot)] ]};
     cache_duration := 2;
     history_fetcher := {| last_warmup := None; warmup_interval := 30 |};
     worker_running := true |}.

Definition ok_callback : Callback SimTerminal := fun _ w => (Returns tt, w).

Definition request_u1 : Request SimTerminal :=
  {| req_user_id := "u1"; req_login := 5; req_password := "secret";
     req_server := "Broker-Demo"; req_account_id := None;
     req_on_trade_closed := Some ok_callback |}.

(** Everything about the trade has reached the history. *)
Definition state_full_history : State SimTerminal :=
  sim_state
    (sim_at_close true true [(0, eurusd_entry_deal); (0, eurusd_exit_deal)]
       [(0, eurusd_order)])
    mgr_tracking_ticket_1.

(** Nothing about the trade has reached the history yet. *)
Definition state_empty_history : State SimTerminal :=
  sim_state (sim_at_close true true [] []) mgr_tracking_ticket_1.

(** The terminal refuses the login. *)
Definition state_login_refused : State SimTerminal :=
  sim_state (sim_at_close true false [] []) mgr_tracking_ticket_1.

(** A trade whose stop was moved to the entry price (break-even), with a
    take-profit above it. *)
Definition break_even_trade : TradeRecord :=
  {| user_id := "u1"; account_id := None; external_trade_id := "mt5_7";
     symbol := "EURUSD"; side := "buy"; volume := 0.1;
     entry_price := 1.1000; entry_time := isoformat (from_epoch T0);
     exit_price := 1.1020; exit_time := isoformat (from_epoch (T0 + 600));
     gross_pnl := 20; commission := -1; swap := 0; net_pnl := 19;
     stop_loss := Some 1.1000%float; take_profit := Some 1.1050%float;
     status := "closed"; source := "history_deals"; accuracy := "100%";
     risk_amount := None; r_multiple := None; risk_reward := None |}.

(** What the history fetcher returns for ticket 1 once the history is
    complete. *)
Definition full_history_data : TradeData :=
  Eval vm_compute in
    match fst (get_closed_position_data 1 3 state_full_history) with
    | Val (Some data) => data
    | _ => deals_data 0 eurusd_exit_deal 0 None None None
    end.

(** A scripted terminal: each history query takes the next scripted
    answer of its kind, and raises once the script has run out. *)
Record ScriptTerminal := {
  sc_clock : datetime;
  sc_deals : list (Resp (option (list Deal)));
  sc_orders : list (Resp (option (list Order)))
}.

Definition script_next {A} (script : list (Resp A)) : Resp A * list (Resp A) :=
  match script with
  | [] => (Raises, [])
  | r :: rest => (r, rest)
  end.

#[global] Instance script_terminal : Terminal ScriptTerminal := {|
  now w := sc_clock w;
  sleep seconds w :=
    {| sc_clock := sc_clock w + micros_of_seconds seconds;
       sc_deals := sc_deals w; sc_orders := sc_orders w |};
  mt5_initialize w := (Returns true, w);
  mt5_login _ _ _ w := (Returns true, w);
  mt5_last_error w := (Returns (1, "error"), w);
  mt5_shutdown w := w;
  mt5_positions_get w := (Returns (Some []), w);
  mt5_history_deals_get _ _ w :=
    (fst (script_next (sc_deals w)),
     {| sc_clock := sc_clock w; sc_deals := snd (script_next (sc_deals w));
        sc_orders := sc_orders w |});
  mt5_history_orders_get _ _ w :=
    (fst (script_next (sc_orders w)),
     {| sc_clock := sc_clock w; sc_deals := sc_deals w;
        sc_orders := snd (script_next (sc_orders w)) |})
|}.

#[global] Instance script_loop : EventLoop ScriptTerminal := {|
  during_callback _ m w := (m, w)
|}.

Definition script_state (deals : list (Resp (option (list Deal))))
    (orders : list (Resp (option (list Order)))) : State ScriptTerminal :=
  {| st_world := {| sc_clock := from_epoch (T0 + 700);
                    sc_deals := deals; sc_orders := orders |};
     st_log := [];
     st_self := SmartQueueManager_init ScriptTerminal |}.

(** The position behind ticket 1 while it is open, and a terminal that
    reports it. *)
Definition eurusd_position : Position :=
  {| pos_ticket := 1; pos_symbol := "EURUSD"; pos_type := POSITION_TYPE_BUY;
     pos_volume := 0.1; pos_price_open := 1.1000; pos_price_current := 1.1010;
     pos_sl := 1.0980; pos_tp := 0; pos_profit := 10; pos_swap := 0;
     pos_time := T0 |}.

Definition sim_with_position : SimTerminal :=
  {| sim_clock := from_epoch (T0 + 60);
     sim_initialize_ok := true;
     sim_login_ok := true;
     sim_positions := [eurusd_position];
     sim_deals := [];
     sim_orders := [] |}.

(** A terminal that reports the position with an opening time before
    the epoch, while ticket 1 is tracked. *)
Definition state_misdated_position : State SimTerminal :=
  sim_state
    {| sim_clock := from_epoch (T0 + 60);
       sim_initialize_ok := true;
       sim_login_ok := true;
       sim_positions :=
         [{| pos_ticket := 2; pos_symbol := "EURUSD"; pos_type := POSITION_TYPE_BUY;
             pos_volume := 0.1; pos_price_open := 1.1000; pos_price_current := 1.1010;
             pos_sl := 1.0980; pos_tp := 0; pos_profit := 10; pos_swap := 0;
             pos_time := -1 |}];
       sim_deals := [];
       sim_orders := [] |}
    mgr_tracking_ticket_1.

(** The first poll of the user, and a later poll that finds the ticket
    still open. *)
Definition state_first_poll : State SimTerminal :=
  sim_state sim_with_position (SmartQueueManager_init SimTerminal).

Definition state_still_open : State SimTerminal :=
  sim_state sim_with_position mgr_tracking_ticket_1.

(** The same, with one request waiting in the queue. *)
Definition state_one_request : State SimTerminal :=
  sim_state sim_with_position
    {| request_queue := [request_u1];
       cache := ∅;
       position_snapshots := {[ "u1" := [(1, eurusd_snapshot)] ]};
       cache_duration := 2;
       history_fetcher := {| last_warmup := None; warmup_interval := 30 |};
       worker_running := true |}.

(** A cold cache and an empty queue. *)
Definition state_cold_cache : State SimTerminal :=
  sim_state (sim_at_close true true [] []) (SmartQueueManager_init SimTerminal).

(** A cold cache and a queue that already holds 100 requests. *)
Definition state_queue_full : State SimTerminal :=
  sim_state (sim_at_close true true [] [])
    {| request_queue := replicate 100 request_u1;
       cache := ∅;
       position_snapshots := ∅;
       cache_duration := 2;
       history_fetcher := {| last_warmup := None; warmup_interval := 30 |};
       worker_running := true |}.

(** The other tasks do nothing. *)
Definition idle : State SimTerminal -> State SimTerminal := fun s => s.

(** The worker finishes the poll of ["u1"] late: the cache entry appears
    only once the clock is more than 10.05 s past the start, so the
    caller's wake-up after 10.1 s is the first to see it. *)
Definition late_positions : list FormattedPosition := [format_position eurusd_snapshot].

Definition late_worker (s : State SimTerminal) : State SimTerminal :=
  if from_epoch (T0 + 700) + 10050000 <=? sim_clock (st_world s) then
    let m := st_self s in
    {| st_world := st_world s;
       st_log := st_log s;
       st_self :=
         {| request_queue := request_queue m;
            cache := <["u1" := {| ce_positions := late_positions;
                                  ce_timestamp := sim_clock (st_world s) |}]> (cache m);
            position_snapshots := position_snapshots m;
            cache_duration := cache_duration m;
            history_fetcher := history_fetcher m;
            worker_running := worker_running m |} |}
  else s.

Definition is_sleep (ev : Event) : bool :=
  match ev with EvSleep _ => true | _ => false end.

Definition is_callback (ev : Event) : bool :=
  match ev with EvCallback _ => true | _ => false end.

(** ** What the specification says, in the model's terms *)

(** The pip size convention of the risk calculator. *)
Definition pip_size (symbol : string) : float :=
  if Py.str_in "JPY" symbol then 0.01%float else 0.0001%float.

(** Two trade records agree on every field but the three risk keys. *)
Definition same_trade (t t' : TradeRecord) : Prop :=
  user_id t' = user_id t /\ account_id t' = account_id t /\
  external_trade_id t' = external_trade_id t /\ symbol t' = symbol t /\
  side t' = side t /\ volume t' = volume t /\ entry_price t' = entry_price t /\
  entry_time t' = entry_time t /\ exit_price t' = exit_price t /\
  exit_time t' = exit_time t /\ gross_pnl t' = gross_pnl t /\
  commission t' = commission t /\ swap t' = swap t /\ net_pnl t' = net_pnl t /\
  stop_loss t' = stop_loss t /\ take_profit t' = take_profit t /\
  status t' = status t /\ source t' = source t /\ accuracy t' = accuracy t.

(** The log of [s'] is the log of [s] followed by events that all
    satisfy [P]. *)
Definition grows_by {W} (P : Event -> Prop) (s s' : State W) : Prop :=
  exists evs, st_log s' = st_log s ++ evs /\ Forall P evs.

(** A method only ever appends events satisfying [P]. *)
Definition emits_only {W} (P : Event -> Prop) {A} (m : @M W A) : Prop :=
  forall s, grows_by P s (snd (m s)).

(** A delivered record has [net_pnl = gross_pnl + commission + swap]. *)
Definition net_pnl_is_sum (ev : Event) : Prop :=
  match ev with
  | EvCallback t =>
      net_pnl t = PrimFloat.add (PrimFloat.add (gross_pnl t) (commission t)) (swap t)
  | _ => True
  end.

(** The last element of a list that satisfies [p]: what a loop that
    overwrites its pick on every match ends with. *)
Definition last_match {A} (p : A -> bool) (l : list A) : option A :=
  find p (rev l).

(** The result of the deals source as the specification describes it:
    built from the exit deal, augmented from the entry deal when there
    is one. *)
Definition built_from_deals `{Host} (ticket : Z) (exit_deal : Deal)
    (entry_deal : option Deal) (data : TradeData) : Prop :=
  td_source data = "history_deals" /\
  td_accuracy data = "100%" /\
  td_ticket data = ticket /\
  td_symbol data = Some (deal_symbol exit_deal) /\
  td_volume data = Some (deal_volume exit_deal) /\
  td_exit_price data = deal_price exit_deal /\
  fromtimestamp (deal_time exit_deal) = Some (td_exit_time data) /\
  td_profit data = deal_profit exit_deal /\
  td_swap data = deal_swap exit_deal /\
  match entry_deal with
  | Some e =>
      td_entry_price data = Some (deal_price e) /\
      (exists entry_time,
         fromtimestamp (deal_time e) = Some entry_time /\
         td_entry_time data = Some entry_time) /\
      td_side data = Some (match deal_type e with DEAL_TYPE_BUY => "buy" | _ => "sell" end) /\
      td_commission data = PrimFloat.add (deal_commission exit_deal) (deal_commission e)
  | None =>
      td_entry_price data = None /\
      td_entry_time data = None /\
      td_side data = None /\
      td_commission data = deal_commission exit_deal
  end.

(** The sum of a list of floats, added in list order from [0.0]. *)
Definition float_sum (l : list float) : float := fold_left PrimFloat.add l 0%float.

(** The deals of a ticket. *)
Definition deals_of (ticket : Z) (deals : list Deal) : list Deal :=
  List.filter (fun deal => deal_position_id deal =? ticket) deals.

(** The result of the orders fallback as the specification describes it. *)
Definition built_from_order `{Host} (ticket : Z) (order : Order) (deals : list Deal)
    (data : TradeData) : Prop :=
  td_source data = "history_orders" /\
  td_accuracy data = "95-100%" /\
  td_ticket data = ticket /\
  td_exit_price data = order_price_current order /\
  fromtimestamp (order_time_done order) = Some (td_exit_time data) /\
  td_sl data = Some (if Py.gt0 (order_sl order) then Some (order_sl order) else None) /\
  td_tp data = Some (if Py.gt0 (order_tp order) then Some (order_tp order) else None) /\
  (PrimFloat.eqb (order_sl order) 0%float = true -> td_sl data = Some None) /\
  (PrimFloat.eqb (order_tp order) 0%float = true -> td_tp data = Some None) /\
  td_profit data = float_sum (map deal_profit (deals_of ticket deals)) /\
  td_commission data = float_sum (map deal_commission (deals_of ticket deals)) /\
  td_swap data = float_sum (map deal_swap (deals_of ticket deals)).

(** The value of [waited] after [k] rounds of the wait loop. *)
Definition waited_after (k : nat) : float :=
  Nat.iter k (fun waited => PrimFloat.add waited 0.1%float) 0%float.

(** The retry algorithm of the specification (section 4.2), as a
    relation between the state in which attempt [n] starts, the result
    and the final state. *)
Section RetrySpec.

Context {host : Host} {W : Type} {terminal : Terminal W}.

(** The state after a log line, and after a sleep. *)
Definition logged (l : LogLine) (s : State W) : State W :=
  {| st_world := st_world s; st_log := st_log s ++ [EvLog l]; st_self := st_self s |}.

Definition slept (seconds : float) (s : State W) : State W :=
  {| st_world := sleep seconds (st_world s);
     st_log := st_log s ++ [EvSleep seconds];
     st_self := st_self s |}.

Inductive fetch_run (ticket max_retries : Z) :
    Z -> State W -> option TradeData -> State W -> Prop :=
| run_exhausted n s :
    (* no attempt left: the result is None *)
    max_retries < n ->
    fetch_run ticket max_retries n s None (logged (LogNotFound ticket max_retries) s)
| run_found_in_deals n s s1 s2 data :
    (* warm the cache, then the deals source answers *)
    1 <= n <= max_retries ->
    warm_history_cache (logged (LogAttempt ticket n max_retries) s) = (Val tt, s1) ->
    _fetch_from_deals ticket s1 = (Val (Some data), s2) ->
    fetch_run ticket max_retries n s (Some data) (logged LogFoundDeals s2)
| run_found_in_orders n s s1 s2 s3 data :
    (* the deals source fails, the orders source answers *)
    1 <= n <= max_retries ->
    warm_history_cache (logged (LogAttempt ticket n max_retries) s) = (Val tt, s1) ->
    _fetch_from_deals ticket s1 = (Val None, s2) ->
    _fetch_from_orders ticket s2 = (Val (Some data), s3) ->
    fetch_run ticket max_retries n s (Some data) (logged LogFoundOrders s3)
| run_backoff n s s1 s2 s3 r s' :
    (* both fail and attempts remain: sleep 3n seconds, then attempt n+1 *)
    1 <= n < max_retries ->
    warm_history_cache (logged (LogAttempt ticket n max_retries) s) = (Val tt, s1) ->
    _fetch_from_deals ticket s1 = (Val None, s2) ->
    _fetch_from_orders ticket s2 = (Val None, s3) ->
    fetch_run ticket max_retries (n + 1)
      (slept (Py.of_int (3 * n)) (logged (LogWaiting (3 * n)) s3)) r s' ->
    fetch_run ticket max_retries n s r s'
| run_last_failed n s s1 s2 s3 r s' :
    (* both fail on the last attempt: no sleep *)
    1 <= n -> n = max_retries ->
    warm_history_cache (logged (LogAttempt ticket n max_retries) s) = (Val tt, s1) ->
    _fetch_from_deals ticket s1 = (Val None, s2) ->
    _fetch_from_orders ticket s2 = (Val None, s3) ->
    fetch_run ticket max_retries (n + 1) s3 r s' ->
    fetch_run ticket max_retries n s r s'.

End RetrySpec.

(** The attempt numbers announced in a stretch of the log. *)
Definition attempts_logged (evs : list Event) : list Z :=
  flat_map (fun ev => match ev with
                      | EvLog (LogAttempt _ attempt _) => [attempt]
                      | _ => []
                      end) evs.

(** An event that is not a log line. *)
Definition not_a_log_line (ev : Event) : Prop :=
  match ev with EvLog _ => False | _ => True end.

(** The test at the head of [warm_history_cache]: a warm-up was recorded
    less than [warmup_interval] seconds before [now_]. *)
Definition warmed_recently (fetcher : AccurateHistoryFetcher) (now_ : datetime) : bool :=
  match last_warmup fetcher with
  | Some lw => Py.lt (total_seconds (now_ - lw)) (Py.of_int (warmup_interval fetcher))
  | None => false
  end.

(** The state in which [_process_request] starts on the positions, once
    initialization, login and [positions_get] have returned, the latter
    leaving the world at [w3]. *)
Definition polled_state {W} (request : Request W) (w3 : W) (s : State W) : State W :=
  {| st_world := w3;
     st_log := st_log s ++ [EvInitialize;
                            EvLogin (req_login request) (req_server request);
                            EvPositionsGet];
     st_self := st_self s |}.

(** The manager object once the snapshot dict [d] of [user] and the
    cache entry made from it at [timestamp] are written. *)
Definition installed {W} (user : string) (d : SnapshotDict) (timestamp : datetime)
    (m : SmartQueueManager W) : SmartQueueManager W :=
  {| request_queue := request_queue m;
     cache := <[user := {| ce_positions := map format_position (od_values d);
                           ce_timestamp := timestamp |}]> (cache m);
     position_snapshots := <[user := d]> (position_snapshots m);
     cache_duration := cache_duration m;
     history_fetcher := history_fetcher m;
     worker_running := worker_running m |}.

(** The handling of the closed tickets in [_process_request]. *)
Definition handle_closed_tickets `{Host} {W} `{Terminal W} `{EventLoop W}
    (request : Request W)
    (previous_snapshots : SnapshotDict) (closed_tickets : list Z) : @M W unit :=
  for_each closed_tickets
    (fun ticket =>
       match od_get ticket previous_snapshots with
       | Some snapshot =>
           _handle_closed_position (req_user_id request) (req_account_id request)
             ticket snapshot (req_on_trade_closed request)
       | None => raise
       end).

(** Every entry of a snapshot dict sits under its own ticket. *)
Definition keyed_by_ticket (d : SnapshotDict) : Prop :=
  Forall (fun entry => snap_ticket (snd entry) = fst entry) d.

(** A method leaves a view [f] of the manager object as it found it. *)
Definition keeps_view {W X} (f : SmartQueueManager W -> X) {A} (m : @M W A) : Prop :=
  forall s, f (st_self (snd (m s))) = f (st_self s).

(** What a poll for [user] has no business changing: the queue, the
    configuration, and the cache entries and snapshot maps of the other
    users. *)
Definition others_view {W} (user : string) (m : SmartQueueManager W) :=
  (request_queue m, delete user (cache m), delete user (position_snapshots m),
   cache_duration m, warmup_interval (history_fetcher m), worker_running m).

(** The backoffs in a stretch of the log: each announced wait together
    with the sleep that follows it. *)
Fixpoint backoffs (evs : list Event) : list (Z * float) :=
  match evs with
  | [] => []
  | EvLog (LogWaiting wait_time) :: rest =>
      match rest with
      | EvSleep seconds :: _ => (wait_time, seconds) :: backoffs rest
      | _ => backoffs rest
      end
  | _ :: rest => backoffs rest
  end.

(** The records delivered in a stretch of the log. *)
Definition callbacks_logged (evs : list Event) : list TradeRecord :=
  flat_map (fun ev => match ev with EvCallback t => [t] | _ => [] end) evs.

(** An event that is not a callback delivery. *)
Definition not_a_callback (ev : Event) : Prop :=
  match ev with EvCallback _ => False | _ => True end.

(** An event that is not a query of the order history. *)
Definition not_an_orders_query (ev : Event) : Prop :=
  match ev with EvOrdersGet _ _ => False | _ => True end.

(** An event that is not a shutdown of the session. *)
Definition not_a_shutdown (ev : Event) : Prop :=
  match ev with EvShutdown => False | _ => True end.

(** Every position carries an opening time that [datetime.fromtimestamp]
    accepts on the host. *)
Definition times_ok `{Host} (raw : list Position) : Prop :=
  Forall (fun pos => timestamp_ok (pos_time pos) = true) raw.

(** The snapshot taken of a position, up to the instant it was taken. *)
Definition snapshot_of `{Host} (pos : Position) (snapshot : PositionSnapshot) : Prop :=
  snap_ticket snapshot = pos_ticket pos /\
  snap_symbol snapshot = pos_symbol pos /\
  snap_type snapshot = match pos_type pos with
                       | POSITION_TYPE_BUY => "buy"
                       | POSITION_TYPE_SELL => "sell"
                       end /\
  snap_volume snapshot = pos_volume pos /\
  snap_price_open snapshot = pos_price_open pos /\
  snap_price_current snapshot = pos_price_current pos /\
  snap_sl snapshot = pos_sl pos /\
  snap_tp snapshot = pos_tp pos /\
  snap_profit snapshot = pos_profit pos /\
  snap_swap snapshot = pos_swap pos /\
  fromtimestamp (pos_time pos) = Some (snap_time snapshot).

(** What the worker does while a caller sleeps, when it gets one turn of
    its loop and no third task runs. *)
Definition worker_turn `{Host} {W} `{Terminal W} `{EventLoop W} (s : State W)
    : State W :=
  snd (worker_iteration (fun s => s) s).

(** ** Reasoning about what a method logs *)

Section Properties.

Context {host : Host} {W : Type} {terminal : Terminal W} {loop : EventLoop W}.

Local Abbreviation M := (@M W).

Lemma grows_by_refl P (s : State W) : grows_by P s s.
Proof. exists []. split; [symmetry; apply app_nil_r | constructor]. Qed.

Lemma grows_by_trans P (s1 s2 s3 : State W) :
  grows_by P s1 s2 -> grows_by P s2 s3 -> grows_by P s1 s3.
Proof.
  intros (e1 & H1 & F1) (e2 & H2 & F2). exists (e1 ++ e2). split.
  - rewrite H2, H1. symmetry. apply app_assoc.
  - apply Forall_app. split; assumption.
Qed.

Lemma grows_by_same_log P (s s' : State W) :
  st_log s' = st_log s -> grows_by P s s'.
Proof. intros E. exists []. rewrite E, app_nil_r. split; [reflexivity | constructor]. Qed.

Lemma emits_only_ret P {A} (a : A) : emits_only P (ret (W:=W) a).
Proof. intros s. apply grows_by_refl. Qed.

Lemma emits_only_raise P {A} : emits_only P (raise (W:=W) (A:=A)).
Proof. intros s. apply grows_by_refl. Qed.

Lemma emits_only_bind P {A B} (m : M A) (k : A -> M B) :
  emits_only P m -> (forall a, emits_only P (k a)) -> emits_only P (bind m k).
Proof.
  intros Hm Hk s. unfold bind. specialize (Hm s).
  destruct (m s) as [[|a] s1]; simpl in *; [exact Hm|].
  eapply grows_by_trans; [exact Hm | apply Hk].
Qed.

Lemma emits_only_try_except P {A} (body handler : M A) :
  emits_only P body -> emits_only P handler -> emits_only P (try_except body handler).
Proof.
  intros Hb Hh s. unfold try_except. specialize (Hb s).
  destruct (body s) as [[|a] s1]; simpl in *; [|exact Hb].
  eapply grows_by_trans; [exact Hb | apply Hh].
Qed.

Lemma emits_only_emit (P : Event -> Prop) e : P e -> emits_only P (emit (W:=W) e).
Proof.
  intros He s. exists [e]. split; [reflexivity | repeat constructor; exact He].
Qed.

Lemma emits_only_call P {A} (op : W -> Resp A * W) : emits_only P (call op).
Proof.
  intros s. unfold call. destruct (op (st_world s)) as [[|a] w];
    apply grows_by_same_log; reflexivity.
Qed.

Lemma emits_only_silent P {A} (m : M A) :
  (forall s, st_log (snd (m s)) = st_log s) -> emits_only P m.
Proof. intros E s. apply grows_by_same_log, E. Qed.

Lemma emits_only_for_each P {A} (l : list A) (body : A -> M unit) :
  (forall x, emits_only P (body x)) -> emits_only P (for_each l body).
Proof.
  intros Hb. induction l as [|x l IH]; simpl.
  - apply emits_only_ret.
  - apply emits_only_bind; [apply Hb | intros _; exact IH].
Qed.

Lemma emits_only_datetime_fromtimestamp P t :
  emits_only P (datetime_fromtimestamp (W:=W) t).
Proof.
  unfold datetime_fromtimestamp.
  destruct (fromtimestamp t); [apply emits_only_ret | apply emits_only_raise].
Qed.

(** Breaking a method down along its syntax; methods already dealt with
    are looked up in the hint database. *)
Create HintDb emits_db.
Create HintDb views_db.

Ltac emits_step :=
  first
    [ solve [auto with emits_db nocore]
    | apply emits_only_ret
    | apply emits_only_raise
    | apply emits_only_call
    | apply emits_only_datetime_fromtimestamp
    | apply emits_only_emit; solve [simpl; auto]
    | apply emits_only_silent; solve [intros; reflexivity]
    | apply emits_only_bind; [|intros]
    | apply emits_only_try_except
    | apply emits_only_for_each; intros
    | progress cbv zeta
    | match goal with
      | |- emits_only _ (match ?x with _ => _ end) => destruct x
      end ].

Ltac emits := repeat emits_step.

Section Logged.

(** [P] holds of every sleep, driver call and log line. *)
Variable P : Event -> Prop.
Hypothesis P_log : forall l, P (EvLog l).
Hypothesis P_sleep : forall x, P (EvSleep x).
Hypothesis P_initialize : P EvInitialize.
Hypothesis P_login : forall l srv, P (EvLogin l srv).
Hypothesis P_last_error : P EvLastError.
Hypothesis P_shutdown : P EvShutdown.
Hypothesis P_positions : P EvPositionsGet.
Hypothesis P_deals : forall a b, P (EvDealsGet a b).
Hypothesis P_orders : forall a b, P (EvOrdersGet a b).

Lemma emits_only_time_sleep x : emits_only P (time_sleep (W:=W) x).
Proof. unfold time_sleep. emits. Qed.
#[local] Hint Resolve emits_only_time_sleep : emits_db.

Lemma emits_only_history_deals_get a b : emits_only P (history_deals_get (W:=W) a b).
Proof. unfold history_deals_get. emits. Qed.
#[local] Hint Resolve emits_only_history_deals_get : emits_db.

Lemma emits_only_history_orders_get a b : emits_only P (history_orders_get (W:=W) a b).
Proof. unfold history_orders_get. emits. Qed.
#[local] Hint Resolve emits_only_history_orders_get : emits_db.

Lemma emits_only_warm_history_cache : emits_only P (warm_history_cache (W:=W)).
Proof. unfold warm_history_cache. emits. Qed.
#[local] Hint Resolve emits_only_warm_history_cache : emits_db.

Lemma emits_only_get_sl_tp ticket : emits_only P (_get_sl_tp_from_orders (W:=W) ticket).
Proof. unfold _get_sl_tp_from_orders. emits. Qed.
#[local] Hint Resolve emits_only_get_sl_tp : emits_db.

Lemma emits_only_fetch_from_deals ticket : emits_only P (_fetch_from_deals (W:=W) ticket).
Proof. unfold _fetch_from_deals. emits. Qed.
#[local] Hint Resolve emits_only_fetch_from_deals : emits_db.

Lemma emits_only_fetch_from_orders ticket : emits_only P (_fetch_from_orders (W:=W) ticket).
Proof. unfold _fetch_from_orders. emits. Qed.
#[local] Hint Resolve emits_only_fetch_from_orders : emits_db.

Lemma emits_only_attempts ticket max_retries todo :
  emits_only P (attempts (W:=W) ticket max_retries todo).
Proof.
  induction todo as [|attempt todo IH]; simpl; emits.
Qed.

Lemma emits_only_get_closed_position_data ticket max_retries :
  emits_only P (get_closed_position_data (W:=W) ticket max_retries).
Proof. apply emits_only_attempts. Qed.
#[local] Hint Resolve emits_only_get_closed_position_data : emits_db.

Lemma emits_only_snapshot_positions raw d :
  emits_only P (snapshot_positions (W:=W) raw d).
Proof.
  revert d. induction raw as [|pos raw IH]; intros d; simpl.
  - emits.
  - unfold PositionSnapshot_init. emits.
Qed.
#[local] Hint Resolve emits_only_snapshot_positions : emits_db.

(** ... and of every trade record the handler can build. *)
Hypothesis P_callback : forall user account ticket data snapshot,
  P (EvCallback (_calculate_risk_metrics (make_trade_data user account ticket data snapshot))).

Lemma emits_only_handle_closed_position user account ticket snapshot
    (on_trade_closed : option (Callback W)) :
  emits_only P (_handle_closed_position user account ticket snapshot on_trade_closed).
Proof. unfold _handle_closed_position, await_callback. emits. Qed.
#[local] Hint Resolve emits_only_handle_closed_position : emits_db.

Lemma emits_only_process_request (request : Request W) :
  emits_only P (_process_request request).
Proof.
  unfold _process_request, initialize, login, last_error, positions_get, shutdown.
  emits.
Qed.

End Logged.

(** Running a method symbolically: unfold the monad and the primitive
    actions, then reduce the projections of the states built. *)
Ltac mrun :=
  cbv beta iota zeta delta
    [try_except bind emit call ret set_world set_self datetime_now get_self
     time_sleep initialize login last_error shutdown positions_get
     history_deals_get history_orders_get set_last_warmup set_position_snapshots
     set_cache set_request_queue datetime_fromtimestamp negb];
  cbn [fst snd st_world st_log st_self].

(** A conversion with [datetime.fromtimestamp] either gives a datetime or
    raises, which ends the [try] block it is in. *)
Ltac converts :=
  repeat match goal with
         | |- context [match fromtimestamp ?t with _ => _ end] =>
             destruct (fromtimestamp t) eqn:?;
             [mrun | unfold raise; mrun; try discriminate]
         end.

Ltac mrun_in H :=
  cbv beta iota zeta delta
    [try_except bind emit call ret set_world set_self datetime_now get_self
     time_sleep initialize login last_error shutdown positions_get
     history_deals_get history_orders_get set_last_warmup set_position_snapshots
     set_cache set_request_queue datetime_fromtimestamp negb] in H;
  cbn [fst snd st_world st_log st_self] in H.

(** ** Frame property of an aborted request *)

(** C9.  A poll request whose terminal initialization fails, or whose
    login fails, returns normally and leaves the manager object (cache,
    snapshot store, queue, fetcher state) exactly as it was; nothing it
    appends to the log is a callback delivery. *)
Theorem process_request_abort_leaves_state (request : Request W) (s : State W) :
  (fst (mt5_initialize (st_world s)) = Returns false \/
   (fst (mt5_initialize (st_world s)) = Returns true /\
    fst (mt5_login (req_login request) (req_password request) (req_server request)
           (snd (mt5_initialize (st_world s)))) = Returns false)) ->
  fst (_process_request request s) = Val tt /\
  st_self (snd (_process_request request s)) = st_self s /\
  exists evs,
    st_log (snd (_process_request request s)) = st_log s ++ evs /\
    forall t, ~ In (EvCallback t) evs.
Proof.
  unfold _process_request. mrun.
  destruct (mt5_initialize (st_world s)) as [[|ok] w1]; mrun.
  { intros [E|[E _]]; discriminate E. }
  destruct ok; mrun.
  - intros [E|[_ E]]; [discriminate E|].
    destruct (mt5_login _ _ _ w1) as [[|ok] w2]; mrun; mrun_in E; [discriminate E|].
    injection E as ->. mrun.
    destruct (mt5_last_error w2) as [[|err] w3]; mrun;
      (split; [reflexivity|]); (split; [reflexivity|]);
      eexists; (split; [rewrite <- !app_assoc; reflexivity|]);
      intros t Hin; simpl in Hin; intuition discriminate.
  - intros _. split; [reflexivity|]. split; [reflexivity|].
    eexists. split; [reflexivity|].
    intros t Hin; simpl in Hin; intuition discriminate.
Qed.

(** ** Net profit and loss *)

(** C4.  The record handed to the callback for a closed position takes
    [gross_pnl], [commission] and [swap] from the fetcher result, and its
    [net_pnl] is their sum [(gross_pnl + commission) + swap] in binary64
    arithmetic, the sum the source writes, with no rounding step applied
    to it.  Consequently every record delivered during a poll request
    satisfies [net_pnl = gross_pnl + commission + swap]. *)
Theorem net_pnl_exact :
  (forall user account ticket snapshot (callback : Callback W) (s s1 : State W) data,
     get_closed_position_data ticket 3 s = (Val (Some data), s1) ->
     exists t,
       st_log (snd (_handle_closed_position user account ticket snapshot (Some callback) s))
         = st_log s1 ++ [EvCallback t] /\
       gross_pnl t = td_profit data /\
       commission t = td_commission data /\
       swap t = td_swap data /\
       net_pnl t = PrimFloat.add (PrimFloat.add (gross_pnl t) (commission t)) (swap t)) /\
  (forall (request : Request W) (s : State W),
     exists evs,
       st_log (snd (_process_request request s)) = st_log s ++ evs /\
       forall t, In (EvCallback t) evs ->
         net_pnl t = PrimFloat.add (PrimFloat.add (gross_pnl t) (commission t)) (swap t)).
Proof.
  split.
  - intros user account ticket snapshot callback s s1 data Hget.
    unfold _handle_closed_position, bind. rewrite Hget.
    unfold await_callback, suspended, try_except, bind, emit, call, ret. simpl.
    exists (_calculate_risk_metrics (make_trade_data user account ticket data snapshot)).
    split.
    + destruct (callback _ _) as [[|u] w]; reflexivity.
    + repeat split; reflexivity.
  - intros request s.
    destruct (emits_only_process_request net_pnl_is_sum) with (request := request) (s := s)
      as (evs & Hlog & Hall); simpl; auto.
    exists evs. split; [exact Hlog|].
    intros t Hin. rewrite List.Forall_forall in Hall. exact (Hall _ Hin).
Qed.

(** ** Float comparisons against zero *)

Lemma gt0_nonzero x : Py.gt0 x = true -> PrimFloat.eqb x 0%float = false.
Proof.
  unfold Py.gt0. rewrite FloatAxioms.ltb_spec, FloatAxioms.eqb_spec.
  change (Prim2SF 0%float) with (S754_zero false).
  destruct (Prim2SF x) as [sg|sg| |sg m e]; try destruct sg; cbv; congruence.
Qed.

Lemma zero_not_gt0 x : PrimFloat.eqb x 0%float = true -> Py.gt0 x = false.
Proof.
  unfold Py.gt0. rewrite FloatAxioms.ltb_spec, FloatAxioms.eqb_spec.
  change (Prim2SF 0%float) with (S754_zero false).
  destruct (Prim2SF x) as [sg|sg| |sg m e]; try destruct sg; cbv; congruence.
Qed.

Lemma pip_size_nonzero symbol : PrimFloat.eqb (pip_size symbol) 0%float = false.
Proof. unfold pip_size. destruct (Py.str_in "JPY" symbol); reflexivity. Qed.

(** ** The risk-metric calculator *)

(** C7, as the code has it.  The calculator only adds the three risk
    keys to the record and is total.  It treats a zero like a missing
    value: when [entry_price], [stop_loss] and [volume] are all present and
    non-zero it sets [risk_amount = (|entry_price - stop_loss| / pip_size)
    * volume * 10], with [pip_size] 0.01 for a symbol containing "JPY" and
    0.0001 otherwise; [r_multiple = gross_pnl / risk_amount] when
    [risk_amount > 0] and [gross_pnl] is known; [risk_reward =
    (|take_profit - entry_price| / pip_size) / pips_risked] when
    [take_profit] is present and positive and [pips_risked] is not zero
    (for a stop at the entry price the division fails, the error is
    swallowed and [risk_reward] is left out).  When one of the three
    inputs is missing or zero no key is set. *)
Theorem risk_metrics_spec :
  (forall e sl v tp profit symbol,
     Py.truthy e = true -> Py.truthy sl = true -> Py.truthy v = true ->
     let pips_risked := PrimFloat.div (PrimFloat.abs (PrimFloat.sub e sl)) (pip_size symbol) in
     let risk := PrimFloat.mul (PrimFloat.mul pips_risked v) 10%float in
     let m := risk_metrics (Some e) (Some sl) tp (Some v) profit symbol in
     rm_risk_amount m = Some risk /\
     rm_r_multiple m =
       (if Py.gt0 risk then option_map (fun p => PrimFloat.div p risk) profit else None) /\
     rm_risk_reward m =
       match tp with
       | Some tp =>
           if Py.gt0 tp && negb (PrimFloat.eqb pips_risked 0%float)
           then Some (PrimFloat.div
                        (PrimFloat.div (PrimFloat.abs (PrimFloat.sub tp e)) (pip_size symbol))
                        pips_risked)
           else None
       | None => None
       end) /\
  (forall entry sl tp v profit symbol,
     Py.truthy_opt entry = false \/ Py.truthy_opt sl = false \/ Py.truthy_opt v = false ->
     risk_metrics entry sl tp v profit symbol = no_metrics) /\
  (forall t,
     let m := risk_metrics (Some (entry_price t)) (stop_loss t) (take_profit t)
                (Some (volume t)) (Some (gross_pnl t)) (symbol t) in
     same_trade t (_calculate_risk_metrics t) /\
     risk_amount (_calculate_risk_metrics t) = set_if (rm_risk_amount m) (risk_amount t) /\
     r_multiple (_calculate_risk_metrics t) = set_if (rm_r_multiple m) (r_multiple t) /\
     risk_reward (_calculate_risk_metrics t) = set_if (rm_risk_reward m) (risk_reward t)).
Proof.
  split; [|split].
  - intros e sl v tp profit symbol He Hsl Hv pips_risked risk m.
    subst m. unfold risk_metrics. cbn [forallb Py.truthy_opt Py.eq0_opt].
    rewrite He, Hsl, Hv. cbn [andb negb orb].
    assert (Hsl0 : PrimFloat.eqb sl 0%float = false).
    { unfold Py.truthy in Hsl. destruct (PrimFloat.eqb sl 0%float); [discriminate|reflexivity]. }
    rewrite Hsl0. fold (pip_size symbol).
    assert (Hpips : Py.truediv (PrimFloat.abs (PrimFloat.sub e sl)) (pip_size symbol)
                    = Some pips_risked).
    { unfold Py.truediv. rewrite pip_size_nonzero. reflexivity. }
    rewrite Hpips. fold risk. cbn [rm_risk_amount rm_r_multiple rm_risk_reward].
    split; [reflexivity|]. split.
    + destruct (Py.gt0 risk) eqn:Hr; [|reflexivity].
      destruct profit as [p|]; [|reflexivity].
      unfold Py.truediv. rewrite (gt0_nonzero _ Hr). reflexivity.
    + destruct tp as [tp|]; [|reflexivity].
      destruct (Py.gt0 tp) eqn:Htp.
      * unfold Py.truthy. rewrite (gt0_nonzero _ Htp). cbn [negb andb].
        unfold Py.truediv. rewrite pip_size_nonzero.
        destruct (PrimFloat.eqb pips_risked 0%float); reflexivity.
      * rewrite andb_false_r. reflexivity.
  - intros entry sl tp v profit symbol Hmiss. unfold risk_metrics.
    cbn [forallb]. 
    destruct (Py.truthy_opt entry); [|reflexivity].
    destruct (Py.truthy_opt sl); [|reflexivity].
    destruct (Py.truthy_opt v); [|reflexivity].
    destruct Hmiss as [Hm|[Hm|Hm]]; discriminate Hm.
  - intros t m. unfold same_trade. repeat split; reflexivity.
Qed.

(** C7 as stated fails for a stop at the entry price: [stop_loss] is
    present and not zero and [take_profit] is present and positive, yet
    [risk_reward] is not set (the claimed value would be a division by a
    zero [pips_risked]). *)
Lemma risk_reward_omitted_at_break_even :
  stop_loss break_even_trade = Some 1.1000%float /\
  Py.truthy 1.1000%float = true /\
  take_profit break_even_trade = Some 1.1050%float /\
  Py.gt0 1.1050%float = true /\
  risk_amount (_calculate_risk_metrics break_even_trade) = Some 0%float /\
  risk_reward (_calculate_risk_metrics break_even_trade) = None.
Proof. vm_compute. repeat split; reflexivity. Qed.

(** ** The two history sources *)

Lemma find_snoc {A} (p : A -> bool) (l : list A) (x : A) :
  find p (l ++ [x]) =
  match find p l with
  | Some y => Some y
  | None => if p x then Some x else None
  end.
Proof.
  induction l as [|y l IH]; simpl.
  - reflexivity.
  - destruct (p y); [reflexivity | exact IH].
Qed.

Lemma last_match_cons {A} (p : A -> bool) (x : A) (l : list A) :
  last_match p (x :: l) =
  match last_match p l with
  | Some y => Some y
  | None => if p x then Some x else None
  end.
Proof. unfold last_match. simpl. apply find_snoc. Qed.

(** The picking loop keeps, for each side, the last matching deal. *)
Lemma pick_deals_last ticket deals :
  pick_deals ticket deals =
  (last_match (is_entry_of ticket) deals, last_match (is_exit_of ticket) deals).
Proof.
  unfold pick_deals.
  enough (G : forall a b,
             fold_left
               (fun '(entry_deal, exit_deal) deal =>
                  if deal_position_id deal =? ticket then
                    match deal_entry deal with
                    | DEAL_ENTRY_IN => (Some deal, exit_deal)
                    | DEAL_ENTRY_OUT => (entry_deal, Some deal)
                    | _ => (entry_deal, exit_deal)
                    end
                  else (entry_deal, exit_deal)) deals (a, b)
             = (match last_match (is_entry_of ticket) deals with
                | Some x => Some x | None => a end,
                match last_match (is_exit_of ticket) deals with
                | Some x => Some x | None => b end)).
  { rewrite G. destruct (last_match (is_entry_of ticket) deals),
      (last_match (is_exit_of ticket) deals); reflexivity. }
  induction deals as [|d l IH]; intros a b.
  - reflexivity.
  - cbn [fold_left]. rewrite !last_match_cons.
    set (le := last_match (is_entry_of ticket) l) in *.
    set (lx := last_match (is_exit_of ticket) l) in *.
    unfold is_entry_of, is_exit_of.
    destruct (deal_position_id d =? ticket); cbn [andb].
    + destruct (deal_entry d); rewrite IH; destruct le, lx; reflexivity.
    + rewrite IH. destruct le, lx; reflexivity.
Qed.

(** The accumulation loop computes the three sums over the ticket's deals. *)
Lemma sum_deals_sums ticket deals :
  sum_deals ticket deals =
  (float_sum (map deal_profit (deals_of ticket deals)),
   float_sum (map deal_commission (deals_of ticket deals)),
   float_sum (map deal_swap (deals_of ticket deals))).
Proof.
  unfold sum_deals, float_sum.
  generalize 0%float at 1 4. generalize 0%float at 1 3. generalize 0%float.
  induction deals as [|d l IH]; intros c b a.
  - reflexivity.
  - cbn [fold_left deals_of List.filter].
    destruct (deal_position_id d =? ticket); cbn [map fold_left]; apply IH.
Qed.

(** The SL/TP helper never raises. *)
Lemma get_sl_tp_returns ticket (s : State W) :
  exists p s', _get_sl_tp_from_orders ticket s = (Val p, s').
Proof.
  unfold _get_sl_tp_from_orders. mrun.
  destruct (mt5_history_orders_get _ _ (st_world s)) as [[|[orders|]] w]; mrun;
    try destruct (find _ orders); eauto.
Qed.

(** The SL/TP helper returns [(None, None)] when the one-hour scan
    brings no order of the ticket. *)
Lemma get_sl_tp_no_order ticket (s : State W) orders w :
  mt5_history_orders_get (now (st_world s) - td_hours 1) (now (st_world s)) (st_world s)
    = (Returns orders, w) ->
  find (fun order => order_position_id order =? ticket) (dict_get orders []) = None ->
  fst (_get_sl_tp_from_orders ticket s) = Val (None, None).
Proof.
  intros Hq Hnone. unfold _get_sl_tp_from_orders. mrun. rewrite Hq. mrun.
  destruct orders as [orders|]; [|reflexivity].
  cbn [dict_get] in Hnone. rewrite Hnone. reflexivity.
Qed.

(** A timestamp in the host's range converts. *)
Lemma fromtimestamp_ok t : timestamp_ok t = true -> fromtimestamp t = Some (from_epoch t).
Proof. intros Hok. unfold fromtimestamp. rewrite Hok. reflexivity. Qed.

Lemma fromtimestamp_some t d : fromtimestamp t = Some d -> timestamp_ok t = true.
Proof. unfold fromtimestamp. destruct (timestamp_ok t); [reflexivity | discriminate]. Qed.

(** C5.  Given the deals the driver returns for the last 30 minutes:
    when none of them is an exit deal of the ticket, the deals source
    returns nothing; otherwise the result is built from the exit deal
    (the last one listed) and from the entry deal of the ticket in that
    window (the last one listed) or, when the window holds none, from the
    first entry deal of the ticket that the driver returns for the window
    from seven days ago to 30 minutes ago, and from the exit deal alone
    when that query brings none.  The result takes symbol, volume, exit
    price, exit time, profit and swap from the exit deal; its commission
    is the exit deal's, plus the entry deal's when there is one, which
    also gives entry price, entry time and side; it is tagged
    "history_deals" and "100%".  The times of the deals used are
    timestamps that [datetime.fromtimestamp] accepts on the host. *)
Theorem fetch_from_deals_spec (ticket : Z) (s : State W) (deals : list Deal) (w1 : W) :
  mt5_history_deals_get (now (st_world s) - td_minutes 30) (now (st_world s)) (st_world s)
    = (Returns (Some deals), w1) ->
  match last_match (is_exit_of ticket) deals with
  | None => fst (_fetch_from_deals ticket s) = Val None
  | Some exit_deal =>
      timestamp_ok (deal_time exit_deal) = true ->
      match last_match (is_entry_of ticket) deals with
      | Some entry_deal =>
          timestamp_ok (deal_time entry_deal) = true ->
          exists data,
            fst (_fetch_from_deals ticket s) = Val (Some data) /\
            built_from_deals ticket exit_deal (Some entry_deal) data
      | None =>
          forall older w2,
            mt5_history_deals_get (now w1 - td_days 7) (now (st_world s) - td_minutes 30) w1
              = (Returns older, w2) ->
            (forall entry_deal,
               find (is_entry_of ticket) (dict_get older []) = Some entry_deal ->
               timestamp_ok (deal_time entry_deal) = true) ->
            exists data,
              fst (_fetch_from_deals ticket s) = Val (Some data) /\
              built_from_deals ticket exit_deal
                (find (is_entry_of ticket) (dict_get older [])) data
      end
  end.
Proof.
  intros Hq. unfold _fetch_from_deals. mrun. rewrite Hq. mrun.
  destruct deals as [|d l]; [reflexivity|].
  rewrite pick_deals_last.
  destruct (last_match (is_exit_of ticket) (d :: l)) as [exit_deal|]; [|reflexivity].
  intros Hexit.
  destruct (last_match (is_entry_of ticket) (d :: l)) as [entry_deal|]; mrun.
  - intros Hentry.
    rewrite (fromtimestamp_ok _ Hexit), (fromtimestamp_ok _ Hentry). mrun.
    match goal with
    | |- context [_get_sl_tp_from_orders ticket ?st] =>
        destruct (get_sl_tp_returns ticket st) as ([sl tp] & s' & E); rewrite E
    end.
    mrun. eexists. split; [reflexivity|].
    unfold built_from_deals, deals_data, side_of_deal; cbn.
    repeat split; try reflexivity; try (apply fromtimestamp_ok; assumption).
    eexists. split; [apply fromtimestamp_ok; assumption | reflexivity].
  - intros older w2 Hold Hentry. rewrite Hold. mrun.
    rewrite (fromtimestamp_ok _ Hexit).
    destruct older as [older|]; cbn [dict_get] in *; mrun.
    + destruct (find (is_entry_of ticket) older) as [entry_deal|] eqn:Hfind; mrun.
      * rewrite (fromtimestamp_ok _ (Hentry _ eq_refl)). mrun.
        match goal with
        | |- context [_get_sl_tp_from_orders ticket ?st] =>
            destruct (get_sl_tp_returns ticket st) as ([sl tp] & s' & E); rewrite E
        end.
        mrun. eexists. split; [reflexivity|].
        unfold built_from_deals, deals_data, side_of_deal; cbn.
        repeat split; try reflexivity; try (apply fromtimestamp_ok; assumption).
        eexists. split; [apply fromtimestamp_ok, Hentry; reflexivity | reflexivity].
      * match goal with
        | |- context [_get_sl_tp_from_orders ticket ?st] =>
            destruct (get_sl_tp_returns ticket st) as ([sl tp] & s' & E); rewrite E
        end.
        mrun. eexists. split; [reflexivity|].
        unfold built_from_deals, deals_data; cbn.
        repeat split; try reflexivity; apply fromtimestamp_ok; assumption.
    + match goal with
      | |- context [_get_sl_tp_from_orders ticket ?st] =>
          destruct (get_sl_tp_returns ticket st) as ([sl tp] & s' & E); rewrite E
      end.
      mrun. eexists. split; [reflexivity|].
      unfold built_from_deals, deals_data; cbn.
      repeat split; try reflexivity; apply fromtimestamp_ok; assumption.
Qed.

(** C6.  When the driver's orders of the last 30 minutes hold an order
    of the ticket, the orders fallback returns a result whose exit price
    and exit time are the [price_current] and [time_done] of the first
    such order, whose [sl] and [tp] are the order's when positive and
    unset otherwise (in particular for zero), whose profit, commission and
    swap are the sums of those fields over the ticket's deals that the
    driver returns for the same window (each 0.0 when it returns none),
    tagged "history_orders" and "95-100%".  The order's [time_done] is a
    timestamp that [datetime.fromtimestamp] accepts on the host. *)
Theorem fetch_from_orders_spec (ticket : Z) (s : State W) (orders : list Order)
    (order : Order) (deals : option (list Deal)) (w1 w2 : W) :
  mt5_history_orders_get (now (st_world s) - td_minutes 30) (now (st_world s)) (st_world s)
    = (Returns (Some orders), w1) ->
  find (fun o => order_position_id o =? ticket) orders = Some order ->
  mt5_history_deals_get (now (st_world s) - td_minutes 30) (now w1) w1
    = (Returns deals, w2) ->
  timestamp_ok (order_time_done order) = true ->
  exists data,
    fst (_fetch_from_orders ticket s) = Val (Some data) /\
    built_from_order ticket order (dict_get deals []) data.
Proof.
  intros Hq Hfind Hd Htime. unfold _fetch_from_orders. mrun. rewrite Hq. mrun.
  rewrite Hfind. mrun. rewrite Hd. mrun.
  rewrite sum_deals_sums, (fromtimestamp_ok _ Htime). mrun.
  eexists. split; [reflexivity|].
  unfold built_from_order, orders_data, Py.positive_or_None;
    cbn [td_source td_accuracy td_ticket td_exit_price td_exit_time td_sl td_tp
         td_profit td_commission td_swap].
  repeat split; try reflexivity.
  - apply fromtimestamp_ok, Htime.
  - intros Hz. rewrite (zero_not_gt0 _ Hz). reflexivity.
  - intros Hz. rewrite (zero_not_gt0 _ Hz). reflexivity.
Qed.

(** ** Where stop-loss and take-profit come from *)

(** A result of the deals source is the dict literal filled from some
    exit deal, with the pair returned by the SL/TP helper, which is the
    last thing the source runs. *)
Lemma fetch_from_deals_some ticket (s s' : State W) data :
  _fetch_from_deals ticket s = (Val (Some data), s') ->
  exists exit_deal exit_time entry sl tp s0,
    data = deals_data ticket exit_deal exit_time entry sl tp /\
    _get_sl_tp_from_orders ticket s0 = (Val (sl, tp), s').
Proof.
  unfold _fetch_from_deals. mrun.
  destruct (mt5_history_deals_get _ _ (st_world s)) as [[|[[|d l]|]] w1]; mrun;
    try discriminate.
  destruct (pick_deals ticket (d :: l)) as [[entry_deal|] [exit_deal|]]; mrun;
    try discriminate.
  - converts.
    match goal with
    | |- context [_get_sl_tp_from_orders ticket ?st] =>
        destruct (_get_sl_tp_from_orders ticket st) as [[|[sl tp]] s1] eqn:E
    end; mrun; intros Heq; inversion Heq; subst.
    eauto 10.
  - destruct (mt5_history_deals_get _ _ w1) as [[|older] w2]; mrun; try discriminate.
    destruct older as [older|]; mrun;
      try (destruct (find (is_entry_of ticket) older) as [entry_deal|]; mrun);
      converts;
      match goal with
      | |- context [_get_sl_tp_from_orders ticket ?st] =>
          destruct (_get_sl_tp_from_orders ticket st) as [[|[sl tp]] s1] eqn:E
      end; mrun; intros Heq; inversion Heq; subst; eauto 10.
Qed.

(** C10.  A result of the deals source always carries the [sl] and [tp]
    keys, holding what the one-hour orders scan returned.  The record
    built from it has exactly these as [stop_loss] and [take_profit],
    whatever the prior snapshot recorded; and they are unset when the
    scan brought no order of the ticket. *)
Theorem deals_sl_tp_from_orders_scan (ticket : Z) (s s' : State W) (data : TradeData) :
  _fetch_from_deals ticket s = (Val (Some data), s') ->
  exists sl tp s0,
    _get_sl_tp_from_orders ticket s0 = (Val (sl, tp), s') /\
    td_sl data = Some sl /\ td_tp data = Some tp /\
    (forall user account snapshot,
       stop_loss (_calculate_risk_metrics (make_trade_data user account ticket data snapshot))
         = sl /\
       take_profit (_calculate_risk_metrics (make_trade_data user account ticket data snapshot))
         = tp) /\
    (forall orders w,
       mt5_history_orders_get (now (st_world s0) - td_hours 1) (now (st_world s0))
         (st_world s0) = (Returns orders, w) ->
       find (fun order => order_position_id order =? ticket) (dict_get orders []) = None ->
       sl = None /\ tp = None).
Proof.
  intros Hfetch.
  destruct (fetch_from_deals_some _ _ _ _ Hfetch)
    as (exit_deal & exit_time & entry & sl & tp & s0 & -> & Hscan).
  exists sl, tp, s0. split; [exact Hscan|].
  split; [reflexivity|]. split; [reflexivity|]. split.
  - intros user account snapshot. split; reflexivity.
  - intros orders w Hq Hnone.
    pose proof (get_sl_tp_no_order ticket s0 orders w Hq Hnone) as Hn.
    rewrite Hscan in Hn. cbn [fst] in Hn. inversion Hn. split; reflexivity.
Qed.

(** ** The retry loop *)

Lemma try_except_returns {A} (body : M A) (d : A) s :
  exists r s1, try_except body (ret d) s = (Val r, s1).
Proof. unfold try_except, ret. destruct (body s) as [[|a] s1]; eauto. Qed.

Lemma fetch_from_deals_returns ticket (s : State W) :
  exists r s1, _fetch_from_deals ticket s = (Val r, s1).
Proof. unfold _fetch_from_deals. apply try_except_returns. Qed.

Lemma fetch_from_orders_returns ticket (s : State W) :
  exists r s1, _fetch_from_orders ticket s = (Val r, s1).
Proof. unfold _fetch_from_orders. apply try_except_returns. Qed.

Lemma warm_history_cache_returns (s : State W) :
  exists s1, warm_history_cache s = (Val tt, s1).
Proof.
  unfold warm_history_cache. mrun.
  destruct (match last_warmup (history_fetcher (st_self s)) with
            | Some lw => _ | None => false end); [eauto|].
  destruct (mt5_history_deals_get _ _ (st_world s)) as [[|r] w]; mrun; eauto.
Qed.

Lemma range_cons a b : a < b -> range a b = a :: range (a + 1) b.
Proof.
  intros Hlt. unfold range. rewrite seqZ_cons by lia.
  f_equal. f_equal; lia.
Qed.

Lemma range_nil a b : b <= a -> range a b = [].
Proof. intros Hle. unfold range. apply seqZ_nil. lia. Qed.

Lemma attempts_logged_app a b :
  attempts_logged (a ++ b) = attempts_logged a ++ attempts_logged b.
Proof. apply flat_map_app. Qed.

Lemma attempts_logged_silent evs :
  Forall not_a_log_line evs -> attempts_logged evs = [].
Proof.
  induction 1 as [|ev evs Hev _ IH]; [reflexivity|].
  destruct ev; try contradiction; exact IH.
Qed.

(** The sources and the warm-up write no log line. *)
Lemma warm_silent (s : State W) : grows_by not_a_log_line s (snd (warm_history_cache s)).
Proof. apply emits_only_warm_history_cache; simpl; auto. Qed.

Lemma deals_silent ticket (s : State W) :
  grows_by not_a_log_line s (snd (_fetch_from_deals ticket s)).
Proof. apply emits_only_fetch_from_deals; simpl; auto. Qed.

Lemma orders_silent ticket (s : State W) :
  grows_by not_a_log_line s (snd (_fetch_from_orders ticket s)).
Proof. apply emits_only_fetch_from_orders; simpl; auto. Qed.

(** One attempt, up to the point where both sources have answered. *)
Lemma attempt_sources ticket max_retries n (s : State W) :
  exists s1 r2 s2,
    warm_history_cache (logged (LogAttempt ticket n max_retries) s) = (Val tt, s1) /\
    _fetch_from_deals ticket s1 = (Val r2, s2) /\
    (exists e, st_log s2 = st_log s ++ e /\ attempts_logged e = [n]) /\
    exists r3 s3,
      _fetch_from_orders ticket s2 = (Val r3, s3) /\
      exists e, st_log s3 = st_log s ++ e /\ attempts_logged e = [n].
Proof.
  destruct (warm_history_cache_returns (logged (LogAttempt ticket n max_retries) s))
    as (s1 & Ew).
  destruct (fetch_from_deals_returns ticket s1) as (r2 & s2 & Ed).
  destruct (fetch_from_orders_returns ticket s2) as (r3 & s3 & Eo).
  pose proof (warm_silent (logged (LogAttempt ticket n max_retries) s)) as (e1 & L1 & F1).
  pose proof (deals_silent ticket s1) as (e2 & L2 & F2).
  pose proof (orders_silent ticket s2) as (e3 & L3 & F3).
  rewrite Ew in L1. rewrite Ed in L2. rewrite Eo in L3.
  cbn [snd logged st_log] in *.
  exists s1, r2, s2. split; [exact Ew|]. split; [exact Ed|]. split.
  - exists ([EvLog (LogAttempt ticket n max_retries)] ++ e1 ++ e2). split.
    + rewrite L2, L1. rewrite <- !app_assoc. reflexivity.
    + rewrite !attempts_logged_app, (attempts_logged_silent e1 F1),
        (attempts_logged_silent e2 F2). reflexivity.
  - exists r3, s3. split; [exact Eo|].
    exists ([EvLog (LogAttempt ticket n max_retries)] ++ e1 ++ e2 ++ e3). split.
    + rewrite L3, L2, L1. rewrite <- !app_assoc. reflexivity.
    + rewrite !attempts_logged_app, (attempts_logged_silent e1 F1),
        (attempts_logged_silent e2 F2), (attempts_logged_silent e3 F3). reflexivity.
Qed.

Lemma attempts_spec ticket max_retries :
  forall k n (s : State W),
    1 <= n -> Z.to_nat (max_retries + 1 - n) = k ->
    exists r s',
      attempts ticket max_retries (range n (max_retries + 1)) s = (Val r, s') /\
      fetch_run ticket max_retries n s r s' /\
      exists evs, st_log s' = st_log s ++ evs /\ (length (attempts_logged evs) <= k)%nat.
Proof.
  induction k as [|k IH]; intros n s Hn Hk.
  - rewrite range_nil by lia. cbn [attempts]. mrun.
    exists None, (logged (LogNotFound ticket max_retries) s).
    split; [reflexivity|]. split; [apply run_exhausted; lia|].
    exists [EvLog (LogNotFound ticket max_retries)]. split; [reflexivity|].
    cbn. lia.
  - rewrite range_cons by lia. cbn [attempts]. mrun.
    destruct (attempt_sources ticket max_retries n s)
      as (s1 & r2 & s2 & Ew & Ed & (e2 & L2 & A2) & r3 & s3 & Eo & e3 & L3 & A3).
    unfold logged in Ew. rewrite Ew. mrun. rewrite Ed. mrun.
    destruct r2 as [data|]; mrun.
    { exists (Some data), (logged LogFoundDeals s2).
      split; [reflexivity|]. split.
      - eapply run_found_in_deals; [lia | exact Ew | exact Ed].
      - exists (e2 ++ [EvLog LogFoundDeals]). split.
        + cbn [logged st_log]. rewrite L2, <- app_assoc. reflexivity.
        + rewrite attempts_logged_app, A2. cbn. lia. }
    rewrite Eo. mrun.
    destruct r3 as [data|]; mrun.
    { exists (Some data), (logged LogFoundOrders s3).
      split; [reflexivity|]. split.
      - eapply run_found_in_orders; [lia | exact Ew | exact Ed | exact Eo].
      - exists (e3 ++ [EvLog LogFoundOrders]). split.
        + cbn [logged st_log]. rewrite L3, <- app_assoc. reflexivity.
        + rewrite attempts_logged_app, A3. cbn. lia. }
    destruct (n <? max_retries) eqn:Hlt; mrun.
    + apply Z.ltb_lt in Hlt.
      destruct (IH (n + 1) (slept (Py.of_int (3 * n)) (logged (LogWaiting (3 * n)) s3)))
        as (r & s' & Erun & Hrun & evs & Llog & Hlen); [lia | lia |].
      unfold slept, logged in Erun. cbn [st_world st_log st_self] in Erun.
      rewrite Erun.
      exists r, s'. split; [reflexivity|]. split.
      * eapply run_backoff; [lia | exact Ew | exact Ed | exact Eo | exact Hrun].
      * exists (e3 ++ [EvLog (LogWaiting (3 * n)); EvSleep (Py.of_int (3 * n))] ++ evs).
        split.
        -- rewrite Llog. cbn [slept logged st_log]. rewrite L3, <- !app_assoc.
           reflexivity.
        -- rewrite !attempts_logged_app, A3. cbn [attempts_logged flat_map app length].
           lia.
    + apply Z.ltb_ge in Hlt.
      destruct (IH (n + 1) s3) as (r & s' & Erun & Hrun & evs & Llog & Hlen);
        [lia | lia |].
      rewrite Erun.
      exists r, s'. split; [reflexivity|]. split.
      * eapply run_last_failed; [lia | lia | exact Ew | exact Ed | exact Eo | exact Hrun].
      * exists (e3 ++ evs). split.
        -- rewrite Llog, L3, <- app_assoc. reflexivity.
        -- rewrite attempts_logged_app, A3. cbn [length app]. lia.
Qed.

(** C3.  [get_closed_position_data ticket max_retries] always returns,
    and runs the retry algorithm of the specification from attempt 1: an
    attempt warms the cache, asks the deals source and, if that gives
    nothing, the orders source, and returns the first result; when both
    give nothing on attempt [n < max_retries] it sleeps [3 * n] seconds
    and goes on to attempt [n + 1]; when no attempt is left the result
    is [None].  It announces at most [max_retries] attempts. *)
Theorem get_closed_position_data_spec (ticket max_retries : Z) (s : State W) :
  exists r s',
    get_closed_position_data ticket max_retries s = (Val r, s') /\
    fetch_run ticket max_retries 1 s r s' /\
    exists evs,
      st_log s' = st_log s ++ evs /\
      (length (attempts_logged evs) <= Z.to_nat max_retries)%nat.
Proof.
  unfold get_closed_position_data.
  destruct (attempts_spec ticket max_retries (Z.to_nat (max_retries + 1 - 1)) 1 s)
    as (r & s' & E & Hrun & evs & L & Hlen); [lia | reflexivity |].
  exists r, s'. split; [exact E|]. split; [exact Hrun|].
  exists evs. split; [exact L|].
  replace (max_retries + 1 - 1) with max_retries in Hlen by lia. exact Hlen.
Qed.

(** ** The caller side *)

(** The loop condition [waited < max_wait] holds before each of the
    first 101 rounds and fails after them: one hundred additions of 0.1
    give 9.99999999999998, not 10. *)
Lemma waited_below_max k : (k <= 100)%nat -> Py.lt (waited_after k) 10%float = true.
Proof.
  intros Hk.
  assert (Hall : forallb (fun k => Py.lt (waited_after k) 10%float) (seq 0 101) = true)
    by (vm_compute; reflexivity).
  rewrite forallb_forall in Hall. apply Hall. apply in_seq. lia.
Qed.

Lemma waited_reaches_max : Py.lt (waited_after 101) 10%float = false.
Proof. vm_compute. reflexivity. Qed.

(** The wait loop ends within 101 rounds, whatever the other tasks do:
    the bound [wait_fuel] is never hit and nothing raises. *)
Lemma wait_for_cache_polls others user :
  forall j k fuel (s : State W),
    (k + j = 101)%nat -> (j < fuel)%nat ->
    exists positions s',
      wait_for_cache others fuel user 10%float 0.1%float (waited_after k) s
        = (Val (Returned positions), s').
Proof.
  induction j as [|j IH]; intros k fuel s Hk Hfuel.
  - destruct fuel as [|fuel]; [lia|]. cbn [wait_for_cache].
    replace k with 101%nat by lia. rewrite waited_reaches_max.
    unfold ret. eauto.
  - destruct fuel as [|fuel]; [lia|]. cbn [wait_for_cache].
    rewrite waited_below_max by lia.
    unfold asyncio_sleep, yield_to_others. mrun.
    match goal with
    | |- context [cache_lookup_fresh ?m user ?t] =>
        destruct (cache_lookup_fresh m user t) as [positions|]
    end.
    + eauto.
    + apply (IH (S k)); lia.
Qed.

(** C2, as the code has it.  A caller that misses the cache while the
    queue holds its 100 requests is suspended inside
    [request_queue.put]: the call has not returned, nothing was
    enqueued, no wait was started, the state is untouched. *)
Theorem get_positions_blocks_on_full_queue (others : State W -> State W)
    (user : string) (login_ : Z) (password server : string) (account : option string)
    (on_trade_closed : option (Callback W)) (s : State W) :
  cache_lookup_fresh (st_self s) user (now (st_world s)) = None ->
  (queue_maxsize <= length (request_queue (st_self s)))%nat ->
  get_positions others user login_ password server account on_trade_closed s
    = (Val BlockedOnPut, s).
Proof.
  intros Hmiss Hfull. unfold get_positions, put_and_wait. mrun.
  rewrite Hmiss. mrun. unfold queue_full.
  destruct (Nat.leb_spec queue_maxsize (length (request_queue (st_self s)))); [|lia].
  reflexivity.
Qed.

(** A fresh cache entry is returned at once: nothing is enqueued, nothing
    is logged, the state is untouched. *)
Lemma get_positions_cache_hit (others : State W -> State W)
    (user : string) (login_ : Z) (password server : string) (account : option string)
    (on_trade_closed : option (Callback W)) (s : State W) positions :
  cache_lookup_fresh (st_self s) user (now (st_world s)) = Some positions ->
  get_positions others user login_ password server account on_trade_closed s
    = (Val (Returned positions), s).
Proof.
  intros Hhit. unfold get_positions. mrun. rewrite Hhit. reflexivity.
Qed.

(** With room in the queue, a call that misses the cache always comes
    back with a list. *)
Lemma get_positions_returns (others : State W -> State W)
    (user : string) (login_ : Z) (password server : string) (account : option string)
    (on_trade_closed : option (Callback W)) (s : State W) :
  (length (request_queue (st_self s)) < queue_maxsize)%nat ->
  exists positions s',
    get_positions others user login_ password server account on_trade_closed s
      = (Val (Returned positions), s').
Proof.
  intros Hroom. unfold get_positions. mrun.
  destruct (cache_lookup_fresh (st_self s) user (now (st_world s))) as [positions|].
  { eauto. }
  unfold put_and_wait. mrun. unfold queue_full.
  destruct (Nat.leb_spec queue_maxsize (length (request_queue (st_self s)))); [lia|].
  mrun. apply (wait_for_cache_polls others user 101 0); [reflexivity | unfold wait_fuel; lia].
Qed.

(** ** The snapshot store across a poll *)

(** The handler never raises: a failed fetch and a failing callback are
    both absorbed. *)
Lemma handle_closed_position_returns user account ticket snapshot
    (on_trade_closed : option (Callback W)) (s : State W) :
  exists s', _handle_closed_position user account ticket snapshot on_trade_closed s
             = (Val tt, s').
Proof.
  unfold _handle_closed_position, get_closed_position_data.
  destruct (attempts_spec ticket 3 (Z.to_nat (3 + 1 - 1)) 1 s) as (r & s1 & E & _);
    [lia | reflexivity |].
  unfold bind at 1. rewrite E.
  destruct r as [data|]; [|unfold ret; eauto].
  destruct on_trade_closed as [callback|]; [|unfold ret; eauto].
  unfold await_callback, suspended. mrun.
  destruct (callback _ _) as [[|u] w]; [eauto|].
  destruct u. eauto.
Qed.

Lemma od_get_key {V} (k : Z) (d : list (Z * V)) :
  In k (od_keys d) -> od_get k d <> None.
Proof.
  induction d as [|[k' v'] d IH]; simpl; [tauto|].
  intros [->|Hin].
  - rewrite Z.eqb_refl. discriminate.
  - destruct (k' =? k); [discriminate | exact (IH Hin)].
Qed.

Lemma od_get_set {V} (k k' : Z) (v : V) (d : list (Z * V)) :
  od_get k (od_set k' v d) <> None -> k = k' \/ od_get k d <> None.
Proof.
  induction d as [|[k0 v0] d IH]; simpl.
  - destruct (k' =? k) eqn:E; [apply Z.eqb_eq in E; auto | tauto].
  - destruct (k0 =? k') eqn:E0; simpl.
    + apply Z.eqb_eq in E0. subst k0.
      destruct (k' =? k) eqn:E; [apply Z.eqb_eq in E; auto | auto].
    + destruct (k0 =? k); [right; discriminate | exact IH].
Qed.

(** Snapshotting positions whose times convert reads the clock only, and
    the dict it builds holds the tickets of the positions given and those
    it started with. *)
Lemma snapshot_positions_keys raw :
  times_ok raw ->
  forall d (s : State W),
    exists d',
      snapshot_positions raw d s = (Val d', s) /\
      forall k, od_get k d' <> None -> od_get k d <> None \/ In k (map pos_ticket raw).
Proof.
  induction 1 as [|pos raw Hpos Hraw IH]; intros d s; cbn [snapshot_positions].
  - exists d. split; [reflexivity | auto].
  - unfold PositionSnapshot_init. mrun. rewrite (fromtimestamp_ok _ Hpos). mrun.
    match goal with
    | |- context [snapshot_positions raw ?d0 s] =>
        destruct (IH d0 s) as (d' & E & Hk)
    end.
    rewrite E. exists d'. split; [reflexivity|].
    intros k Hget. destruct (Hk k Hget) as [Hset|Hin].
    + destruct (od_get_set _ _ _ _ Hset) as [->|Hd]; [right; left; reflexivity | auto].
    + right. right. exact Hin.
Qed.

(** The tickets detected as closed were tracked. *)
Lemma closed_tickets_tracked previous current_tickets t :
  In t (closed_tickets_of previous current_tickets) -> od_get t previous <> None.
Proof.
  unfold closed_tickets_of. rewrite set_difference_In. intros [Hin _].
  apply od_get_key, Hin.
Qed.

Lemma handle_all_closed user account (on_trade_closed : option (Callback W)) previous :
  forall tickets (s : State W),
    (forall t, In t tickets -> od_get t previous <> None) ->
    exists s',
      for_each tickets
        (fun ticket =>
           match od_get ticket previous with
           | Some snapshot =>
               _handle_closed_position user account ticket snapshot on_trade_closed
           | None => raise
           end) s = (Val tt, s').
Proof.
  induction tickets as [|t tickets IH]; intros s Hkeys; cbn [for_each].
  - exists s. reflexivity.
  - destruct (od_get t previous) as [snapshot|] eqn:Ht;
      [|exfalso; exact (Hkeys t (or_introl eq_refl) Ht)].
    destruct (handle_closed_position_returns user account t snapshot on_trade_closed s)
      as (s1 & E1).
    destruct (IH s1) as (s' & E); [intros t' Hin; apply Hkeys; right; exact Hin|].
    unfold bind. rewrite E1, E. exists s'. reflexivity.
Qed.

(** On every poll that reaches the snapshot update, a ticket detected as
    closed is absent from the user's new snapshot map, whether its fetch
    succeeded or failed: the new map holds the current positions only. *)
Lemma closed_ticket_never_retained (request : Request W) (s : State W)
    (w1 w2 w3 : W) (raw : option (list Position)) :
  mt5_initialize (st_world s) = (Returns true, w1) ->
  mt5_login (req_login request) (req_password request) (req_server request) w1
    = (Returns true, w2) ->
  mt5_positions_get w2 = (Returns raw, w3) ->
  times_ok (dict_get raw []) ->
  forall ticket,
    In ticket
      (closed_tickets_of
         (dict_get (position_snapshots (st_self s) !! req_user_id request) [])
         (map pos_ticket (dict_get raw []))) ->
    exists d,
      position_snapshots (st_self (snd (_process_request request s))) !! req_user_id request
        = Some d /\
      od_get ticket d = None.
Proof.
  intros Hi Hl Hp Hraw ticket Hclosed.
  unfold _process_request. mrun. rewrite Hi. mrun. rewrite Hl. mrun. rewrite Hp. mrun.
  match goal with
  | |- context [snapshot_positions (dict_get raw []) [] ?st] =>
      destruct (snapshot_positions_keys (dict_get raw []) Hraw [] st) as (d & E & Hk);
      rewrite E
  end.
  mrun.
  match goal with
  | |- context [for_each ?l ?body ?st] =>
      destruct (handle_all_closed (req_user_id request) (req_account_id request)
                  (req_on_trade_closed request)
                  (dict_get (position_snapshots (st_self s) !! req_user_id request) [])
                  l st) as (s' & Ef)
  end.
  { intros t. apply closed_tickets_tracked. }
  rewrite Ef. mrun.
  exists d. split.
  - cbn [position_snapshots]. apply lookup_insert_eq.
  - destruct (od_get ticket d) eqn:Hget; [exfalso|reflexivity].
    destruct (Hk ticket) as [Hempty|Hin]; [rewrite Hget; discriminate | | ].
    + apply Hempty. reflexivity.
    + unfold closed_tickets_of in Hclosed. apply set_difference_In in Hclosed.
      destruct Hclosed as [_ Hout]. exact (Hout Hin).
Qed.

(** ** Further properties of the history fetcher *)

(** X1.  A warm-up that is due never raises.  When its query returns
    (with or without deals) it records the clock reading taken on entry,
    sleeps 0.3 s, and from then on every call whose clock reads less
    than [warmup_interval] seconds later does nothing at all.  When its
    query raises, the error is swallowed, the fetcher is left as it was
    (so the next call warms again) and there is no sleep. *)
Theorem warm_history_cache_outcomes (s : State W) (resp : Resp (option (list Deal)))
    (w1 : W) :
  warmed_recently (history_fetcher (st_self s)) (now (st_world s)) = false ->
  mt5_history_deals_get (now (st_world s) - td_days 90) (now (st_world s)) (st_world s)
    = (resp, w1) ->
  fst (warm_history_cache s) = Val tt /\
  match resp with
  | Returns _ =>
      last_warmup (history_fetcher (st_self (snd (warm_history_cache s))))
        = Some (now (st_world s)) /\
      st_log (snd (warm_history_cache s))
        = st_log s ++ [EvDealsGet (now (st_world s) - td_days 90) (now (st_world s));
                       EvSleep 0.3%float] /\
      forall s2 : State W,
        history_fetcher (st_self s2)
          = history_fetcher (st_self (snd (warm_history_cache s))) ->
        Py.lt (total_seconds (now (st_world s2) - now (st_world s)))
              (Py.of_int (warmup_interval (history_fetcher (st_self s)))) = true ->
        warm_history_cache s2 = (Val tt, s2)
  | Raises =>
      st_self (snd (warm_history_cache s)) = st_self s /\
      st_log (snd (warm_history_cache s))
        = st_log s ++ [EvDealsGet (now (st_world s) - td_days 90) (now (st_world s))]
  end.
Proof.
  intros Hdue Hq. unfold warmed_recently in Hdue.
  remember (warm_history_cache s) as res eqn:E.
  unfold warm_history_cache in E. mrun_in E. rewrite Hdue, Hq in E.
  destruct resp as [|r]; mrun_in E; subst res; cbn [fst snd st_log st_self].
  - repeat split; reflexivity.
  - split; [reflexivity|]. split; [reflexivity|]. split.
    + rewrite <- app_assoc. reflexivity.
    + intros s2 Hf Hrecent. unfold warm_history_cache. mrun.
      rewrite Hf. cbn [last_warmup warmup_interval history_fetcher].
      rewrite Hrecent. reflexivity.
Qed.

(** X2.  With [max_retries] zero or negative the fetcher makes no
    attempt: it returns [None] at once, having asked the terminal
    nothing and slept not at all. *)
Theorem no_retries_no_attempt (ticket max_retries : Z) (s : State W) :
  max_retries <= 0 ->
  get_closed_position_data ticket max_retries s
    = (Val None, logged (LogNotFound ticket max_retries) s).
Proof.
  intros Hmax. unfold get_closed_position_data. rewrite range_nil by lia. reflexivity.
Qed.

(** X3.  The deals source gives up, returning [None] without a further
    query, when its 30-minute query raises, returns [None] or returns no
    deal. *)
Theorem fetch_from_deals_no_deals (ticket : Z) (s : State W)
    (resp : Resp (option (list Deal))) (w1 : W) :
  mt5_history_deals_get (now (st_world s) - td_minutes 30) (now (st_world s)) (st_world s)
    = (resp, w1) ->
  resp = Raises \/ resp = Returns None \/ resp = Returns (Some []) ->
  _fetch_from_deals ticket s
    = (Val None,
       {| st_world := w1;
          st_log := st_log s ++ [EvDealsGet (now (st_world s) - td_minutes 30)
                                   (now (st_world s))];
          st_self := st_self s |}).
Proof.
  intros Hq Hresp. unfold _fetch_from_deals. mrun. rewrite Hq.
  destruct Hresp as [->|[->| ->]]; reflexivity.
Qed.

(** X4.  When the recent window has an exit deal of the ticket but no
    entry deal, and the backfill query over the older window raises, the
    deals source fails as a whole: it returns [None] although the exit
    deal was found, and does not scan the orders. *)
Theorem fetch_from_deals_backfill_raises (ticket : Z) (s : State W)
    (deals : list Deal) (exit_deal : Deal) (w1 w2 : W) :
  mt5_history_deals_get (now (st_world s) - td_minutes 30) (now (st_world s)) (st_world s)
    = (Returns (Some deals), w1) ->
  last_match (is_exit_of ticket) deals = Some exit_deal ->
  last_match (is_entry_of ticket) deals = None ->
  mt5_history_deals_get (now w1 - td_days 7) (now (st_world s) - td_minutes 30) w1
    = (Raises, w2) ->
  _fetch_from_deals ticket s
    = (Val None,
       {| st_world := w2;
          st_log := st_log s ++
                    [EvDealsGet (now (st_world s) - td_minutes 30) (now (st_world s));
                     EvDealsGet (now w1 - td_days 7) (now (st_world s) - td_minutes 30)];
          st_self := st_self s |}).
Proof.
  intros Hq Hexit Hentry Hold. unfold _fetch_from_deals. mrun. rewrite Hq. mrun.
  destruct deals as [|d l]; [discriminate Hexit|].
  rewrite pick_deals_last, Hexit, Hentry. mrun. rewrite Hold. mrun.
  rewrite <- app_assoc. reflexivity.
Qed.

(** X5.  A failure of the stop-loss/take-profit scan does not fail the
    deals source: when the exit and entry deals are found, with times
    that [datetime.fromtimestamp] accepts, and the one-hour orders query
    raises or returns [None], the result is still built from the deals,
    with [sl] and [tp] present and unset. *)
Theorem fetch_from_deals_scan_fails (ticket : Z) (s : State W)
    (deals : list Deal) (exit_deal entry_deal : Deal)
    (resp : Resp (option (list Order))) (w1 w2 : W) :
  mt5_history_deals_get (now (st_world s) - td_minutes 30) (now (st_world s)) (st_world s)
    = (Returns (Some deals), w1) ->
  last_match (is_exit_of ticket) deals = Some exit_deal ->
  last_match (is_entry_of ticket) deals = Some entry_deal ->
  timestamp_ok (deal_time exit_deal) = true ->
  timestamp_ok (deal_time entry_deal) = true ->
  mt5_history_orders_get (now w1 - td_hours 1) (now w1) w1 = (resp, w2) ->
  resp = Raises \/ resp = Returns None ->
  exists data,
    fst (_fetch_from_deals ticket s) = Val (Some data) /\
    built_from_deals ticket exit_deal (Some entry_deal) data /\
    td_sl data = Some None /\ td_tp data = Some None.
Proof.
  intros Hq Hexit Hentry Hxt Het Hscan Hresp.
  unfold _fetch_from_deals. mrun. rewrite Hq. mrun.
  destruct deals as [|d l]; [discriminate Hexit|].
  rewrite pick_deals_last, Hexit, Hentry. mrun.
  rewrite (fromtimestamp_ok _ Hxt), (fromtimestamp_ok _ Het). mrun.
  unfold _get_sl_tp_from_orders. mrun. rewrite Hscan.
  destruct Hresp as [->| ->]; mrun;
    (eexists; split; [reflexivity|]; split; [|split; reflexivity]);
    unfold built_from_deals, deals_data, side_of_deal; cbn;
    repeat split; try reflexivity; try (apply fromtimestamp_ok; assumption);
    (eexists; split; [apply fromtimestamp_ok; assumption | reflexivity]).
Qed.

(** X6.  The orders fallback fails as a whole when its deals query
    raises: it returns [None] although an order of the ticket was found. *)
Theorem fetch_from_orders_deals_raise (ticket : Z) (s : State W) (orders : list Order)
    (order : Order) (w1 w2 : W) :
  mt5_history_orders_get (now (st_world s) - td_minutes 30) (now (st_world s)) (st_world s)
    = (Returns (Some orders), w1) ->
  find (fun o => order_position_id o =? ticket) orders = Some order ->
  mt5_history_deals_get (now (st_world s) - td_minutes 30) (now w1) w1 = (Raises, w2) ->
  fst (_fetch_from_orders ticket s) = Val None.
Proof.
  intros Hq Hfind Hd. unfold _fetch_from_orders. mrun. rewrite Hq. mrun.
  rewrite Hfind. mrun. rewrite Hd. reflexivity.
Qed.

Lemma fromtimestamp_bad t : timestamp_ok t = false -> fromtimestamp t = None.
Proof. intros Hbad. unfold fromtimestamp. rewrite Hbad. reflexivity. Qed.

(** X23.  An exit deal whose time [datetime.fromtimestamp] rejects makes
    the deals source fail: although the exit deal of the ticket was
    found, the source returns [None], and it does so before scanning the
    orders for stop-loss and take-profit. *)
Theorem fetch_from_deals_time_out_of_range (ticket : Z) (s : State W)
    (deals : list Deal) (exit_deal : Deal) (w1 : W) :
  mt5_history_deals_get (now (st_world s) - td_minutes 30) (now (st_world s)) (st_world s)
    = (Returns (Some deals), w1) ->
  last_match (is_exit_of ticket) deals = Some exit_deal ->
  timestamp_ok (deal_time exit_deal) = false ->
  fst (_fetch_from_deals ticket s) = Val None /\
  exists evs,
    st_log (snd (_fetch_from_deals ticket s)) = st_log s ++ evs /\
    Forall not_an_orders_query evs.
Proof.
  intros Hq Hexit Hbad. unfold _fetch_from_deals. mrun. rewrite Hq. mrun.
  destruct deals as [|d l]; [discriminate Hexit|].
  rewrite pick_deals_last, Hexit.
  destruct (last_match (is_entry_of ticket) (d :: l)) as [entry_deal|]; mrun.
  - rewrite (fromtimestamp_bad _ Hbad). unfold raise. mrun.
    split; [reflexivity|]. eexists. split; [reflexivity|]. repeat constructor.
  - destruct (mt5_history_deals_get _ _ w1) as [[|older] w2]; mrun.
    + split; [reflexivity|]. eexists.
      split; [rewrite <- app_assoc; reflexivity|]. repeat constructor.
    + assert (Hconv :
                forall st : State W,
                  (match fromtimestamp (deal_time exit_deal) with
                   | Some d0 => fun s0 : State W => (Val d0, s0)
                   | None => raise
                   end) st = (Exc, st))
        by (intros st; rewrite (fromtimestamp_bad _ Hbad); reflexivity).
      destruct older as [older|]; mrun; rewrite Hconv;
        (split; [reflexivity|]); eexists;
        (split; [cbn [snd st_log]; rewrite <- app_assoc; reflexivity|]);
        repeat constructor.
Qed.

(** X24.  An order whose [time_done] [datetime.fromtimestamp] rejects
    makes the orders fallback fail: although the order of the ticket was
    found and the deals query returned, the fallback returns [None]. *)
Theorem fetch_from_orders_time_out_of_range (ticket : Z) (s : State W)
    (orders : list Order) (order : Order) (deals : option (list Deal)) (w1 w2 : W) :
  mt5_history_orders_get (now (st_world s) - td_minutes 30) (now (st_world s)) (st_world s)
    = (Returns (Some orders), w1) ->
  find (fun o => order_position_id o =? ticket) orders = Some order ->
  mt5_history_deals_get (now (st_world s) - td_minutes 30) (now w1) w1
    = (Returns deals, w2) ->
  timestamp_ok (order_time_done order) = false ->
  fst (_fetch_from_orders ticket s) = Val None.
Proof.
  intros Hq Hfind Hd Hbad. unfold _fetch_from_orders. mrun. rewrite Hq. mrun.
  rewrite Hfind. mrun. rewrite Hd. mrun.
  destruct (sum_deals ticket (dict_get deals [])) as [[profit commission] swap].
  rewrite (fromtimestamp_bad _ Hbad). reflexivity.
Qed.

Lemma last_match_holds {A} (p : A -> bool) (l : list A) (x : A) :
  last_match p l = Some x -> p x = true.
Proof. unfold last_match. intros Hf. apply find_some in Hf. tauto. Qed.

(** A result of the deals source is built from an exit deal of the
    ticket and, when it has entry data, an entry deal of the ticket, with
    their times converted. *)
Lemma fetch_from_deals_built ticket (s s' : State W) data :
  _fetch_from_deals ticket s = (Val (Some data), s') ->
  exists exit_deal exit_time entry sl tp,
    data = deals_data ticket exit_deal exit_time entry sl tp /\
    fromtimestamp (deal_time exit_deal) = Some exit_time /\
    is_exit_of ticket exit_deal = true /\
    forall e t, entry = Some (e, t) ->
      is_entry_of ticket e = true /\ fromtimestamp (deal_time e) = Some t.
Proof.
  unfold _fetch_from_deals. mrun.
  destruct (mt5_history_deals_get _ _ (st_world s)) as [[|[[|d l]|]] w1]; mrun;
    try discriminate.
  rewrite pick_deals_last.
  destruct (last_match (is_entry_of ticket) (d :: l)) as [entry_deal|] eqn:Hentry;
    destruct (last_match (is_exit_of ticket) (d :: l)) as [exit_deal|] eqn:Hexit; mrun;
    try discriminate.
  - destruct (fromtimestamp (deal_time exit_deal)) as [exit_time|] eqn:Hxt;
      [mrun | unfold raise; mrun; discriminate].
    destruct (fromtimestamp (deal_time entry_deal)) as [entry_time|] eqn:Het;
      [mrun | unfold raise; mrun; discriminate].
    match goal with
    | |- context [_get_sl_tp_from_orders ticket ?st] =>
        destruct (_get_sl_tp_from_orders ticket st) as [[|[sl tp]] s1]
    end; mrun; intros Heq; inversion Heq; subst.
    exists exit_deal, exit_time, (Some (entry_deal, entry_time)), sl, tp.
    split; [reflexivity|]. split; [exact Hxt|].
    split; [exact (last_match_holds _ _ _ Hexit)|].
    intros e t He. inversion He; subst.
    split; [exact (last_match_holds _ _ _ Hentry) | exact Het].
  - destruct (mt5_history_deals_get _ _ w1) as [[|older] w2]; mrun; try discriminate.
    assert (Hfound :
              forall e, find (is_entry_of ticket) (dict_get older []) = Some e ->
                        is_entry_of ticket e = true)
      by (intros e He; apply find_some in He; tauto).
    destruct older as [older|]; cbn [dict_get] in Hfound; mrun;
      [destruct (find (is_entry_of ticket) older) as [entry_deal|] eqn:Hfind; mrun|];
      (destruct (fromtimestamp (deal_time exit_deal)) as [exit_time|] eqn:Hxt;
       [mrun | unfold raise; mrun; discriminate]).
    + destruct (fromtimestamp (deal_time entry_deal)) as [entry_time|] eqn:Het;
        [mrun | unfold raise; mrun; discriminate].
      match goal with
      | |- context [_get_sl_tp_from_orders ticket ?st] =>
          destruct (_get_sl_tp_from_orders ticket st) as [[|[sl tp]] s1]
      end; mrun; intros Heq; inversion Heq; subst.
      exists exit_deal, exit_time, (Some (entry_deal, entry_time)), sl, tp.
      split; [reflexivity|]. split; [exact Hxt|].
      split; [exact (last_match_holds _ _ _ Hexit)|].
      intros e t He. inversion He; subst. split; [apply Hfound; reflexivity | exact Het].
    + match goal with
      | |- context [_get_sl_tp_from_orders ticket ?st] =>
          destruct (_get_sl_tp_from_orders ticket st) as [[|[sl tp]] s1]
      end; mrun; intros Heq; inversion Heq; subst.
      exists exit_deal, exit_time, None, sl, tp.
      split; [reflexivity|]. split; [exact Hxt|].
      split; [exact (last_match_holds _ _ _ Hexit)|].
      intros e t He. discriminate He.
    + match goal with
      | |- context [_get_sl_tp_from_orders ticket ?st] =>
          destruct (_get_sl_tp_from_orders ticket st) as [[|[sl tp]] s1]
      end; mrun; intros Heq; inversion Heq; subst.
      exists exit_deal, exit_time, None, sl, tp.
      split; [reflexivity|]. split; [exact Hxt|].
      split; [exact (last_match_holds _ _ _ Hexit)|].
      intros e t He. discriminate He.
Qed.

(** A result of the orders fallback is the dict literal filled from an
    order of the ticket, with its time converted. *)
Lemma fetch_from_orders_some ticket (s s' : State W) data :
  _fetch_from_orders ticket s = (Val (Some data), s') ->
  exists order exit_time profit commission swap,
    data = orders_data ticket order exit_time profit commission swap /\
    order_position_id order = ticket /\
    fromtimestamp (order_time_done order) = Some exit_time.
Proof.
  unfold _fetch_from_orders. mrun.
  destruct (mt5_history_orders_get _ _ (st_world s)) as [[|[orders|]] w1]; mrun;
    try discriminate.
  destruct (find (fun order => order_position_id order =? ticket) orders)
    as [order|] eqn:Hfind; mrun; try discriminate.
  destruct (mt5_history_deals_get _ _ w1) as [[|deals] w2]; mrun; try discriminate.
  destruct (sum_deals ticket (dict_get deals [])) as [[profit commission] swap].
  destruct (fromtimestamp (order_time_done order)) as [exit_time|] eqn:Hxt;
    [mrun | unfold raise; mrun; discriminate].
  intros Heq. inversion Heq; subst.
  exists order, exit_time, profit, commission, swap. split; [reflexivity|].
  split; [|exact Hxt].
  apply find_some in Hfind. apply Z.eqb_eq. tauto.
Qed.

(** A result of the retry loop is a result of one of the two sources. *)
Lemma fetch_run_some ticket max_retries n (s s' : State W) r :
  fetch_run ticket max_retries n s r s' ->
  forall data, r = Some data ->
    exists s1 s2,
      _fetch_from_deals ticket s1 = (Val (Some data), s2) \/
      _fetch_from_orders ticket s1 = (Val (Some data), s2).
Proof.
  induction 1 as [n s Hn|n s s1 s2 d Hn Hw Hd|n s s1 s2 s3 d Hn Hw Hd Ho
                  |n s s1 s2 s3 r s' Hn Hw Hd Ho Hrun IH
                  |n s s1 s2 s3 r s' Hn Hmax Hw Hd Ho Hrun IH];
    intros data Hr.
  - discriminate Hr.
  - inversion Hr; subst. eauto.
  - inversion Hr; subst. eauto.
  - exact (IH data Hr).
  - exact (IH data Hr).
Qed.

Lemma get_closed_position_data_source ticket max_retries (s s' : State W) data :
  get_closed_position_data ticket max_retries s = (Val (Some data), s') ->
  exists s1 s2,
    _fetch_from_deals ticket s1 = (Val (Some data), s2) \/
    _fetch_from_orders ticket s1 = (Val (Some data), s2).
Proof.
  intros Hget. unfold get_closed_position_data in Hget.
  destruct (attempts_spec ticket max_retries (Z.to_nat (max_retries + 1 - 1)) 1 s)
    as (r & s0 & E & Hrun & _); [lia | reflexivity |].
  rewrite E in Hget. inversion Hget; subst.
  exact (fetch_run_some _ _ _ _ _ _ Hrun data eq_refl).
Qed.

(** X7.  Whatever the fetcher returns is for the ticket asked, and is
    either a deals result (tagged "history_deals" / "100%", carrying
    symbol and volume, built from an exit deal of that very ticket) or an
    orders result (tagged "history_orders" / "95-100%", carrying no
    symbol, volume or entry data).  Either way it holds the [sl] and [tp]
    keys, so the record built from it never takes [stop_loss] or
    [take_profit] from the prior snapshot. *)
Theorem fetch_result_shape (ticket max_retries : Z) (s s' : State W) (data : TradeData) :
  get_closed_position_data ticket max_retries s = (Val (Some data), s') ->
  td_ticket data = ticket /\
  ((exists exit_deal entry_deal,
      built_from_deals ticket exit_deal entry_deal data /\
      is_exit_of ticket exit_deal = true /\
      (forall e, entry_deal = Some e -> is_entry_of ticket e = true)) \/
   (td_source data = "history_orders" /\ td_accuracy data = "95-100%" /\
    td_symbol data = None /\ td_volume data = None /\ td_entry_price data = None /\
    td_entry_time data = None /\ td_side data = None)) /\
  (exists sl tp,
     td_sl data = Some sl /\ td_tp data = Some tp /\
     forall user account snapshot,
       stop_loss (_calculate_risk_metrics
                    (make_trade_data user account ticket data snapshot)) = sl /\
       take_profit (_calculate_risk_metrics
                      (make_trade_data user account ticket data snapshot)) = tp).
Proof.
  intros Hget.
  destruct (get_closed_position_data_source _ _ _ _ _ Hget) as (s1 & s2 & [Hd|Ho]).
  - destruct (fetch_from_deals_built _ _ _ _ Hd)
      as (exit_deal & exit_time & entry & sl & tp & -> & Hxt & Hexit & Hentry).
    split; [reflexivity|]. split.
    + left. exists exit_deal, (option_map fst entry). split; [|split; [exact Hexit|]].
      * unfold built_from_deals, deals_data, side_of_deal; cbn.
        destruct entry as [[e t]|]; cbn; repeat split; try reflexivity; try exact Hxt.
        exists t. split; [apply (Hentry e t eq_refl) | reflexivity].
      * intros e He. destruct entry as [[e' t]|]; cbn in He; [|discriminate He].
        inversion He; subst. apply (Hentry e t eq_refl).
    + exists sl, tp. repeat split; reflexivity.
  - destruct (fetch_from_orders_some _ _ _ _ Ho)
      as (order & exit_time & profit & commission & swap & -> & Hticket & Hxt).
    split; [reflexivity|]. split.
    + right. repeat split; reflexivity.
    + eexists _, _. repeat split; reflexivity.
Qed.

(** X8.  A trade resolved through the orders fallback is reported from
    two places.  When the orders query returns, the first order of the
    ticket in its answer has a [time_done] that [datetime.fromtimestamp]
    accepts, and the deals query returns, the record takes its exit price
    and exit time from that order ([price_current], [time_done]), and its
    symbol, side, volume, entry price and entry time from the prior
    snapshot; it is tagged "history_orders" and "95-100%". *)
Theorem orders_record_from_snapshot (ticket : Z) (s : State W) (orders : list Order)
    (order : Order) (deals : option (list Deal)) (w1 w2 : W)
    (user : string) (account : option string) (snapshot : PositionSnapshot) :
  mt5_history_orders_get (now (st_world s) - td_minutes 30) (now (st_world s)) (st_world s)
    = (Returns (Some orders), w1) ->
  find (fun o => order_position_id o =? ticket) orders = Some order ->
  mt5_history_deals_get (now (st_world s) - td_minutes 30) (now w1) w1
    = (Returns deals, w2) ->
  timestamp_ok (order_time_done order) = true ->
  exists data,
    fst (_fetch_from_orders ticket s) = Val (Some data) /\
    let t := _calculate_risk_metrics (make_trade_data user account ticket data snapshot) in
    symbol t = snap_symbol snapshot /\
    side t = snap_type snapshot /\
    volume t = snap_volume snapshot /\
    entry_price t = snap_price_open snapshot /\
    entry_time t = isoformat (snap_time snapshot) /\
    exit_price t = order_price_current order /\
    exit_time t = isoformat (from_epoch (order_time_done order)) /\
    source t = "history_orders" /\ accuracy t = "95-100%".
Proof.
  intros Hq Hfind Hd Htime. unfold _fetch_from_orders. mrun. rewrite Hq. mrun.
  rewrite Hfind. mrun. rewrite Hd. mrun.
  destruct (sum_deals ticket (dict_get deals [])) as [[profit commission] swap].
  rewrite (fromtimestamp_ok _ Htime). mrun.
  eexists. split; [reflexivity|]. repeat split; reflexivity.
Qed.

(** ** Further properties of the worker side *)

Section View.

(** A view of the manager object that does not look at the fetcher's
    [last_warmup], and that nothing running while a callback is awaited
    changes. *)
Context {X : Type} (f : SmartQueueManager W -> X).
Hypothesis f_last_warmup :
  forall t (s : State W), f (st_self (snd (set_last_warmup t s))) = f (st_self s).
Hypothesis f_during_callback :
  forall t (m : SmartQueueManager W) w, f (fst (during_callback t m w)) = f m.

Lemma view_ret {A} (a : A) : keeps_view f (ret (W:=W) a).
Proof. intros s. reflexivity. Qed.

Lemma view_raise {A} : keeps_view f (raise (W:=W) (A:=A)).
Proof. intros s. reflexivity. Qed.

Lemma view_bind {A B} (m : M A) (k : A -> M B) :
  keeps_view f m -> (forall a, keeps_view f (k a)) -> keeps_view f (bind m k).
Proof.
  intros Hm Hk s. unfold bind. specialize (Hm s).
  destruct (m s) as [[|a] s1]; cbn [snd] in *; [exact Hm|].
  rewrite Hk. exact Hm.
Qed.

Lemma view_try_except {A} (body handler : M A) :
  keeps_view f body -> keeps_view f handler -> keeps_view f (try_except body handler).
Proof.
  intros Hb Hh s. unfold try_except. specialize (Hb s).
  destruct (body s) as [[|a] s1]; cbn [snd] in *; [|exact Hb].
  rewrite Hh. exact Hb.
Qed.

Lemma view_same_self {A} (m : M A) :
  (forall s, st_self (snd (m s)) = st_self s) -> keeps_view f m.
Proof. intros E s. rewrite E. reflexivity. Qed.

Lemma view_call {A} (op : W -> Resp A * W) : keeps_view f (call op).
Proof. intros s. unfold call. destruct (op (st_world s)) as [[|a] w]; reflexivity. Qed.

Lemma view_for_each {A} (l : list A) (body : A -> M unit) :
  (forall x, keeps_view f (body x)) -> keeps_view f (for_each l body).
Proof.
  intros Hb. induction l as [|x l IH]; cbn [for_each].
  - apply view_ret.
  - apply view_bind; [apply Hb | intros _; exact IH].
Qed.

Lemma view_datetime_fromtimestamp t : keeps_view f (datetime_fromtimestamp (W:=W) t).
Proof.
  unfold datetime_fromtimestamp.
  destruct (fromtimestamp t); [apply view_ret | apply view_raise].
Qed.

Lemma view_suspended t : keeps_view f (suspended (W:=W) t).
Proof. intros s. apply f_during_callback. Qed.

Ltac views_step :=
  first
    [ solve [auto with views_db nocore]
    | apply view_ret
    | apply view_raise
    | apply view_call
    | apply view_datetime_fromtimestamp
    | apply view_suspended
    | apply view_same_self; solve [intros; reflexivity]
    | apply view_bind; [|intros]
    | apply view_try_except
    | apply view_for_each; intros
    | progress cbv zeta
    | match goal with
      | |- keeps_view _ (match ?x with _ => _ end) => destruct x
      end ].

Ltac views := repeat views_step.

Lemma view_set_last_warmup t : keeps_view f (set_last_warmup (W:=W) t).
Proof. intros s. apply f_last_warmup. Qed.

Lemma view_time_sleep x : keeps_view f (time_sleep (W:=W) x).
Proof. unfold time_sleep. views. Qed.

Lemma view_history_deals_get a b : keeps_view f (history_deals_get (W:=W) a b).
Proof. unfold history_deals_get. views. Qed.

Lemma view_history_orders_get a b : keeps_view f (history_orders_get (W:=W) a b).
Proof. unfold history_orders_get. views. Qed.

#[local] Hint Resolve view_set_last_warmup view_time_sleep view_history_deals_get
  view_history_orders_get : views_db.

Lemma view_warm_history_cache : keeps_view f (warm_history_cache (W:=W)).
Proof. unfold warm_history_cache. views. Qed.

Lemma view_get_sl_tp ticket : keeps_view f (_get_sl_tp_from_orders (W:=W) ticket).
Proof. unfold _get_sl_tp_from_orders. views. Qed.

#[local] Hint Resolve view_warm_history_cache view_get_sl_tp : views_db.

Lemma view_fetch_from_deals ticket : keeps_view f (_fetch_from_deals (W:=W) ticket).
Proof. unfold _fetch_from_deals. views. Qed.

Lemma view_fetch_from_orders ticket : keeps_view f (_fetch_from_orders (W:=W) ticket).
Proof. unfold _fetch_from_orders. views. Qed.

#[local] Hint Resolve view_fetch_from_deals view_fetch_from_orders : views_db.

Lemma view_attempts ticket max_retries todo :
  keeps_view f (attempts (W:=W) ticket max_retries todo).
Proof. induction todo as [|attempt todo IH]; cbn [attempts]; views. Qed.

Lemma view_handle_closed_position user account ticket snapshot
    (on_trade_closed : option (Callback W)) :
  keeps_view f (_handle_closed_position user account ticket snapshot on_trade_closed).
Proof.
  unfold _handle_closed_position, get_closed_position_data, await_callback.
  apply view_bind; [apply view_attempts | intros data]. views.
Qed.

Lemma view_handle_closed_tickets (request : Request W) previous tickets :
  keeps_view f (handle_closed_tickets request previous tickets).
Proof.
  unfold handle_closed_tickets. apply view_for_each. intros ticket.
  destruct (od_get ticket previous); [apply view_handle_closed_position | apply view_raise].
Qed.

Lemma view_snapshot_positions raw d : keeps_view f (snapshot_positions (W:=W) raw d).
Proof.
  revert d. induction raw as [|pos raw IH]; intros d; cbn [snapshot_positions].
  - apply view_ret.
  - unfold PositionSnapshot_init. views.
Qed.

(** A poll for a user keeps everything the view shows, provided the view
    does not look at that user's snapshot map and cache entry. *)
Lemma view_process_request (request : Request W) :
  (forall d (s : State W),
     f (st_self (snd (set_position_snapshots (req_user_id request) d s))) = f (st_self s)) ->
  (forall e (s : State W),
     f (st_self (snd (set_cache (req_user_id request) e s))) = f (st_self s)) ->
  keeps_view f (_process_request request).
Proof.
  intros Hsnap Hcache.
  assert (Ks : forall d, keeps_view f (set_position_snapshots (req_user_id request) d))
    by (intros d s; apply Hsnap).
  assert (Kc : forall e, keeps_view f (set_cache (req_user_id request) e))
    by (intros e s; apply Hcache).
  unfold _process_request, initialize, login, last_error, positions_get, shutdown.
  cbv zeta.
  apply view_try_except; [|views].
  apply view_bind; [views|]. intros ok. destruct (negb ok); [views|].
  apply view_bind; [views|]. intros ok2. destruct (negb ok2); [views|].
  apply view_bind; [views|]. intros raw.
  apply view_bind; [apply view_snapshot_positions|]. intros current.
  apply view_bind; [views|]. intros self.
  apply view_bind.
  { apply view_for_each. intros ticket.
    destruct (od_get ticket _); [apply view_handle_closed_position | apply view_raise]. }
  intros _. apply view_bind; [apply Ks|]. intros _.
  apply view_bind; [views|]. intros timestamp.
  apply view_bind; [apply Kc|]. intros _. views.
Qed.

End View.

(** The handler never raises, delivers exactly one record when the fetch
    succeeded and a callback was given, and none otherwise. *)
Lemma handle_closed_position_steps user account ticket snapshot
    (on_trade_closed : option (Callback W)) (s : State W) :
  exists r s1 s',
    get_closed_position_data ticket 3 s = (Val r, s1) /\
    _handle_closed_position user account ticket snapshot on_trade_closed s = (Val tt, s') /\
    match r, on_trade_closed with
    | Some data, Some callback =>
        let t := _calculate_risk_metrics
                   (make_trade_data user account ticket data snapshot) in
        st_log s' = st_log s1 ++ [EvCallback t] /\
        st_self s' = fst (during_callback t (st_self s1) (st_world s1)) /\
        st_world s' = snd (callback t (snd (during_callback t (st_self s1) (st_world s1))))
    | _, _ => s' = s1
    end.
Proof.
  unfold _handle_closed_position.
  destruct (attempts_spec ticket 3 (Z.to_nat (3 + 1 - 1)) 1 s) as (r & s1 & E & _);
    [lia | reflexivity |].
  fold (get_closed_position_data (W:=W) ticket 3) in E.
  exists r, s1. unfold bind at 1. rewrite E.
  destruct r as [data|].
  - destruct on_trade_closed as [callback|].
    + unfold await_callback, suspended. mrun.
      destruct (callback _ _) as [[|[]] w];
        eexists; repeat split; reflexivity.
    + exists s1. repeat split; reflexivity.
  - exists s1. destruct on_trade_closed; repeat split; reflexivity.
Qed.

(** X9.  Handling a closed position never raises, not even when the
    callback does.  When the fetch produced data and a callback was
    supplied it invokes the callback exactly once, after the fetch; the
    manager object is then what the awaited callback and the other tasks
    of the loop made of it, and the world what the callback left.
    Otherwise it invokes nothing and leaves the state as the fetch left
    it. *)
Theorem handle_closed_position_delivery (user : string) (account : option string)
    (ticket : Z) (snapshot : PositionSnapshot) (on_trade_closed : option (Callback W))
    (s : State W) :
  exists r s1 s',
    get_closed_position_data ticket 3 s = (Val r, s1) /\
    _handle_closed_position user account ticket snapshot on_trade_closed s = (Val tt, s') /\
    match r, on_trade_closed with
    | Some data, Some callback =>
        let t := _calculate_risk_metrics
                   (make_trade_data user account ticket data snapshot) in
        st_log s' = st_log s1 ++ [EvCallback t] /\
        st_self s' = fst (during_callback t (st_self s1) (st_world s1)) /\
        st_world s' = snd (callback t (snd (during_callback t (st_self s1) (st_world s1))))
    | _, _ => s' = s1
    end.
Proof. apply handle_closed_position_steps. Qed.

(** *** Snapshot dicts *)

Lemma ticket_in_In k l : ticket_in k l = true <-> In k l.
Proof.
  unfold ticket_in. rewrite existsb_exists. split.
  - intros (x & Hin & Heq). apply Z.eqb_eq in Heq. subst. exact Hin.
  - intros Hin. exists k. split; [exact Hin | apply Z.eqb_refl].
Qed.

Lemma od_keys_set {V} (k : Z) (v : V) (d : list (Z * V)) :
  od_keys (od_set k v d) =
  if ticket_in k (od_keys d) then od_keys d else od_keys d ++ [k].
Proof.
  induction d as [|[k0 v0] d IH]; [reflexivity|].
  cbn [od_set]. destruct (k0 =? k) eqn:E.
  - apply Z.eqb_eq in E. subst k0. unfold ticket_in. cbn. rewrite Z.eqb_refl. reflexivity.
  - unfold od_keys, ticket_in in *. cbn [map fst existsb] in *. rewrite IH.
    rewrite (Z.eqb_sym k k0), E. cbn [orb].
    destruct (existsb (Z.eqb k) (map fst d)); reflexivity.
Qed.

Lemma od_get_set_eq {V} (k : Z) (v : V) (d : list (Z * V)) :
  od_get k (od_set k v d) = Some v.
Proof.
  induction d as [|[k0 v0] d IH]; cbn [od_set od_get].
  - rewrite Z.eqb_refl. reflexivity.
  - destruct (k0 =? k) eqn:E; cbn [od_get].
    + rewrite Z.eqb_refl. reflexivity.
    + rewrite E. exact IH.
Qed.

Lemma od_get_set_ne {V} (k k' : Z) (v : V) (d : list (Z * V)) :
  k' <> k -> od_get k' (od_set k v d) = od_get k' d.
Proof.
  intros Hne. induction d as [|[k0 v0] d IH]; cbn [od_set od_get].
  - destruct (k =? k') eqn:E; [apply Z.eqb_eq in E; congruence | reflexivity].
  - destruct (k0 =? k) eqn:E; cbn [od_get].
    + apply Z.eqb_eq in E. subst k0.
      destruct (k =? k') eqn:E'; [apply Z.eqb_eq in E'; congruence | reflexivity].
    + destruct (k0 =? k'); [reflexivity | exact IH].
Qed.

Lemma NoDup_snoc {A} (l : list A) (x : A) :
  List.NoDup l -> ~ In x l -> List.NoDup (l ++ [x]).
Proof.
  induction 1 as [|y l Hy Hl IH]; intros Hx; cbn.
  - constructor; [tauto | constructor].
  - constructor.
    + rewrite in_app_iff. cbn. intros [Hin|[->|[]]]; [tauto|]. apply Hx. left. reflexivity.
    + apply IH. intros Hin. apply Hx. right. exact Hin.
Qed.

Lemma od_set_NoDup {V} (k : Z) (v : V) (d : list (Z * V)) :
  List.NoDup (od_keys d) -> List.NoDup (od_keys (od_set k v d)).
Proof.
  intros Hnd. rewrite od_keys_set.
  destruct (ticket_in k (od_keys d)) eqn:E; [exact Hnd|].
  apply NoDup_snoc; [exact Hnd|].
  intros Hin. apply ticket_in_In in Hin. congruence.
Qed.

Lemma od_set_keys_In {V} (k k' : Z) (v : V) (d : list (Z * V)) :
  In k' (od_keys (od_set k v d)) <-> In k' (od_keys d) \/ k' = k.
Proof.
  rewrite od_keys_set. destruct (ticket_in k (od_keys d)) eqn:E.
  - apply ticket_in_In in E. split; [tauto|]. intros [Hin| ->]; assumption.
  - rewrite in_app_iff. cbn. intuition congruence.
Qed.

Lemma od_set_keyed (k : Z) (v : PositionSnapshot) (d : SnapshotDict) :
  snap_ticket v = k -> keyed_by_ticket d -> keyed_by_ticket (od_set k v d).
Proof.
  intros Hv. unfold keyed_by_ticket.
  induction 1 as [|[k0 v0] d H0 Hd IH]; cbn [od_set].
  - repeat constructor. exact Hv.
  - destruct (k0 =? k); constructor; solve [assumption | exact Hv].
Qed.

Lemma keyed_tickets (d : SnapshotDict) :
  keyed_by_ticket d -> map fp_ticket (map format_position (od_values d)) = od_keys d.
Proof.
  unfold keyed_by_ticket, od_values, od_keys.
  induction 1 as [|[k v] d Hk Hd IH]; [reflexivity|].
  cbn [map fst snd] in *. rewrite IH. cbn [format_position fp_ticket]. rewrite Hk.
  reflexivity.
Qed.

(** Snapshotting leaves the state as it is, whether it completes or a
    conversion raises. *)
Lemma snapshot_positions_state raw :
  forall d (s : State W), exists r, snapshot_positions raw d s = (r, s).
Proof.
  induction raw as [|pos raw IH]; intros d s; cbn [snapshot_positions].
  - eexists. reflexivity.
  - unfold PositionSnapshot_init. mrun.
    destruct (fromtimestamp (pos_time pos)); [mrun; apply IH|].
    unfold raise. mrun. eexists. reflexivity.
Qed.

(** What the snapshotting loop builds from positions whose times
    convert. *)
Lemma snapshot_positions_spec raw :
  times_ok raw ->
  forall d (s : State W),
    exists d',
      snapshot_positions raw d s = (Val d', s) /\
      (List.NoDup (od_keys d) -> List.NoDup (od_keys d')) /\
      (forall k, In k (od_keys d') <-> In k (od_keys d) \/ In k (map pos_ticket raw)) /\
      (keyed_by_ticket d -> keyed_by_ticket d') /\
      (forall k snapshot,
         od_get k d' = Some snapshot ->
         od_get k d = Some snapshot \/
         exists pos, In pos raw /\ pos_ticket pos = k /\ snapshot_of pos snapshot).
Proof.
  induction 1 as [|pos raw Hpos Hraw IH]; intros d s; cbn [snapshot_positions].
  - exists d. split; [reflexivity|]. split; [auto|]. split; [cbn; tauto|].
    split; [auto|]. intros k snapshot Hget. left. exact Hget.
  - unfold PositionSnapshot_init. mrun. rewrite (fromtimestamp_ok _ Hpos). mrun.
    match goal with
    | |- context [snapshot_positions raw (od_set _ ?sn d) s] =>
        set (snap := sn);
        destruct (IH (od_set (pos_ticket pos) snap d) s)
          as (d' & E & Hnd & Hkeys & Hkeyed & Hget)
    end.
    assert (Hsnap : snapshot_of pos snap)
      by (repeat split; try reflexivity; apply fromtimestamp_ok, Hpos).
    exists d'. split; [exact E|]. split; [|split; [|split]].
    + intros H0. apply Hnd, od_set_NoDup, H0.
    + intros k. rewrite Hkeys, od_set_keys_In. cbn [map In]. intuition congruence.
    + intros H0. apply Hkeyed, od_set_keyed; [reflexivity | exact H0].
    + intros k snapshot Hk. destruct (Hget k snapshot Hk) as [Hset|(p & Hin & Hp & Hs)].
      * destruct (Z.eq_dec k (pos_ticket pos)) as [->|Hne].
        -- rewrite od_get_set_eq in Hset. inversion Hset; subst.
           right. exists pos. split; [left; reflexivity|]. split; [reflexivity | exact Hsnap].
        -- rewrite od_get_set_ne in Hset by exact Hne. left. exact Hset.
      * right. exists p. split; [right; exact Hin|]. split; assumption.
Qed.

(** *** A poll that reaches the positions *)

(** The closed tickets are handled without raising. *)
Lemma handle_closed_tickets_returns (request : Request W) previous current_tickets
    (s : State W) :
  exists s',
    handle_closed_tickets request previous (closed_tickets_of previous current_tickets) s
      = (Val tt, s').
Proof.
  apply handle_all_closed. intros t. apply closed_tickets_tracked.
Qed.

(** The whole of a poll whose initialization, login and [positions_get]
    return and whose snapshotting completes: the closed tickets are
    handled, then the snapshot dict and the cache entry are written and
    the session is shut down. *)
Lemma process_request_polled (request : Request W) (s : State W) (w1 w2 w3 : W)
    (raw : option (list Position)) (d : SnapshotDict) :
  mt5_initialize (st_world s) = (Returns true, w1) ->
  mt5_login (req_login request) (req_password request) (req_server request) w1
    = (Returns true, w2) ->
  mt5_positions_get w2 = (Returns raw, w3) ->
  snapshot_positions (dict_get raw []) [] (polled_state request w3 s)
    = (Val d, polled_state request w3 s) ->
  exists s_h,
    handle_closed_tickets request
      (dict_get (position_snapshots (st_self s) !! req_user_id request) [])
      (closed_tickets_of
         (dict_get (position_snapshots (st_self s) !! req_user_id request) [])
         (map pos_ticket (dict_get raw [])))
      (polled_state request w3 s) = (Val tt, s_h) /\
    _process_request request s
      = (Val tt,
         {| st_world := mt5_shutdown (st_world s_h);
            st_log := st_log s_h ++ [EvShutdown];
            st_self := installed (req_user_id request) d (now (st_world s_h))
                         (st_self s_h) |}).
Proof.
  intros Hi Hl Hp E.
  destruct (handle_closed_tickets_returns request
              (dict_get (position_snapshots (st_self s) !! req_user_id request) [])
              (map pos_ticket (dict_get raw [])) (polled_state request w3 s))
    as (s_h & Eh).
  exists s_h. split; [exact Eh|].
  unfold _process_request. mrun. rewrite Hi. mrun. rewrite Hl. mrun. rewrite Hp. mrun.
  rewrite <- !app_assoc. cbn [app].
  change {| st_world := w3;
            st_log := st_log s ++ [EvInitialize;
                                   EvLogin (req_login request) (req_server request);
                                   EvPositionsGet];
            st_self := st_self s |} with (polled_state request w3 s).
  rewrite E. mrun.
  change (st_self (polled_state request w3 s)) with (st_self s).
  unfold handle_closed_tickets in Eh. rewrite Eh. mrun. reflexivity.
Qed.

(** The whole of a poll whose snapshotting raises: the session is shut
    down by the handler, and nothing else happens. *)
Lemma process_request_unconverted (request : Request W) (s : State W) (w1 w2 w3 : W)
    (raw : option (list Position)) :
  mt5_initialize (st_world s) = (Returns true, w1) ->
  mt5_login (req_login request) (req_password request) (req_server request) w1
    = (Returns true, w2) ->
  mt5_positions_get w2 = (Returns raw, w3) ->
  snapshot_positions (dict_get raw []) [] (polled_state request w3 s)
    = (Exc, polled_state request w3 s) ->
  _process_request request s
    = (Val tt,
       {| st_world := mt5_shutdown w3;
          st_log := st_log s ++ [EvInitialize;
                                 EvLogin (req_login request) (req_server request);
                                 EvPositionsGet; EvShutdown];
          st_self := st_self s |}).
Proof.
  intros Hi Hl Hp E.
  unfold _process_request. mrun. rewrite Hi. mrun. rewrite Hl. mrun. rewrite Hp. mrun.
  rewrite <- !app_assoc. cbn [app].
  change {| st_world := w3;
            st_log := st_log s ++ [EvInitialize;
                                   EvLogin (req_login request) (req_server request);
                                   EvPositionsGet];
            st_self := st_self s |} with (polled_state request w3 s).
  rewrite E. mrun. cbn [polled_state st_world st_log st_self].
  rewrite <- !app_assoc. reflexivity.
Qed.

Lemma process_request_returns (request : Request W) (s : State W) :
  fst (_process_request request s) = Val tt.
Proof.
  unfold _process_request. cbv zeta. unfold try_except.
  match goal with
  | |- context [match ?body s with _ => _ end] => destruct (body s) as [[|[]] s1]
  end.
  - unfold shutdown. mrun. reflexivity.
  - reflexivity.
Qed.

(** X10.  As long as [mt5.shutdown()] itself returns (which the terminal
    interface takes for granted), processing a request never raises:
    whatever else the terminal, a time conversion or a callback does, the
    error is absorbed inside. *)
Theorem process_request_never_raises (request : Request W) (s : State W) :
  fst (_process_request request s) = Val tt.
Proof. apply process_request_returns. Qed.

(** X11.  Once initialization and login have succeeded, the request ends
    by shutting the session down, whether [positions_get] returns or
    raises and whatever the handling of the closed tickets does:
    [shutdown] is the last thing it asks of the terminal. *)
Theorem process_request_closes_session (request : Request W) (s : State W) (w1 w2 : W) :
  mt5_initialize (st_world s) = (Returns true, w1) ->
  mt5_login (req_login request) (req_password request) (req_server request) w1
    = (Returns true, w2) ->
  last (st_log (snd (_process_request request s))) = Some EvShutdown.
Proof.
  intros Hi Hl.
  destruct (mt5_positions_get w2) as [[|raw] w3] eqn:Hp.
  - unfold _process_request. mrun. rewrite Hi. mrun. rewrite Hl. mrun. rewrite Hp. mrun.
    apply last_snoc.
  - destruct (snapshot_positions_state (dict_get raw []) [] (polled_state request w3 s))
      as ([|d] & E).
    + rewrite (process_request_unconverted request s w1 w2 w3 raw Hi Hl Hp E).
      cbn [snd st_log].
      change [EvInitialize; EvLogin (req_login request) (req_server request);
              EvPositionsGet; EvShutdown]
        with ([EvInitialize; EvLogin (req_login request) (req_server request);
               EvPositionsGet] ++ [EvShutdown]).
      rewrite app_assoc. apply last_snoc.
    + destruct (process_request_polled request s w1 w2 w3 raw d Hi Hl Hp E)
        as (s_h & _ & Ereq).
      rewrite Ereq. cbn [snd st_log]. apply last_snoc.
Qed.

(** X12.  A refused login ends the request with the session still
    initialized: the error is read with [last_error] and the request
    returns without calling [shutdown] and without touching the manager. *)
Theorem process_request_login_refused (request : Request W) (s : State W) (w1 w2 w3 : W)
    (err : Z * string) :
  mt5_initialize (st_world s) = (Returns true, w1) ->
  mt5_login (req_login request) (req_password request) (req_server request) w1
    = (Returns false, w2) ->
  mt5_last_error w2 = (Returns err, w3) ->
  _process_request request s
    = (Val tt,
       {| st_world := w3;
          st_log := st_log s ++ [EvInitialize;
                                 EvLogin (req_login request) (req_server request);
                                 EvLastError];
          st_self := st_self s |}).
Proof.
  intros Hi Hl He.
  unfold _process_request. mrun. rewrite Hi. mrun. rewrite Hl. mrun. rewrite He. mrun.
  rewrite <- !app_assoc. reflexivity.
Qed.

(** X13.  The code of a poll writes nothing that belongs to anyone but
    its user.  Provided what runs while a callback is awaited (the
    callback, the other tasks) leaves them alone, the request queue, the
    cache TTL, the warm-up interval and the worker flag are after the
    poll as before it, and so are the cache entry and the snapshot map of
    every other user.  This holds on every path, failures included. *)
Theorem process_request_frame (request : Request W) (s : State W) :
  (forall t (m : SmartQueueManager W) w,
     others_view (req_user_id request) (fst (during_callback t m w))
       = others_view (req_user_id request) m) ->
  request_queue (st_self (snd (_process_request request s))) = request_queue (st_self s) /\
  cache_duration (st_self (snd (_process_request request s))) = cache_duration (st_self s) /\
  warmup_interval (history_fetcher (st_self (snd (_process_request request s))))
    = warmup_interval (history_fetcher (st_self s)) /\
  worker_running (st_self (snd (_process_request request s))) = worker_running (st_self s) /\
  forall u, u <> req_user_id request ->
    cache (st_self (snd (_process_request request s))) !! u = cache (st_self s) !! u /\
    position_snapshots (st_self (snd (_process_request request s))) !! u
      = position_snapshots (st_self s) !! u.
Proof.
  intros Hloop.
  assert (Hv : others_view (req_user_id request) (st_self (snd (_process_request request s)))
               = others_view (req_user_id request) (st_self s)).
  { apply (view_process_request (others_view (req_user_id request))).
    - intros t s0. reflexivity.
    - exact Hloop.
    - intros d s0. unfold others_view, set_position_snapshots. mrun.
      cbn [request_queue cache position_snapshots cache_duration history_fetcher
           worker_running].
      rewrite delete_insert_eq. reflexivity.
    - intros e s0. unfold others_view, set_cache. mrun.
      cbn [request_queue cache position_snapshots cache_duration history_fetcher
           worker_running].
      rewrite delete_insert_eq. reflexivity. }
  unfold others_view in Hv. inversion Hv as [[Hq Hc Hs Hd Hw Hr]].
  repeat split; try assumption.
  - rewrite <- (lookup_delete_ne _ (req_user_id request) u) by congruence.
    rewrite Hc. apply lookup_delete_ne. congruence.
  - rewrite <- (lookup_delete_ne _ (req_user_id request) u) by congruence.
    rewrite Hs. apply lookup_delete_ne. congruence.
Qed.

(** What a poll that reaches the end installs for its user. *)
Lemma polled_request_refreshes (request : Request W) (s : State W) (w1 w2 w3 : W)
    (raw : option (list Position)) :
  mt5_initialize (st_world s) = (Returns true, w1) ->
  mt5_login (req_login request) (req_password request) (req_server request) w1
    = (Returns true, w2) ->
  mt5_positions_get w2 = (Returns raw, w3) ->
  times_ok (dict_get raw []) ->
  exists d s_h,
    handle_closed_tickets request
      (dict_get (position_snapshots (st_self s) !! req_user_id request) [])
      (closed_tickets_of
         (dict_get (position_snapshots (st_self s) !! req_user_id request) [])
         (map pos_ticket (dict_get raw [])))
      (polled_state request w3 s) = (Val tt, s_h) /\
    position_snapshots (st_self (snd (_process_request request s))) !! req_user_id request
      = Some d /\
    cache (st_self (snd (_process_request request s))) !! req_user_id request
      = Some {| ce_positions := map format_position (od_values d);
                ce_timestamp := now (st_world s_h) |} /\
    st_world (snd (_process_request request s)) = mt5_shutdown (st_world s_h) /\
    List.NoDup (od_keys d) /\
    (forall k, In k (od_keys d) <-> In k (map pos_ticket (dict_get raw []))) /\
    map fp_ticket (map format_position (od_values d)) = od_keys d /\
    (forall k snapshot,
       od_get k d = Some snapshot ->
       exists pos, In pos (dict_get raw []) /\ pos_ticket pos = k /\ snapshot_of pos snapshot).
Proof.
  intros Hi Hl Hp Hraw.
  destruct (snapshot_positions_spec (dict_get raw []) Hraw [] (polled_state request w3 s))
    as (d & E & Hnd & Hkeys & Hkeyed & Hget).
  destruct (process_request_polled request s w1 w2 w3 raw d Hi Hl Hp E)
    as (s_h & Eh & Ereq).
  exists d, s_h. split; [exact Eh|].
  rewrite Ereq. cbn [snd st_self st_world installed position_snapshots cache].
  split; [apply lookup_insert_eq|]. split; [apply lookup_insert_eq|].
  split; [reflexivity|]. split; [apply Hnd; constructor|]. split.
  - intros k. rewrite Hkeys. cbn. tauto.
  - split; [apply keyed_tickets, Hkeyed; constructor|].
    intros k snapshot Hk. destruct (Hget k snapshot Hk) as [Hempty|Hpos];
      [discriminate Hempty | exact Hpos].
Qed.

(** X14.  A poll whose initialization, login and [positions_get] return,
    with positions whose opening times [datetime.fromtimestamp] accepts,
    installs, for its user, a snapshot map with exactly the tickets of
    the positions returned, each once, each entry a snapshot of a
    returned position with that ticket; and a cache entry that lists
    these snapshots formatted, ticket for ticket in the same order,
    stamped with the clock reading taken once the closed tickets are
    handled, just before the shutdown. *)
Theorem process_request_refreshes (request : Request W) (s : State W) (w1 w2 w3 : W)
    (raw : option (list Position)) :
  mt5_initialize (st_world s) = (Returns true, w1) ->
  mt5_login (req_login request) (req_password request) (req_server request) w1
    = (Returns true, w2) ->
  mt5_positions_get w2 = (Returns raw, w3) ->
  times_ok (dict_get raw []) ->
  exists d s_h,
    handle_closed_tickets request
      (dict_get (position_snapshots (st_self s) !! req_user_id request) [])
      (closed_tickets_of
         (dict_get (position_snapshots (st_self s) !! req_user_id request) [])
         (map pos_ticket (dict_get raw [])))
      (polled_state request w3 s) = (Val tt, s_h) /\
    position_snapshots (st_self (snd (_process_request request s))) !! req_user_id request
      = Some d /\
    cache (st_self (snd (_process_request request s))) !! req_user_id request
      = Some {| ce_positions := map format_position (od_values d);
                ce_timestamp := now (st_world s_h) |} /\
    st_world (snd (_process_request request s)) = mt5_shutdown (st_world s_h) /\
    List.NoDup (od_keys d) /\
    (forall k, In k (od_keys d) <-> In k (map pos_ticket (dict_get raw []))) /\
    map fp_ticket (map format_position (od_values d)) = od_keys d /\
    (forall k snapshot,
       od_get k d = Some snapshot ->
       exists pos, In pos (dict_get raw []) /\ pos_ticket pos = k /\ snapshot_of pos snapshot).
Proof. exact (polled_request_refreshes request s w1 w2 w3 raw). Qed.

Lemma closed_tickets_none (previous_snapshots : SnapshotDict) (current_tickets : list Z) :
  (forall k, In k (od_keys previous_snapshots) -> In k current_tickets) ->
  closed_tickets_of previous_snapshots current_tickets = [].
Proof.
  intros Hopen. unfold closed_tickets_of.
  destruct (set_difference (od_keys previous_snapshots) current_tickets)
    as [|k l] eqn:E; [reflexivity|].
  assert (Hin : In k (set_difference (od_keys previous_snapshots) current_tickets))
    by (rewrite E; left; reflexivity).
  apply set_difference_In in Hin. destruct Hin as [Hk Hout].
  exfalso. exact (Hout (Hopen k Hk)).
Qed.

(** The state a poll ends in when every tracked ticket is still open and
    the snapshotting completes. *)
Lemma process_request_quiet (request : Request W) (s : State W) (w1 w2 w3 : W)
    (raw : option (list Position)) :
  mt5_initialize (st_world s) = (Returns true, w1) ->
  mt5_login (req_login request) (req_password request) (req_server request) w1
    = (Returns true, w2) ->
  mt5_positions_get w2 = (Returns raw, w3) ->
  times_ok (dict_get raw []) ->
  (forall k,
     In k (od_keys (dict_get (position_snapshots (st_self s) !! req_user_id request) [])) ->
     In k (map pos_ticket (dict_get raw []))) ->
  exists d,
    List.NoDup (od_keys d) /\
    (forall k, In k (od_keys d) <-> In k (map pos_ticket (dict_get raw []))) /\
    map fp_ticket (map format_position (od_values d)) = od_keys d /\
    _process_request request s
      = (Val tt,
         {| st_world := mt5_shutdown w3;
            st_log := st_log s ++ [EvInitialize;
                                   EvLogin (req_login request) (req_server request);
                                   EvPositionsGet; EvShutdown];
            st_self := installed (req_user_id request) d (now w3) (st_self s) |}).
Proof.
  intros Hi Hl Hp Hraw Hopen.
  destruct (snapshot_positions_spec (dict_get raw []) Hraw [] (polled_state request w3 s))
    as (d & E & Hnd & Hkeys & Hkeyed & _).
  destruct (process_request_polled request s w1 w2 w3 raw d Hi Hl Hp E)
    as (s_h & Eh & Ereq).
  rewrite (closed_tickets_none _ _ Hopen) in Eh.
  unfold handle_closed_tickets in Eh. cbn [for_each] in Eh.
  unfold ret in Eh. inversion Eh; subst s_h.
  exists d. split; [apply Hnd; constructor|]. split.
  - intros k. rewrite Hkeys. cbn. tauto.
  - split; [apply keyed_tickets, Hkeyed; constructor|].
    rewrite Ereq. cbn [st_log st_world st_self polled_state].
    rewrite <- app_assoc. reflexivity.
Qed.

(** A poll that finds every tracked ticket still open. *)
Lemma polled_request_nothing_closed (request : Request W) (s : State W) (w1 w2 w3 : W)
    (raw : option (list Position)) :
  mt5_initialize (st_world s) = (Returns true, w1) ->
  mt5_login (req_login request) (req_password request) (req_server request) w1
    = (Returns true, w2) ->
  mt5_positions_get w2 = (Returns raw, w3) ->
  (forall k,
     In k (od_keys (dict_get (position_snapshots (st_self s) !! req_user_id request) [])) ->
     In k (map pos_ticket (dict_get raw []))) ->
  st_log (snd (_process_request request s))
    = st_log s ++ [EvInitialize; EvLogin (req_login request) (req_server request);
                   EvPositionsGet; EvShutdown] /\
  st_world (snd (_process_request request s)) = mt5_shutdown w3 /\
  history_fetcher (st_self (snd (_process_request request s)))
    = history_fetcher (st_self s).
Proof.
  intros Hi Hl Hp Hopen.
  destruct (snapshot_positions_state (dict_get raw []) [] (polled_state request w3 s))
    as ([|d] & E).
  - rewrite (process_request_unconverted request s w1 w2 w3 raw Hi Hl Hp E).
    repeat split; reflexivity.
  - destruct (process_request_polled request s w1 w2 w3 raw d Hi Hl Hp E)
      as (s_h & Eh & Ereq).
    rewrite (closed_tickets_none _ _ Hopen) in Eh.
    unfold handle_closed_tickets in Eh. cbn [for_each] in Eh.
    unfold ret in Eh. inversion Eh; subst s_h.
    rewrite Ereq. cbn [snd st_log st_world st_self polled_state installed history_fetcher].
    split; [rewrite <- app_assoc; reflexivity|]. split; reflexivity.
Qed.

(** X15.  When every ticket tracked for the user is still open, the poll
    asks the terminal for nothing but initialization, login, the
    positions and the shutdown: no history query, no sleep, no callback;
    and the fetcher keeps its warm-up record. *)
Theorem process_request_nothing_closed (request : Request W) (s : State W) (w1 w2 w3 : W)
    (raw : option (list Position)) :
  mt5_initialize (st_world s) = (Returns true, w1) ->
  mt5_login (req_login request) (req_password request) (req_server request) w1
    = (Returns true, w2) ->
  mt5_positions_get w2 = (Returns raw, w3) ->
  (forall k,
     In k (od_keys (dict_get (position_snapshots (st_self s) !! req_user_id request) [])) ->
     In k (map pos_ticket (dict_get raw []))) ->
  st_log (snd (_process_request request s))
    = st_log s ++ [EvInitialize; EvLogin (req_login request) (req_server request);
                   EvPositionsGet; EvShutdown] /\
  st_world (snd (_process_request request s)) = mt5_shutdown w3 /\
  history_fetcher (st_self (snd (_process_request request s)))
    = history_fetcher (st_self s).
Proof. exact (polled_request_nothing_closed request s w1 w2 w3 raw). Qed.

(** Snapshotting raises as soon as one position has a time that does not
    convert. *)
Lemma snapshot_positions_raises raw :
  List.Exists (fun pos => timestamp_ok (pos_time pos) = false) raw ->
  forall d (s : State W), snapshot_positions raw d s = (Exc, s).
Proof.
  induction raw as [|pos raw IH]; intros Hbad d s; [inversion Hbad|].
  cbn [snapshot_positions]. unfold PositionSnapshot_init. mrun.
  destruct (timestamp_ok (pos_time pos)) eqn:Hpos.
  - rewrite (fromtimestamp_ok _ Hpos). mrun. apply IH.
    inversion Hbad as [? ? Hhead|? ? Htail]; [congruence | exact Htail].
  - rewrite (fromtimestamp_bad _ Hpos). reflexivity.
Qed.

(** X25.  One position whose opening time [datetime.fromtimestamp]
    rejects aborts the whole poll: the snapshotting raises, so no closed
    ticket is handled, neither the snapshot map nor the cache of the user
    is written, and the handler shuts the session down.  The manager
    object is as before the poll. *)
Theorem process_request_time_out_of_range (request : Request W) (s : State W)
    (w1 w2 w3 : W) (raw : list Position) :
  mt5_initialize (st_world s) = (Returns true, w1) ->
  mt5_login (req_login request) (req_password request) (req_server request) w1
    = (Returns true, w2) ->
  mt5_positions_get w2 = (Returns (Some raw), w3) ->
  List.Exists (fun pos => timestamp_ok (pos_time pos) = false) raw ->
  _process_request request s
    = (Val tt,
       {| st_world := mt5_shutdown w3;
          st_log := st_log s ++ [EvInitialize;
                                 EvLogin (req_login request) (req_server request);
                                 EvPositionsGet; EvShutdown];
          st_self := st_self s |}).
Proof.
  intros Hi Hl Hp Hbad.
  apply (process_request_unconverted request s w1 w2 w3 (Some raw) Hi Hl Hp).
  apply snapshot_positions_raises, Hbad.
Qed.

(** X22.  A ticket is handled as closed in one poll only: when a poll of
    a user has completed (its positions had opening times that
    [datetime.fromtimestamp] accepts, so it reached the snapshot update)
    and the next poll of the same user finds at least the tickets the
    first one found, the second poll asks the terminal for
    initialization, login, the positions and the shutdown and nothing
    else.  It makes no history query and no delivery, whatever tickets
    the first poll had found closed and whether or not their data could
    be fetched. *)
Theorem repeat_poll_is_quiet (request request' : Request W) (s : State W)
    (w1 w2 w3 w1' w2' w3' : W) (raw raw' : option (list Position)) :
  req_user_id request' = req_user_id request ->
  mt5_initialize (st_world s) = (Returns true, w1) ->
  mt5_login (req_login request) (req_password request) (req_server request) w1
    = (Returns true, w2) ->
  mt5_positions_get w2 = (Returns raw, w3) ->
  times_ok (dict_get raw []) ->
  mt5_initialize (st_world (snd (_process_request request s))) = (Returns true, w1') ->
  mt5_login (req_login request') (req_password request') (req_server request') w1'
    = (Returns true, w2') ->
  mt5_positions_get w2' = (Returns raw', w3') ->
  (forall k, In k (map pos_ticket (dict_get raw [])) ->
             In k (map pos_ticket (dict_get raw' []))) ->
  st_log (snd (_process_request request' (snd (_process_request request s))))
    = st_log (snd (_process_request request s))
      ++ [EvInitialize; EvLogin (req_login request') (req_server request');
          EvPositionsGet; EvShutdown].
Proof.
  intros Huser Hi Hl Hp Hraw Hi' Hl' Hp' Hsame.
  destruct (polled_request_refreshes request s w1 w2 w3 raw Hi Hl Hp Hraw)
    as (d & s_h & _ & Hsnap & _ & _ & _ & Hkeys & _).
  apply (polled_request_nothing_closed request' (snd (_process_request request s))
           w1' w2' w3' raw' Hi' Hl' Hp').
  intros k Hin. rewrite Huser, Hsnap in Hin. cbn [dict_get] in Hin.
  apply Hsame, Hkeys, Hin.
Qed.

(** *** Deliveries *)

Lemma callbacks_logged_app a b :
  callbacks_logged (a ++ b) = callbacks_logged a ++ callbacks_logged b.
Proof. apply flat_map_app. Qed.

Lemma callbacks_logged_silent evs :
  Forall not_a_callback evs -> callbacks_logged evs = [].
Proof.
  induction 1 as [|ev evs Hev _ IH]; [reflexivity|].
  destruct ev; try contradiction; exact IH.
Qed.

Lemma fetch_delivers_nothing ticket max_retries (s : State W) :
  grows_by not_a_callback s (snd (get_closed_position_data ticket max_retries s)).
Proof. apply emits_only_get_closed_position_data; simpl; auto. Qed.

(** The handler appends at most one delivery, and that one is the record
    of its own ticket. *)
Lemma handle_closed_position_callbacks user account ticket snapshot
    (on_trade_closed : option (Callback W)) (s : State W) :
  exists s' evs,
    _handle_closed_position user account ticket snapshot on_trade_closed s = (Val tt, s') /\
    st_log s' = st_log s ++ evs /\
    (callbacks_logged evs = [] \/
     exists data,
       callbacks_logged evs
         = [_calculate_risk_metrics (make_trade_data user account ticket data snapshot)]).
Proof.
  destruct (handle_closed_position_steps user account ticket snapshot on_trade_closed s)
    as (r & s1 & s' & Eget & Eh & Hend).
  pose proof (fetch_delivers_nothing ticket 3 s) as (e1 & L1 & F1).
  rewrite Eget in L1. cbn [snd] in L1.
  exists s'.
  destruct r as [data|]; [destruct on_trade_closed as [callback|]|].
  - destruct Hend as (Elog & _).
    eexists. split; [exact Eh|]. split.
    + rewrite Elog, L1, <- app_assoc. reflexivity.
    + rewrite callbacks_logged_app, (callbacks_logged_silent e1 F1). cbn [app].
      right. exists data. reflexivity.
  - subst s'. exists e1. split; [exact Eh|]. split; [exact L1|].
    left. apply callbacks_logged_silent, F1.
  - assert (Es : s' = s1) by (destruct on_trade_closed; exact Hend).
    subst s'. exists e1. split; [exact Eh|]. split; [exact L1|].
    left. apply callbacks_logged_silent, F1.
Qed.

(** The tickets delivered while the closed tickets are handled: some of
    them, in the order they are visited. *)
Lemma handle_closed_tickets_callbacks (request : Request W) previous :
  forall tickets (s : State W),
    (forall t, In t tickets -> od_get t previous <> None) ->
    exists s' evs delivered,
      handle_closed_tickets request previous tickets s = (Val tt, s') /\
      st_log s' = st_log s ++ evs /\
      map external_trade_id (callbacks_logged evs)
        = map (fun t => "mt5_" +:+ pretty t) delivered /\
      delivered `sublist_of` tickets /\
      Forall (fun t => user_id t = req_user_id request /\
                       account_id t = req_account_id request /\
                       status t = "closed")
        (callbacks_logged evs).
Proof.
  induction tickets as [|t tickets IH]; intros s Hkeys.
  - exists s, [], []. split; [reflexivity|]. split; [symmetry; apply app_nil_r|].
    split; [reflexivity|]. split; constructor.
  - unfold handle_closed_tickets in *. cbn [for_each].
    destruct (od_get t previous) as [snapshot|] eqn:Ht;
      [|exfalso; exact (Hkeys t (or_introl eq_refl) Ht)].
    destruct (handle_closed_position_callbacks (req_user_id request)
                (req_account_id request) t snapshot (req_on_trade_closed request) s)
      as (s1 & e1 & E1 & L1 & C1).
    destruct (IH s1) as (s' & e2 & delivered & E2 & L2 & M2 & S2 & F2);
      [intros t' Hin; apply Hkeys; right; exact Hin|].
    unfold bind. rewrite E1, E2.
    destruct C1 as [C1|(data & C1)].
    + exists s', (e1 ++ e2), delivered.
      split; [reflexivity|]. split; [rewrite L2, L1, <- app_assoc; reflexivity|].
      rewrite callbacks_logged_app, C1. cbn [app].
      split; [exact M2|]. split; [apply sublist_cons; exact S2 | exact F2].
    + exists s', (e1 ++ e2), (t :: delivered).
      split; [reflexivity|]. split; [rewrite L2, L1, <- app_assoc; reflexivity|].
      rewrite callbacks_logged_app, C1. cbn [app map].
      split; [rewrite M2; reflexivity|].
      split; [apply sublist_skip; exact S2|].
      constructor; [repeat split; reflexivity | exact F2].
Qed.

(** X16.  During a poll the callback is invoked only for tickets detected
    as closed, that is tracked before the poll and absent from the
    positions returned, and at most once for each: the records delivered
    carry the identifiers ["mt5_<ticket>"] of closed tickets, no ticket
    twice, in the order in which the set of closed tickets is iterated;
    and each carries the request's user and account and the status
    "closed". *)
Theorem process_request_deliveries (request : Request W) (s : State W) (w1 w2 w3 : W)
    (raw : option (list Position)) :
  mt5_initialize (st_world s) = (Returns true, w1) ->
  mt5_login (req_login request) (req_password request) (req_server request) w1
    = (Returns true, w2) ->
  mt5_positions_get w2 = (Returns raw, w3) ->
  exists evs delivered,
    st_log (snd (_process_request request s)) = st_log s ++ evs /\
    map external_trade_id (callbacks_logged evs)
      = map (fun t => "mt5_" +:+ pretty t) delivered /\
    delivered `sublist_of`
      closed_tickets_of
        (dict_get (position_snapshots (st_self s) !! req_user_id request) [])
        (map pos_ticket (dict_get raw [])) /\
    List.NoDup delivered /\
    (forall k, In k delivered ->
       In k (od_keys (dict_get (position_snapshots (st_self s) !! req_user_id request) []))
       /\ ~ In k (map pos_ticket (dict_get raw []))) /\
    Forall (fun t => user_id t = req_user_id request /\
                     account_id t = req_account_id request /\
                     status t = "closed")
      (callbacks_logged evs).
Proof.
  intros Hi Hl Hp.
  destruct (snapshot_positions_state (dict_get raw []) [] (polled_state request w3 s))
    as ([|d] & E).
  - rewrite (process_request_unconverted request s w1 w2 w3 raw Hi Hl Hp E).
    exists [EvInitialize; EvLogin (req_login request) (req_server request);
            EvPositionsGet; EvShutdown], [].
    cbn [snd st_log]. split; [reflexivity|]. split; [reflexivity|].
    split; [apply sublist_nil_l|]. split; [constructor|].
    split; [intros k []|constructor].
  - destruct (process_request_polled request s w1 w2 w3 raw d Hi Hl Hp E)
      as (s_h & Eh & Ereq).
    destruct (handle_closed_tickets_callbacks request
                (dict_get (position_snapshots (st_self s) !! req_user_id request) [])
                (closed_tickets_of
                   (dict_get (position_snapshots (st_self s) !! req_user_id request) [])
                   (map pos_ticket (dict_get raw [])))
                (polled_state request w3 s))
      as (s' & evs & delivered & E' & L & Hmap & Hsub & Hall).
    { intros t. apply closed_tickets_tracked. }
    rewrite Eh in E'. inversion E'; subst s'.
    exists ([EvInitialize; EvLogin (req_login request) (req_server request);
             EvPositionsGet] ++ evs ++ [EvShutdown]), delivered.
    rewrite Ereq. cbn [snd st_log]. rewrite L. cbn [polled_state st_log].
    split; [rewrite <- !app_assoc; reflexivity|].
    assert (Hcb : callbacks_logged
                    ([EvInitialize; EvLogin (req_login request) (req_server request);
                      EvPositionsGet] ++ evs ++ [EvShutdown]) = callbacks_logged evs).
    { rewrite !callbacks_logged_app. cbn. apply app_nil_r. }
    rewrite Hcb. split; [exact Hmap|]. split; [exact Hsub|].
    split; [|split; [|exact Hall]].
    + apply NoDup_ListNoDup. eapply sublist_NoDup; [|exact Hsub].
      apply NoDup_ListNoDup, set_difference_NoDup.
    + intros k Hin. apply set_difference_In.
      apply list_elem_of_In. eapply elem_of_sublist; [|exact Hsub].
      apply list_elem_of_In, Hin.
Qed.

(** *** The retry schedule *)

Lemma backoffs_silent_app e rest :
  Forall not_a_log_line e -> backoffs (e ++ rest) = backoffs rest.
Proof.
  induction 1 as [|ev e Hev _ IH]; [reflexivity|].
  destruct ev; try contradiction; exact IH.
Qed.

Lemma attempts_logged_range_one n : range n (n + 1) = [n].
Proof. rewrite range_cons by lia. rewrite range_nil by lia. reflexivity. Qed.

(** One attempt, with the shape of what it logs: the attempt line, then
    driver calls and sleeps only. *)
Lemma attempt_sources_log ticket max_retries n (s : State W) :
  exists s1 r2 s2 r3 s3 e2 e3,
    warm_history_cache (logged (LogAttempt ticket n max_retries) s) = (Val tt, s1) /\
    _fetch_from_deals ticket s1 = (Val r2, s2) /\
    _fetch_from_orders ticket s2 = (Val r3, s3) /\
    st_log s2 = st_log s ++ EvLog (LogAttempt ticket n max_retries) :: e2 /\
    Forall not_a_log_line e2 /\
    st_log s3 = st_log s ++ EvLog (LogAttempt ticket n max_retries) :: e3 /\
    Forall not_a_log_line e3.
Proof.
  destruct (warm_history_cache_returns (logged (LogAttempt ticket n max_retries) s))
    as (s1 & Ew).
  destruct (fetch_from_deals_returns ticket s1) as (r2 & s2 & Ed).
  destruct (fetch_from_orders_returns ticket s2) as (r3 & s3 & Eo).
  pose proof (warm_silent (logged (LogAttempt ticket n max_retries) s)) as (e1 & L1 & F1).
  pose proof (deals_silent ticket s1) as (e2 & L2 & F2).
  pose proof (orders_silent ticket s2) as (e3 & L3 & F3).
  rewrite Ew in L1. rewrite Ed in L2. rewrite Eo in L3.
  cbn [snd logged st_log] in *.
  exists s1, r2, s2, r3, s3, (e1 ++ e2), (e1 ++ e2 ++ e3).
  split; [exact Ew|]. split; [exact Ed|]. split; [exact Eo|].
  split; [rewrite L2, L1, <- !app_assoc; reflexivity|].
  split; [apply Forall_app; split; assumption|].
  split; [rewrite L3, L2, L1, <- !app_assoc; reflexivity|].
  apply Forall_app. split; [assumption|]. apply Forall_app. split; assumption.
Qed.

Lemma attempts_schedule ticket max_retries :
  forall k n (s : State W),
    1 <= n -> Z.to_nat (max_retries + 1 - n) = k ->
    exists r s' evs m,
      attempts ticket max_retries (range n (max_retries + 1)) s = (Val r, s') /\
      st_log s' = st_log s ++ evs /\
      n - 1 <= m <= Z.max (n - 1) max_retries /\
      (n <= max_retries -> n <= m) /\
      attempts_logged evs = range n (m + 1) /\
      backoffs evs = map (fun i => (3 * i, Py.of_int (3 * i))) (range n m) /\
      (r = None -> m = Z.max (n - 1) max_retries).
Proof.
  induction k as [|k IH]; intros n s Hn Hk.
  - rewrite range_nil by lia. cbn [attempts]. mrun.
    exists None, (logged (LogNotFound ticket max_retries) s),
      [EvLog (LogNotFound ticket max_retries)], (n - 1).
    split; [reflexivity|]. split; [reflexivity|]. split; [lia|]. split; [lia|].
    split; [rewrite range_nil by lia; reflexivity|].
    split; [rewrite range_nil by lia; reflexivity|]. intros _. lia.
  - rewrite range_cons by lia. cbn [attempts]. mrun.
    destruct (attempt_sources_log ticket max_retries n s)
      as (s1 & r2 & s2 & r3 & s3 & e2 & e3 & Ew & Ed & Eo & L2 & F2 & L3 & F3).
    unfold logged in Ew. rewrite Ew. mrun. rewrite Ed. mrun.
    destruct r2 as [data|]; mrun.
    { exists (Some data), (logged LogFoundDeals s2),
        (EvLog (LogAttempt ticket n max_retries) :: e2 ++ [EvLog LogFoundDeals]), n.
      split; [reflexivity|]. split.
      { cbn [logged st_log]. rewrite L2, <- app_assoc. reflexivity. }
      split; [lia|]. split; [lia|]. split.
      { cbn [attempts_logged flat_map app].
        change (flat_map _ (e2 ++ [EvLog LogFoundDeals]))
          with (attempts_logged (e2 ++ [EvLog LogFoundDeals])).
        rewrite attempts_logged_app, (attempts_logged_silent e2 F2).
        rewrite attempts_logged_range_one. reflexivity. }
      split; [|discriminate].
      cbn [backoffs]. rewrite (backoffs_silent_app e2 _ F2).
      rewrite range_nil by lia. reflexivity. }
    rewrite Eo. mrun.
    destruct r3 as [data|]; mrun.
    { exists (Some data), (logged LogFoundOrders s3),
        (EvLog (LogAttempt ticket n max_retries) :: e3 ++ [EvLog LogFoundOrders]), n.
      split; [reflexivity|]. split.
      { cbn [logged st_log]. rewrite L3, <- app_assoc. reflexivity. }
      split; [lia|]. split; [lia|]. split.
      { cbn [attempts_logged flat_map app].
        change (flat_map _ (e3 ++ [EvLog LogFoundOrders]))
          with (attempts_logged (e3 ++ [EvLog LogFoundOrders])).
        rewrite attempts_logged_app, (attempts_logged_silent e3 F3).
        rewrite attempts_logged_range_one. reflexivity. }
      split; [|discriminate].
      cbn [backoffs]. rewrite (backoffs_silent_app e3 _ F3).
      rewrite range_nil by lia. reflexivity. }
    destruct (n <? max_retries) eqn:Hlt; mrun.
    + apply Z.ltb_lt in Hlt.
      destruct (IH (n + 1) (slept (Py.of_int (3 * n)) (logged (LogWaiting (3 * n)) s3)))
        as (r & s' & evs & m & Erun & Llog & Hm & Hlow & Hatt & Hback & Hnone);
        [lia | lia |].
      unfold slept, logged in Erun. cbn [st_world st_log st_self] in Erun.
      rewrite Erun.
      exists r, s',
        (EvLog (LogAttempt ticket n max_retries) :: e3 ++
         [EvLog (LogWaiting (3 * n)); EvSleep (Py.of_int (3 * n))] ++ evs), m.
      split; [reflexivity|]. split.
      { rewrite Llog. cbn [slept logged st_log]. rewrite L3, <- !app_assoc. reflexivity. }
      split; [lia|]. split; [lia|]. split.
      { cbn [attempts_logged flat_map app].
        change (flat_map _ (e3 ++ _ :: _ :: evs))
          with (attempts_logged
                  (e3 ++ EvLog (LogWaiting (3 * n)) :: EvSleep (Py.of_int (3 * n)) :: evs)).
        rewrite attempts_logged_app, (attempts_logged_silent e3 F3).
        cbn [app attempts_logged flat_map]. fold (attempts_logged evs).
        rewrite Hatt. symmetry. apply range_cons. lia. }
      split.
      { cbn [backoffs app]. rewrite (backoffs_silent_app e3 _ F3).
        cbn [backoffs]. rewrite Hback.
        rewrite (range_cons n m) by lia. reflexivity. }
      intros Hr. rewrite (Hnone Hr). lia.
    + apply Z.ltb_ge in Hlt.
      destruct (IH (n + 1) s3)
        as (r & s' & evs & m & Erun & Llog & Hm & Hlow & Hatt & Hback & Hnone);
        [lia | lia |].
      rewrite Erun.
      exists r, s', (EvLog (LogAttempt ticket n max_retries) :: e3 ++ evs), n.
      assert (Hmn : m = n) by lia. subst m.
      split; [reflexivity|]. split.
      { rewrite Llog, L3, <- app_assoc. reflexivity. }
      split; [lia|]. split; [lia|]. split.
      { cbn [attempts_logged flat_map app].
        change (flat_map _ (e3 ++ evs)) with (attempts_logged (e3 ++ evs)).
        rewrite attempts_logged_app, (attempts_logged_silent e3 F3), Hatt.
        rewrite (range_nil (n + 1)) by lia. rewrite attempts_logged_range_one.
        reflexivity. }
      split.
      { cbn [backoffs]. rewrite (backoffs_silent_app e3 _ F3), Hback.
        rewrite range_nil by lia. rewrite range_nil by lia. reflexivity. }
      intros _. lia.
Qed.

(** X17.  The fetcher's schedule.  It announces attempts 1, 2, ... up to
    some [k <= max_retries], and between consecutive attempts [i] and
    [i + 1] it sleeps exactly [3 * i] seconds, so the backoffs are 3, 6,
    ..., [3 * (k - 1)] and there is none after the last attempt.  When
    it returns [None] all [max_retries] attempts were made. *)
Theorem retry_schedule (ticket max_retries : Z) (s : State W) :
  exists r s' evs k,
    get_closed_position_data ticket max_retries s = (Val r, s') /\
    st_log s' = st_log s ++ evs /\
    0 <= k <= Z.max 0 max_retries /\
    attempts_logged evs = range 1 (k + 1) /\
    backoffs evs = map (fun i => (3 * i, Py.of_int (3 * i))) (range 1 k) /\
    (r = None -> k = Z.max 0 max_retries).
Proof.
  unfold get_closed_position_data.
  destruct (attempts_schedule ticket max_retries (Z.to_nat (max_retries + 1 - 1)) 1 s)
    as (r & s' & evs & m & E & L & Hm & _ & Hatt & Hback & Hnone); [lia | reflexivity |].
  exists r, s', evs, m. split; [exact E|]. split; [exact L|].
  split; [lia|]. split; [exact Hatt|]. split; [exact Hback|].
  intros Hr. rewrite (Hnone Hr). lia.
Qed.

(** *** The caller's wait and the worker loop *)

(** The wait loop with its float timer is a loop of 101 rounds. *)
Lemma wait_is_rounds others user :
  forall j k fuel (s : State W),
    (k + j = 101)%nat -> (j < fuel)%nat ->
    wait_for_cache others fuel user 10%float 0.1%float (waited_after k) s
      = bind (poll_rounds others j user) (fun positions => ret (Returned positions)) s.
Proof.
  induction j as [|j IH]; intros k fuel s Hk Hfuel.
  - destruct fuel as [|fuel]; [lia|]. cbn [wait_for_cache poll_rounds].
    replace k with 101%nat by lia. rewrite waited_reaches_max. reflexivity.
  - destruct fuel as [|fuel]; [lia|]. cbn [wait_for_cache poll_rounds].
    rewrite waited_below_max by lia.
    change (PrimFloat.add (waited_after k) 0.1%float) with (waited_after (S k)).
    unfold asyncio_sleep, yield_to_others. mrun.
    match goal with
    | |- context [cache_lookup_fresh ?m user ?t] =>
        destruct (cache_lookup_fresh m user t) as [positions|]
    end.
    + reflexivity.
    + rewrite (IH (S k)) by lia. reflexivity.
Qed.

(** X18.  A call of [get_positions] that finds room in the queue returns
    the cached list untouched when the entry is fresh, without
    enqueueing or sleeping; otherwise it appends its request at the tail
    of the queue and then makes up to 101 rounds of "sleep 100 ms, look
    at the cache", returning the cached list at the first round that
    finds it fresh and the empty list after the 101st. *)
Theorem get_positions_rounds (others : State W -> State W)
    (user : string) (login_ : Z) (password server : string) (account : option string)
    (on_trade_closed : option (Callback W)) (s : State W) :
  (length (request_queue (st_self s)) < queue_maxsize)%nat ->
  get_positions others user login_ password server account on_trade_closed s
  = match cache_lookup_fresh (st_self s) user (now (st_world s)) with
    | Some positions => (Val (Returned positions), s)
    | None =>
        bind (poll_rounds others 101 user) (fun positions => ret (Returned positions))
          (snd (set_request_queue
                  (request_queue (st_self s) ++
                   [{| req_user_id := user; req_login := login_;
                       req_password := password; req_server := server;
                       req_account_id := account;
                       req_on_trade_closed := on_trade_closed |}]) s))
    end.
Proof.
  intros Hroom. unfold get_positions. mrun.
  destruct (cache_lookup_fresh (st_self s) user (now (st_world s))) as [positions|];
    [reflexivity|].
  unfold put_and_wait. mrun. unfold queue_full.
  destruct (Nat.leb_spec queue_maxsize (length (request_queue (st_self s)))); [lia|].
  mrun. cbn [req_user_id].
  rewrite (wait_is_rounds others user 101 0) by (unfold wait_fuel; lia).
  reflexivity.
Qed.

(** A poll leaves the queue alone when what runs during its callbacks
    does. *)
Lemma process_request_keeps_queue (request : Request W) (s : State W) :
  (forall t (m : SmartQueueManager W) w,
     request_queue (fst (during_callback t m w)) = request_queue m) ->
  request_queue (st_self (snd (_process_request request s))) = request_queue (st_self s).
Proof.
  intros Hloop.
  apply (view_process_request (fun m => request_queue m));
    solve [exact Hloop | intros; reflexivity].
Qed.

(** One turn of the worker loop, step by step. *)
Lemma worker_iteration_steps (others : State W -> State W) (s : State W) :
  worker_iteration others s
    = (Val tt,
       others (slept 0.05%float
                 match request_queue (st_self s) with
                 | [] => s
                 | request :: rest =>
                     snd (_process_request request (snd (set_request_queue rest s)))
                 end)).
Proof.
  unfold worker_iteration, asyncio_sleep, yield_to_others. mrun.
  destruct (request_queue (st_self s)) as [|request rest]; mrun; [reflexivity|].
  pose proof (process_request_returns request
                {| st_world := st_world s; st_log := st_log s;
                   st_self :=
                     {| request_queue := rest;
                        cache := cache (st_self s);
                        position_snapshots := position_snapshots (st_self s);
                        cache_duration := cache_duration (st_self s);
                        history_fetcher := history_fetcher (st_self s);
                        worker_running := worker_running (st_self s) |} |}) as Hr.
  destruct (_process_request request _) as [[|[]] s1]; [discriminate Hr|].
  reflexivity.
Qed.

(** X19.  One turn of the worker loop, as long as [mt5.shutdown()]
    returns (which the terminal interface takes for granted).  The turn
    does not raise.  On an empty queue it only sleeps 50 ms.  Otherwise
    it takes the oldest request off the queue, processes it with the
    queue holding the remaining requests, and then sleeps 50 ms; the
    other tasks run while a callback is awaited and during the sleep.
    If what runs during the callbacks puts nothing on the queue, the
    queue holds the remaining requests, in their order, when the
    processing is done. *)
Theorem worker_iteration_fifo (others : State W -> State W) (s : State W) :
  worker_iteration others s
    = (Val tt,
       others (slept 0.05%float
                 match request_queue (st_self s) with
                 | [] => s
                 | request :: rest =>
                     snd (_process_request request (snd (set_request_queue rest s)))
                 end)) /\
  ((forall t (m : SmartQueueManager W) w,
      request_queue (fst (during_callback t m w)) = request_queue m) ->
   request_queue
     (st_self match request_queue (st_self s) with
              | [] => s
              | request :: rest =>
                  snd (_process_request request (snd (set_request_queue rest s)))
              end)
     = tl (request_queue (st_self s))).
Proof.
  split; [apply worker_iteration_steps|].
  intros Hloop.
  destruct (request_queue (st_self s)) as [|request rest] eqn:Hq; [exact Hq|].
  rewrite (process_request_keeps_queue _ _ Hloop). reflexivity.
Qed.

(** The turn of the worker on a queue whose oldest request finds every
    tracked ticket of its user still open. *)
Lemma worker_turn_quiet (request : Request W) (rest : list (Request W)) (s : State W)
    (w1 w2 w3 : W) (raw : option (list Position)) :
  request_queue (st_self s) = request :: rest ->
  mt5_initialize (st_world s) = (Returns true, w1) ->
  mt5_login (req_login request) (req_password request) (req_server request) w1
    = (Returns true, w2) ->
  mt5_positions_get w2 = (Returns raw, w3) ->
  times_ok (dict_get raw []) ->
  (forall k,
     In k (od_keys (dict_get (position_snapshots (st_self s) !! req_user_id request) [])) ->
     In k (map pos_ticket (dict_get raw []))) ->
  exists d,
    List.NoDup (od_keys d) /\
    (forall k, In k (od_keys d) <-> In k (map pos_ticket (dict_get raw []))) /\
    map fp_ticket (map format_position (od_values d)) = od_keys d /\
    worker_turn s
      = {| st_world := sleep 0.05%float (mt5_shutdown w3);
           st_log := st_log s ++ [EvInitialize;
                                  EvLogin (req_login request) (req_server request);
                                  EvPositionsGet; EvShutdown; EvSleep 0.05%float];
           st_self := installed (req_user_id request) d (now w3)
                        (st_self (snd (set_request_queue rest s))) |}.
Proof.
  intros Hq Hi Hl Hp Hraw Hopen.
  destruct (process_request_quiet request (snd (set_request_queue rest s)) w1 w2 w3 raw
              Hi Hl Hp Hraw Hopen) as (d & Hnd & Hkeys & Hfp & E).
  exists d. split; [exact Hnd|]. split; [exact Hkeys|]. split; [exact Hfp|].
  unfold worker_turn.
  rewrite (worker_iteration_steps (fun s => s) s), Hq, E. unfold slept. cbn [snd st_world st_log st_self].
  rewrite <- app_assoc. reflexivity.
Qed.

(** X21.  A caller that misses the cache is served by the worker's next
    turn.  With an empty queue, and the worker taking one turn while the
    caller sleeps, a poll that completes (the positions returned have
    opening times that [datetime.fromtimestamp] accepts) with every
    tracked ticket of the user still open, and whose entry is younger
    than the TTL when the caller wakes, makes the call return after a
    single 100 ms sleep with the positions just polled: one per ticket
    the terminal returned, no ticket twice.  The queue is empty again. *)
Theorem caller_served_by_worker (user : string) (login_ : Z) (password server : string)
    (account : option string) (on_trade_closed : option (Callback W)) (s : State W)
    (w1 w2 w3 : W) (raw : option (list Position)) :
  cache_lookup_fresh (st_self s) user (now (st_world s)) = None ->
  request_queue (st_self s) = [] ->
  mt5_initialize (sleep 0.1%float (st_world s)) = (Returns true, w1) ->
  mt5_login login_ password server w1 = (Returns true, w2) ->
  mt5_positions_get w2 = (Returns raw, w3) ->
  times_ok (dict_get raw []) ->
  (forall k,
     In k (od_keys (dict_get (position_snapshots (st_self s) !! user) [])) ->
     In k (map pos_ticket (dict_get raw []))) ->
  Py.lt (total_seconds (now (sleep 0.05%float (mt5_shutdown w3)) - now w3))
        (cache_duration (st_self s)) = true ->
  exists positions s',
    get_positions worker_turn user login_ password server account on_trade_closed s
      = (Val (Returned positions), s') /\
    List.NoDup (map fp_ticket positions) /\
    (forall k, In k (map fp_ticket positions) <-> In k (map pos_ticket (dict_get raw []))) /\
    st_log s' = st_log s ++ [EvSleep 0.1%float; EvInitialize; EvLogin login_ server;
                             EvPositionsGet; EvShutdown; EvSleep 0.05%float] /\
    request_queue (st_self s') = [].
Proof.
  intros Hmiss Hq Hi Hl Hp Hraw Hopen Hfresh.
  set (request := {| req_user_id := user; req_login := login_;
                     req_password := password; req_server := server;
                     req_account_id := account;
                     req_on_trade_closed := on_trade_closed |}).
  unfold get_positions. mrun. rewrite Hmiss.
  fold request. unfold put_and_wait. mrun. unfold queue_full. rewrite Hq.
  change ((queue_maxsize <=? length (@nil (Request W)))%nat) with false.
  mrun. cbn [app req_user_id request].
  rewrite (wait_is_rounds worker_turn user 101 0) by (unfold wait_fuel; lia).
  cbn [poll_rounds]. unfold asyncio_sleep, yield_to_others. mrun.
  match goal with
  | |- context [worker_turn ?s0] =>
      destruct (worker_turn_quiet request [] s0 w1 w2 w3 raw eq_refl Hi Hl Hp Hraw Hopen)
        as (d & Hnd & Hkeys & Hfp & Eturn)
  end.
  rewrite Eturn. cbn [st_self st_world st_log].
  unfold cache_lookup_fresh.
  cbn [installed cache cache_duration req_user_id request].
  rewrite lookup_insert_eq. cbn [ce_timestamp ce_positions].
  mrun. cbn [cache_duration]. rewrite Hfresh.
  eexists _, _. split; [reflexivity|].
  rewrite Hfp. split; [exact Hnd|]. split; [exact Hkeys|].
  cbn [st_log st_self request_queue]. split; [|reflexivity].
  rewrite <- app_assoc. reflexivity.
Qed.

Lemma worker_iteration_turn (others : State W -> State W) (s : State W) :
  exists s', worker_iteration others s = (Val tt, s').
Proof.
  unfold worker_iteration, asyncio_sleep, yield_to_others. mrun.
  destruct (request_queue (st_self s)) as [|request rest]; mrun; [eauto|].
  match goal with
  | |- context [_process_request request ?st] =>
      pose proof (process_request_returns request st) as Hr;
      destruct (_process_request request st) as [[|[]] s1]; [discriminate Hr|]
  end.
  eauto.
Qed.

(** X20.  The worker loop never dies: however many turns it makes and
    whatever the terminal, the callbacks and the other tasks do, it does
    not raise.  It stops at the first check that finds the flag cleared
    (as [stop_worker] leaves it), without touching anything. *)
Theorem worker_loop_never_raises (others : State W -> State W) :
  forall fuel (s : State W),
    (exists o s', worker_loop others fuel s = (Val o, s')) /\
    (worker_running (st_self s) = false ->
     worker_loop others (S fuel) s = (Val (Returned tt), s)) /\
    worker_running (st_self (snd (stop_worker s))) = false.
Proof.
  induction fuel as [|fuel IH]; intros s.
  - split; [cbn; unfold ret; eauto|]. split; [|reflexivity].
    intros Hoff. cbn [worker_loop]. mrun. rewrite Hoff. reflexivity.
  - split; [|split; [|reflexivity]].
    + cbn [worker_loop]. mrun.
      destruct (worker_running (st_self s)); [|eauto].
      destruct (worker_iteration_turn others s) as (s1 & E1). rewrite E1.
      destruct (IH s1) as ((o & s' & E) & _). rewrite E. eauto.
    + intros Hoff. cbn [worker_loop]. mrun. rewrite Hoff. reflexivity.
Qed.

End Properties.

(** C2 as stated fails: with 100 requests pending and a cold cache the
    call does not come back with the empty list, it is suspended in the
    enqueue. *)
Lemma full_queue_does_not_return_empty :
  length (request_queue (st_self state_queue_full)) = 100%nat /\
  fst (get_positions idle "u2" 6 "secret" "Broker-Demo" None None state_queue_full)
    <> Val (Returned []).
Proof. split; [reflexivity|]. vm_compute. discriminate. Qed.

Lemma get_positions_blocks_on_full_queue_witness :
  get_positions idle "u2" 6 "secret" "Broker-Demo" None None state_queue_full
    = (Val BlockedOnPut, state_queue_full).
Proof.
  apply get_positions_blocks_on_full_queue.
  - reflexivity.
  - vm_compute. lia.
Defined.

(** C8 at the input where it fails.  The cache is cold, the queue has
    room, and the poll of the user completes between 10.0 s and 10.1 s
    after the call.  The wait loop runs a 101st round, because the sum of
    one hundred [0.1] is still below [10.0]; that round finds the fresh
    entry, and the call returns the cached list instead of timing out
    with the empty list after 10 s. *)
Theorem get_positions_polls_beyond_ten_seconds :
  fst (get_positions late_worker "u1" 5 "secret" "Broker-Demo" None None state_cold_cache)
    = Val (Returned late_positions) /\
  late_positions <> [] /\
  length (List.filter is_sleep
            (st_log (snd (get_positions late_worker "u1" 5 "secret" "Broker-Demo" None None
                            state_cold_cache)))) = 101%nat /\
  sim_clock (st_world (snd (get_positions late_worker "u1" 5 "secret" "Broker-Demo" None None
                              state_cold_cache)))
    - sim_clock (st_world state_cold_cache) = 10100000.
Proof. vm_compute. repeat split; try reflexivity. discriminate. Qed.

(** C1 at the input where it fails.  Ticket 1 was open at the previous
    poll and is gone now, and the history has nothing about it yet: all
    three attempts fail.  The handler delivers nothing, and the request
    then installs the current positions alone, so ticket 1 is no longer
    in the snapshot map and the next poll cannot retry it. *)
Theorem failed_fetch_drops_ticket :
  od_get 1 (dict_get (position_snapshots (st_self state_empty_history) !! "u1") [])
    = Some eurusd_snapshot /\
  fst (get_closed_position_data 1 3 state_empty_history) = Val None /\
  position_snapshots (st_self (snd (_process_request request_u1 state_empty_history))) !! "u1"
    = Some [] /\
  List.filter is_callback (st_log (snd (_process_request request_u1 state_empty_history)))
    = [].
Proof. vm_compute. repeat split; reflexivity. Qed.

(** The calculator on a JPY pair (end-to-end scenario 7): entry 110.00,
    stop 109.50, one lot, profit 50. *)
Lemma risk_metrics_spec_witness :
  rm_risk_amount
    (risk_metrics (Some 110%float) (Some 109.5%float) None (Some 1%float)
       (Some 50%float) "USDJPY") = Some 500%float /\
  rm_r_multiple
    (risk_metrics (Some 110%float) (Some 109.5%float) None (Some 1%float)
       (Some 50%float) "USDJPY") = Some 0.1%float.
Proof.
  destruct (proj1 risk_metrics_spec 110%float 109.5%float 1%float None (Some 50%float)
              "USDJPY" eq_refl eq_refl eq_refl) as (Ha & Hr & _).
  split; [rewrite Ha | rewrite Hr]; vm_compute; reflexivity.
Defined.

(** ** The properties on concrete runs *)

(** The backoff of three failed attempts: after the 0.3 s of the cache
    warm-up, 3 s and then 6 s. *)
Example backoff_three_then_six :
  fst (get_closed_position_data 1 3 state_empty_history) = Val None /\
  List.filter is_sleep (st_log (snd (get_closed_position_data 1 3 state_empty_history)))
    = [EvSleep 0.3; EvSleep 3; EvSleep 6] /\
  attempts_logged (st_log (snd (get_closed_position_data 1 3 state_empty_history)))
    = [1; 2; 3].
Proof. vm_compute. repeat split; reflexivity. Qed.

Lemma get_closed_position_data_spec_witness :
  exists r s',
    get_closed_position_data 1 3 state_empty_history = (Val r, s') /\
    fetch_run 1 3 1 state_empty_history r s'.
Proof.
  destruct (get_closed_position_data_spec 1 3 state_empty_history)
    as (r & s' & E & Hrun & _).
  exists r, s'. split; [exact E | exact Hrun].
Defined.

Lemma net_pnl_exact_witness :
  exists t,
    st_log (snd (_handle_closed_position "u1" None 1 eurusd_snapshot (Some ok_callback)
                   state_full_history))
      = st_log (snd (get_closed_position_data 1 3 state_full_history)) ++ [EvCallback t] /\
    net_pnl t = 18.9%float.
Proof.
  assert (Hget : get_closed_position_data 1 3 state_full_history
                 = (Val (Some full_history_data),
                    snd (get_closed_position_data 1 3 state_full_history)))
    by (vm_compute; reflexivity).
  destruct (proj1 net_pnl_exact "u1" None 1 eurusd_snapshot ok_callback
              state_full_history _ full_history_data Hget)
    as (t & L & G & C & S & N).
  exists t. split; [exact L|].
  rewrite N, G, C, S. vm_compute. reflexivity.
Defined.

Lemma fetch_from_deals_spec_witness :
  exists data,
    fst (_fetch_from_deals 1 state_full_history) = Val (Some data) /\
    built_from_deals 1 eurusd_exit_deal (Some eurusd_entry_deal) data.
Proof.
  assert (Hq : mt5_history_deals_get
                 (now (st_world state_full_history) - td_minutes 30)
                 (now (st_world state_full_history)) (st_world state_full_history)
               = (Returns (Some [eurusd_entry_deal; eurusd_exit_deal]),
                  st_world state_full_history))
    by (vm_compute; reflexivity).
  exact (fetch_from_deals_spec 1 state_full_history _ _ Hq eq_refl eq_refl).
Defined.

Lemma fetch_from_orders_spec_witness :
  exists data,
    fst (_fetch_from_orders 1 state_full_history) = Val (Some data) /\
    built_from_order 1 eurusd_order [eurusd_entry_deal; eurusd_exit_deal] data.
Proof.
  assert (Hq : mt5_history_orders_get
                 (now (st_world state_full_history) - td_minutes 30)
                 (now (st_world state_full_history)) (st_world state_full_history)
               = (Returns (Some [eurusd_order]), st_world state_full_history))
    by (vm_compute; reflexivity).
  assert (Hd : mt5_history_deals_get
                 (now (st_world state_full_history) - td_minutes 30)
                 (now (st_world state_full_history)) (st_world state_full_history)
               = (Returns (Some [eurusd_entry_deal; eurusd_exit_deal]),
                  st_world state_full_history))
    by (vm_compute; reflexivity).
  exact (fetch_from_orders_spec 1 state_full_history [eurusd_order] eurusd_order
           (Some [eurusd_entry_deal; eurusd_exit_deal]) _ _ Hq eq_refl Hd eq_refl).
Defined.

Lemma deals_sl_tp_from_orders_scan_witness :
  td_sl full_history_data = Some (Some 1.0980%float) /\
  exists sl tp s0,
    _get_sl_tp_from_orders 1 s0 = (Val (sl, tp), snd (_fetch_from_deals 1 state_full_history)) /\
    td_sl full_history_data = Some sl /\ td_tp full_history_data = Some tp.
Proof.
  split; [reflexivity|].
  assert (Hf : _fetch_from_deals 1 state_full_history
               = (Val (Some full_history_data), snd (_fetch_from_deals 1 state_full_history)))
    by (vm_compute; reflexivity).
  destruct (deals_sl_tp_from_orders_scan 1 state_full_history _ full_history_data Hf)
    as (sl & tp & s0 & Hscan & Hsl & Htp & _).
  exists sl, tp, s0. split; [exact Hscan|]. split; assumption.
Defined.

Lemma process_request_abort_leaves_state_witness :
  fst (mt5_login 5 "secret" "Broker-Demo" (st_world state_login_refused)) = Returns false /\
  st_self (snd (_process_request request_u1 state_login_refused))
    = st_self state_login_refused.
Proof.
  split; [reflexivity|].
  destruct (process_request_abort_leaves_state request_u1 state_login_refused)
    as (_ & Hself & _).
  - right. split; reflexivity.
  - exact Hself.
Defined.

(** ** The further properties on concrete runs *)

Lemma warm_history_cache_outcomes_witness :
  fst (warm_history_cache state_full_history) = Val tt /\
  last_warmup (history_fetcher (st_self (snd (warm_history_cache state_full_history))))
    = Some (from_epoch (T0 + 700)).
Proof.
  destruct (warm_history_cache_outcomes state_full_history
              (Returns (Some [eurusd_entry_deal; eurusd_exit_deal]))
              (st_world state_full_history)) as (Hret & Hlast & _).
  - reflexivity.
  - vm_compute. reflexivity.
  - split; [exact Hret | exact Hlast].
Defined.

Lemma no_retries_no_attempt_witness :
  get_closed_position_data 1 0 state_empty_history
    = (Val None, logged (LogNotFound 1 0) state_empty_history).
Proof. apply no_retries_no_attempt. lia. Defined.

Lemma fetch_from_deals_no_deals_witness :
  fst (_fetch_from_deals 1 (script_state [Raises] [])) = Val None.
Proof.
  rewrite (fetch_from_deals_no_deals 1 (script_state [Raises] []) Raises
             {| sc_clock := from_epoch (T0 + 700); sc_deals := []; sc_orders := [] |}).
  - reflexivity.
  - reflexivity.
  - left. reflexivity.
Defined.

Lemma fetch_from_deals_backfill_raises_witness :
  fst (_fetch_from_deals 1 (script_state [Returns (Some [eurusd_exit_deal]); Raises] []))
    = Val None.
Proof.
  rewrite (fetch_from_deals_backfill_raises 1
             (script_state [Returns (Some [eurusd_exit_deal]); Raises] [])
             [eurusd_exit_deal] eurusd_exit_deal
             {| sc_clock := from_epoch (T0 + 700); sc_deals := [Raises];
                sc_orders := [] |}
             {| sc_clock := from_epoch (T0 + 700); sc_deals := [];
                sc_orders := [] |});
    reflexivity.
Defined.

Lemma fetch_from_deals_scan_fails_witness :
  exists data,
    fst (_fetch_from_deals 1
           (script_state [Returns (Some [eurusd_entry_deal; eurusd_exit_deal])] []))
      = Val (Some data) /\
    td_sl data = Some None /\ td_tp data = Some None.
Proof.
  destruct (fetch_from_deals_scan_fails 1
              (script_state [Returns (Some [eurusd_entry_deal; eurusd_exit_deal])] [])
              [eurusd_entry_deal; eurusd_exit_deal] eurusd_exit_deal eurusd_entry_deal
              Raises
              {| sc_clock := from_epoch (T0 + 700); sc_deals := []; sc_orders := [] |}
              {| sc_clock := from_epoch (T0 + 700); sc_deals := []; sc_orders := [] |})
    as (data & Hfetch & _ & Hsl & Htp); try reflexivity.
  - left. reflexivity.
  - exists data. split; [exact Hfetch|]. split; assumption.
Defined.

Lemma fetch_from_orders_deals_raise_witness :
  fst (_fetch_from_orders 1 (script_state [] [Returns (Some [eurusd_order])])) = Val None.
Proof.
  apply (fetch_from_orders_deals_raise 1
           (script_state [] [Returns (Some [eurusd_order])]) [eurusd_order] eurusd_order
           {| sc_clock := from_epoch (T0 + 700); sc_deals := []; sc_orders := [] |}
           {| sc_clock := from_epoch (T0 + 700); sc_deals := []; sc_orders := [] |});
    reflexivity.
Defined.

Lemma fetch_result_shape_witness :
  td_ticket full_history_data = 1 /\
  exists sl tp, td_sl full_history_data = Some sl /\ td_tp full_history_data = Some tp.
Proof.
  assert (Hget : get_closed_position_data 1 3 state_full_history
                 = (Val (Some full_history_data),
                    snd (get_closed_position_data 1 3 state_full_history)))
    by (vm_compute; reflexivity).
  destruct (fetch_result_shape 1 3 state_full_history _ full_history_data Hget)
    as (Hticket & _ & sl & tp & Hsl & Htp & _).
  split; [exact Hticket|]. exists sl, tp. split; assumption.
Defined.

Lemma orders_record_from_snapshot_witness :
  exists data,
    fst (_fetch_from_orders 1 state_full_history) = Val (Some data) /\
    symbol (_calculate_risk_metrics (make_trade_data "u1" None 1 data eurusd_snapshot))
      = "EURUSD" /\
    exit_price (_calculate_risk_metrics (make_trade_data "u1" None 1 data eurusd_snapshot))
      = 1.1020%float.
Proof.
  assert (Hq : mt5_history_orders_get
                 (now (st_world state_full_history) - td_minutes 30)
                 (now (st_world state_full_history)) (st_world state_full_history)
               = (Returns (Some [eurusd_order]), st_world state_full_history))
    by (vm_compute; reflexivity).
  assert (Hd : mt5_history_deals_get
                 (now (st_world state_full_history) - td_minutes 30)
                 (now (st_world state_full_history)) (st_world state_full_history)
               = (Returns (Some [eurusd_entry_deal; eurusd_exit_deal]),
                  st_world state_full_history))
    by (vm_compute; reflexivity).
  assert (Htime : timestamp_ok (order_time_done eurusd_order) = true) by reflexivity.
  destruct (orders_record_from_snapshot 1 state_full_history [eurusd_order] eurusd_order
              (Some [eurusd_entry_deal; eurusd_exit_deal]) _ _ "u1" None eurusd_snapshot
              Hq eq_refl Hd Htime)
    as (data & Hfetch & Hsym & _ & _ & _ & _ & Hexit & _).
  exists data. split; [exact Hfetch|]. split; [exact Hsym | exact Hexit].
Defined.

Lemma process_request_closes_session_witness :
  last (st_log (snd (_process_request request_u1 state_full_history))) = Some EvShutdown.
Proof.
  apply (process_request_closes_session request_u1 state_full_history
           (st_world state_full_history) (st_world state_full_history)); reflexivity.
Defined.

Lemma process_request_login_refused_witness :
  st_log (snd (_process_request request_u1 state_login_refused))
    = [EvInitialize; EvLogin 5 "Broker-Demo"; EvLastError].
Proof.
  rewrite (process_request_login_refused request_u1 state_login_refused
             (st_world state_login_refused) (st_world state_login_refused)
             (st_world state_login_refused) (1, "error")); reflexivity.
Defined.

Lemma process_request_frame_witness :
  request_queue (st_self (snd (_process_request request_u1 state_full_history)))
    = request_queue (st_self state_full_history) /\
  position_snapshots (st_self (snd (_process_request request_u1 state_full_history))) !! "u2"
    = position_snapshots (st_self state_full_history) !! "u2".
Proof.
  destruct (process_request_frame request_u1 state_full_history)
    as (Hq & _ & _ & _ & Hu).
  - intros t m w. reflexivity.
  - split; [exact Hq|]. apply Hu. discriminate.
Defined.

Lemma process_request_refreshes_witness :
  exists d,
    position_snapshots (st_self (snd (_process_request request_u1 state_first_poll))) !! "u1"
      = Some d /\
    od_keys d = [1].
Proof.
  destruct (process_request_refreshes request_u1 state_first_poll
              (st_world state_first_poll) (st_world state_first_poll)
              (st_world state_first_poll) (Some [eurusd_position]))
    as (d & s_h & _ & Hsnap & _); try reflexivity.
  { repeat constructor. }
  exists d. split; [exact Hsnap|].
  assert (Hd : position_snapshots
                 (st_self (snd (_process_request request_u1 state_first_poll))) !! "u1"
               = Some [(1, {| snap_ticket := 1; snap_symbol := "EURUSD";
                              snap_type := "buy"; snap_volume := 0.1;
                              snap_price_open := 1.1000; snap_price_current := 1.1010;
                              snap_sl := 1.0980; snap_tp := 0; snap_profit := 10;
                              snap_swap := 0; snap_commission := 0;
                              snap_time := from_epoch T0;
                              snap_last_seen := from_epoch (T0 + 60) |})])
    by (vm_compute; reflexivity).
  pose proof (eq_trans (eq_sym Hsnap) Hd) as Heq. inversion Heq. reflexivity.
Defined.

Lemma process_request_nothing_closed_witness :
  st_log (snd (_process_request request_u1 state_still_open))
    = [EvInitialize; EvLogin 5 "Broker-Demo"; EvPositionsGet; EvShutdown].
Proof.
  destruct (process_request_nothing_closed request_u1 state_still_open
              (st_world state_still_open) (st_world state_still_open)
              (st_world state_still_open) (Some [eurusd_position]))
    as (Hlog & _); [reflexivity | reflexivity | reflexivity | | exact Hlog].
  intros k Hin. vm_compute in Hin. vm_compute. exact Hin.
Defined.

Lemma process_request_deliveries_witness :
  exists evs delivered,
    st_log (snd (_process_request request_u1 state_full_history)) = evs /\
    map external_trade_id (callbacks_logged evs)
      = map (fun t => "mt5_" +:+ pretty t) delivered /\
    delivered `sublist_of` [1].
Proof.
  destruct (process_request_deliveries request_u1 state_full_history
              (st_world state_full_history) (st_world state_full_history)
              (st_world state_full_history) (Some []))
    as (evs & delivered & Hlog & Hmap & Hsub & _); try reflexivity.
  exists evs, delivered. split; [exact Hlog|]. split; [exact Hmap | exact Hsub].
Defined.

Lemma worker_iteration_fifo_witness :
  request_queue
    (st_self (snd (_process_request request_u1
                     (snd (set_request_queue [] state_one_request)))))
    = [].
Proof.
  destruct (worker_iteration_fifo idle state_one_request) as (_ & Hqueue).
  apply Hqueue. intros t m w. reflexivity.
Defined.

Lemma get_positions_rounds_witness :
  fst (get_positions idle "u1" 5 "secret" "Broker-Demo" None None state_cold_cache)
    = Val (Returned []).
Proof.
  rewrite (get_positions_rounds idle "u1" 5 "secret" "Broker-Demo" None None
             state_cold_cache).
  - vm_compute. reflexivity.
  - vm_compute. lia.
Defined.

Lemma repeat_poll_is_quiet_witness :
  st_log (snd (_process_request request_u1 (snd (_process_request request_u1 state_first_poll))))
    = st_log (snd (_process_request request_u1 state_first_poll))
      ++ [EvInitialize; EvLogin 5 "Broker-Demo"; EvPositionsGet; EvShutdown].
Proof.
  apply (repeat_poll_is_quiet request_u1 request_u1 state_first_poll
           sim_with_position sim_with_position sim_with_position
           sim_with_position sim_with_position sim_with_position
           (Some [eurusd_position]) (Some [eurusd_position]));
    try reflexivity.
  - repeat constructor.
  - intros k Hin. exact Hin.
Defined.

Lemma caller_served_by_worker_witness :
  exists positions,
    fst (get_positions worker_turn "u1" 5 "secret" "Broker-Demo" None None state_first_poll)
      = Val (Returned positions) /\
    forall k, In k (map fp_ticket positions) <-> In k [1].
Proof.
  destruct (caller_served_by_worker "u1" 5 "secret" "Broker-Demo" None None
              state_first_poll
              (sleep 0.1%float sim_with_position) (sleep 0.1%float sim_with_position)
              (sleep 0.1%float sim_with_position) (Some [eurusd_position]))
    as (positions & s' & E & _ & Hkeys & _).
  - reflexivity.
  - reflexivity.
  - reflexivity.
  - reflexivity.
  - reflexivity.
  - repeat constructor.
  - intros k Hin. vm_compute in Hin. destruct Hin.
  - vm_compute. reflexivity.
  - exists positions. rewrite E. split; [reflexivity | exact Hkeys].
Defined.

Lemma fetch_from_deals_time_out_of_range_witness :
  fst (_fetch_from_deals 1
         (script_state [Returns (Some [eurusd_entry_deal; misdated_exit_deal])] []))
    = Val None.
Proof.
  destruct (fetch_from_deals_time_out_of_range 1
              (script_state [Returns (Some [eurusd_entry_deal; misdated_exit_deal])] [])
              [eurusd_entry_deal; misdated_exit_deal] misdated_exit_deal
              {| sc_clock := from_epoch (T0 + 700); sc_deals := []; sc_orders := [] |})
    as (Hnone & _); [reflexivity | reflexivity | reflexivity | exact Hnone].
Defined.

Lemma fetch_from_orders_time_out_of_range_witness :
  fst (_fetch_from_orders 1
         (script_state [Returns (Some [eurusd_entry_deal])]
            [Returns (Some [misdated_order])]))
    = Val None.
Proof.
  apply (fetch_from_orders_time_out_of_range 1
           (script_state [Returns (Some [eurusd_entry_deal])]
              [Returns (Some [misdated_order])])
           [misdated_order] misdated_order (Some [eurusd_entry_deal])
           {| sc_clock := from_epoch (T0 + 700);
              sc_deals := [Returns (Some [eurusd_entry_deal])]; sc_orders := [] |}
           {| sc_clock := from_epoch (T0 + 700); sc_deals := []; sc_orders := [] |});
    reflexivity.
Defined.

Lemma process_request_time_out_of_range_witness :
  st_self (snd (_process_request request_u1 state_misdated_position))
    = st_self state_misdated_position /\
  st_log (snd (_process_request request_u1 state_misdated_position))
    = [EvInitialize; EvLogin 5 "Broker-Demo"; EvPositionsGet; EvShutdown].
Proof.
  rewrite (process_request_time_out_of_range request_u1 state_misdated_position
             (st_world state_misdated_position) (st_world state_misdated_position)
             (st_world state_misdated_position)
             (sim_positions (st_world state_misdated_position)));
    [split; reflexivity | reflexivity | reflexivity | reflexivity |].
  left. reflexivity.
Defined.
